(** * Lifecycle coordination of the OpenHands agent-server

    A shallow embedding of the TypeScript sources

      - [utils/agent-server.ts]  (command builder and path constants),
      - [openhands/types.ts]     (options, handle, startup error),
      - [openhands/openhands.ts] (locator, spawn-and-probe, coordinator, exposure),
      - [routes/handler.ts]      (route-level locator and the three HTTP routes),

    together with the properties the specification states about them.

    Conventions of the embedding.

      - A JavaScript string is a [string]; [includes] depends only on equality
        of the characters, so the choice of code unit does not matter.
      - A port is an integer [Z]; the template literal [`${port}`] is the
        decimal rendering of that integer.
      - [x?: string] is an [option string]; JavaScript truthiness of such a
        value ([undefined] and the empty string are falsy) is [truthy].
      - The sandbox (package [@cloudflare/sandbox]) is an external capability:
        it is a record of state transformers over an arbitrary world type, and
        every one of its operations may throw.  Every call made to it is
        recorded, with its answer, in a trace. *)

From Stdlib Require Import String Ascii List ZArith Bool Lia DecimalString.
From Stdlib Require DecimalZ.
Import ListNotations.
Local Open Scope string_scope.
Local Open Scope Z_scope.

(** ** JavaScript strings *)

Module Js.

(** [String.prototype.includes]: [pat] occurs somewhere in [s]. *)
Fixpoint includes (s pat : string) : bool :=
  if String.prefix pat s then true
  else match s with
       | EmptyString => false
       | String _ s' => includes s' pat
       end.

(** [`${n}`] for an integer [n]. *)
Definition numberToString (n : Z) : string :=
  NilZero.string_of_int (Z.to_int n).

(** Truthiness of a string: only the empty string is falsy. *)
Definition truthyStr (s : string) : bool :=
  negb (String.eqb s "").

(** Truthiness of [string | undefined]. *)
Definition truthy (o : option string) : bool :=
  match o with
  | Some s => truthyStr s
  | None => false
  end.

(** [a || b] on [string | undefined] with a string default. *)
Definition orElse (o : option string) (d : string) : string :=
  match o with
  | Some s => if truthyStr s then s else d
  | None => d
  end.

End Js.

(** ** [utils/agent-server.ts] *)

Definition DEFAULT_AGENT_SERVER_PATH : string :=
  "/container-server/software-agent-sdk/.venv/bin/agent-server".

Definition DEFAULT_AGENT_SERVER_DIR : string :=
  "/container-server/software-agent-sdk".

(** [buildAgentServerCommand(port, directory?)]. *)
Definition buildAgentServerCommand (port : Z) (directory : option string) : string :=
  let command :=
    DEFAULT_AGENT_SERVER_PATH ++ " --host 0.0.0.0 --port " ++ Js.numberToString port in
  match directory with
  | Some d =>
      if Js.truthyStr d && negb (String.eqb d DEFAULT_AGENT_SERVER_DIR)
      then "cd " ++ d ++ " && " ++ command
      else command
  | None => command
  end.

(** ** The sandbox's view of a process *)

Record Process : Type := mkProcess {
  proc_id : string;
  proc_command : string;
  proc_status : string
}.

(** ** [openhands/types.ts] *)

Record OpenhandsOptions : Type := mkOptions {
  opt_port : option Z;
  opt_directory : option string;
  opt_hostname : option string;
  opt_exposePort : option bool;
  opt_env : option (list (string * string));
  opt_sandboxName : option string
}.

Record OpenhandsStartupContext : Type := mkContext {
  ctx_port : Z;
  ctx_stderr : option string;
  ctx_command : option string;
  ctx_processId : option string
}.

(** Values that can be thrown.  [OpenhandsStartupError] is the class of
    [types.ts]; [JsError] is any other [Error] instance (one made with
    [new Error(message)], or one the sandbox throws); [JsNonError] is a thrown
    value that is not an [Error], given by its [String(v)]. *)
Inductive JsValue : Type :=
| JsError (message : string)
| OpenhandsStartupError (message : string) (context : OpenhandsStartupContext)
                        (cause : JsValue)
| JsNonError (text : string).

(** [error instanceof Error ? error.message : String(error)]. *)
Definition errorText (e : JsValue) : string :=
  match e with
  | JsError m => m
  | OpenhandsStartupError m _ _ => m
  | JsNonError t => t
  end.

Definition isStartupError (e : JsValue) : bool :=
  match e with
  | OpenhandsStartupError _ _ _ => true
  | _ => false
  end.

(** The server handle.  [srv_process] is the process captured by the closure
    of [close()]. *)
Record OpenhandsServer : Type := mkServer {
  srv_port : Z;
  srv_url : string;
  srv_previewUrl : option string;
  srv_processId : string;
  srv_process : Process
}.

(** ** Requests and responses of the worker *)

(** The parts of [new URL(request.url)] the handler reads. *)
Record Request : Type := mkRequest {
  req_hostname : string;
  req_pathname : string;
  req_sandboxParam : option string
}.

#[local] Set Warnings "-register-all".

(** A JSON document; a property whose value is [undefined] is left out, as
    [JSON.stringify] does. *)
Inductive Json : Type :=
| JNull
| JBool (b : bool)
| JNumber (n : Z)
| JString (s : string)
| JObject (fields : list (string * Json)).

Inductive Body : Type :=
| JsonBody (j : Json)
| RawBody (text : string).

Record Response : Type := mkResponse {
  resp_status : Z;
  resp_body : Body
}.

(** [Response.json(value, {status})]; the status defaults to 200. *)
Definition Response_json (j : Json) (st : option Z) : Response :=
  {| resp_status := match st with Some n => n | None => 200 end;
     resp_body := JsonBody j |}.

(** A property that is present only when its value is defined. *)
Definition optField (k : string) (v : option Json) : list (string * Json) :=
  match v with
  | Some j => [(k, j)]
  | None => []
  end.

Fixpoint lookupField (k : string) (fields : list (string * Json)) : option Json :=
  match fields with
  | [] => None
  | (k', v) :: rest => if String.eqb k k' then Some v else lookupField k rest
  end.

(** The [success] flag of a JSON envelope, when it is a boolean. *)
Definition successFlag (r : Response) : option bool :=
  match resp_body r with
  | JsonBody (JObject fields) =>
      match lookupField "success" fields with
      | Some (JBool b) => Some b
      | _ => None
      end
  | _ => None
  end.

(** ** The sandbox capability *)

Inductive Result (A : Type) : Type :=
| Ok (a : A)
| Thrown (e : JsValue).
Arguments Ok {A} a.
Arguments Thrown {A} e.

Record StartOptions : Type := mkStartOptions {
  so_cwd : string;
  so_env : option (list (string * string))
}.

Record WaitOptions : Type := mkWaitOptions {
  wo_mode : string;
  wo_path : string;
  wo_timeout : Z
}.

Record Logs : Type := mkLogs {
  logs_stdout : string;
  logs_stderr : option string
}.

(** What [exposePort] resolves to: a string, or an object with a [url]. *)
Inductive Exposed : Type :=
| ExposedString (s : string)
| ExposedObject (url : string).

Record ExposedPort : Type := mkExposedPort {
  ep_port : Z;
  ep_url : string
}.

(** The operations this code consumes, each a transformer of the sandbox's
    world that answers with a value or throws. *)
Record Sandbox (W : Type) : Type := mkSandbox {
  listProcesses : W -> Result (list Process) * W;
  startProcess : string -> StartOptions -> W -> Result Process * W;
  waitForPort : Process -> Z -> WaitOptions -> W -> Result unit * W;
  getLogs : Process -> W -> Result Logs * W;
  kill : Process -> string -> W -> Result unit * W;
  exposePort : Z -> string -> W -> Result Exposed * W;
  getExposedPorts : string -> W -> Result (list ExposedPort) * W
}.
Arguments listProcesses {W} _ _.
Arguments startProcess {W} _ _ _ _.
Arguments waitForPort {W} _ _ _ _ _.
Arguments getLogs {W} _ _ _.
Arguments kill {W} _ _ _ _.
Arguments exposePort {W} _ _ _ _.
Arguments getExposedPorts {W} _ _ _.

(** One entry of the trace: the call and its answer. *)
Inductive Event : Type :=
| EvListProcesses (r : Result (list Process))
| EvStartProcess (cmd : string) (o : StartOptions) (r : Result Process)
| EvWaitForPort (p : Process) (port : Z) (o : WaitOptions) (r : Result unit)
| EvGetLogs (p : Process) (r : Result Logs)
| EvKill (p : Process) (signal : string) (r : Result unit)
| EvExposePort (port : Z) (hostname : string) (r : Result Exposed)
| EvGetExposedPorts (hostname : string) (r : Result (list ExposedPort))
| EvProxyToSandbox (req : Request) (r : Result (option Response))
| EvWarn (msg : string) (e : JsValue).

Definition Trace : Type := list Event.

Definition isListProcesses (ev : Event) : bool :=
  match ev with EvListProcesses _ => true | _ => false end.

Definition isStartProcess (ev : Event) : bool :=
  match ev with EvStartProcess _ _ _ => true | _ => false end.

Definition isWaitForPort (ev : Event) : bool :=
  match ev with EvWaitForPort _ _ _ _ => true | _ => false end.

(** [console.warn] is the only event that is not a call to the sandbox. *)
Definition isSandboxCall (ev : Event) : bool :=
  match ev with EvWarn _ _ => false | _ => true end.

Definition countEvents (f : Event -> bool) (tr : Trace) : nat :=
  List.length (List.filter f tr).

(** ** The monad of asynchronous code: world, exceptions and trace *)

Module Async.

Definition M (W A : Type) : Type := W -> Result A * W * Trace.

Definition ret {W A} (a : A) : M W A := fun w => (Ok a, w, []).

Definition throw {W A} (e : JsValue) : M W A := fun w => (Thrown e, w, []).

Definition bind {W A B} (m : M W A) (k : A -> M W B) : M W B :=
  fun w =>
    match m w with
    | (Ok a, w1, t1) =>
        match k a w1 with
        | (r, w2, t2) => (r, w2, (t1 ++ t2)%list)
        end
    | (Thrown e, w1, t1) => (Thrown e, w1, t1)
    end.

(** [try { m } catch (e) { h e }]. *)
Definition tryCatch {W A} (m : M W A) (h : JsValue -> M W A) : M W A :=
  fun w =>
    match m w with
    | (Ok a, w1, t1) => (Ok a, w1, t1)
    | (Thrown e, w1, t1) =>
        match h e w1 with
        | (r, w2, t2) => (r, w2, (t1 ++ t2)%list)
        end
    end.

(** A call to the environment, recorded in the trace with its answer. *)
Definition call {W A} (op : W -> Result A * W) (ev : Result A -> Event) : M W A :=
  fun w => match op w with (r, w1) => (r, w1, [ev r]) end.

(** An output that cannot fail ([console.warn]). *)
Definition emit {W} (ev : Event) : M W unit := fun w => (Ok tt, w, [ev]).

Definition result {W A} (x : Result A * W * Trace) : Result A := fst (fst x).
Definition world {W A} (x : Result A * W * Trace) : W := snd (fst x).
Definition trace {W A} (x : Result A * W * Trace) : Trace := snd x.

End Async.

Declare Scope async_scope.
Delimit Scope async_scope with async.
Notation "x <- m ;; k" := (Async.bind m (fun x => k))
  (at level 61, m at next level, right associativity) : async_scope.
Notation "m ;;; k" := (Async.bind m (fun _ => k))
  (at level 61, right associativity) : async_scope.
Local Open Scope async_scope.

(** ** [openhands/openhands.ts] *)

Definition DEFAULT_PORT : Z := 8001.

(** The options every readiness wait is called with. *)
Definition readinessOptions : WaitOptions :=
  {| wo_mode := "http"; wo_path := "/"; wo_timeout := 60000 |}.

(** The loop of [findExistingAgentServer] over the listed processes. *)
Fixpoint findExistingIn (port : Z) (processes : list Process) : option Process :=
  match processes with
  | [] => None
  | proc :: rest =>
      if Js.includes (proc_command proc) DEFAULT_AGENT_SERVER_PATH then
        if Js.includes (proc_command proc) ("--port " ++ Js.numberToString port)
           || Js.includes (proc_command proc) ("--port=" ++ Js.numberToString port)
        then
          if String.eqb (proc_status proc) "starting"
             || String.eqb (proc_status proc) "running"
          then Some proc
          else findExistingIn port rest
        else findExistingIn port rest
      else findExistingIn port rest
  end.

(** [`... Stderr: ${logs.stderr || '(empty)'}`]. *)
Definition stderrOrEmpty (logs : Logs) : string :=
  Js.orElse (logs_stderr logs) "(empty)".

Definition startupContext (port : Z) (logs : Logs) (p : Process)
  : OpenhandsStartupContext :=
  {| ctx_port := port;
     ctx_stderr := logs_stderr logs;
     ctx_command := Some (proc_command p);
     ctx_processId := Some (proc_id p) |}.

Section Coordinator.

Context {W : Type} (sandbox : Sandbox W).

Definition callListProcesses : Async.M W (list Process) :=
  Async.call (listProcesses sandbox) EvListProcesses.

Definition callStartProcess (cmd : string) (o : StartOptions) : Async.M W Process :=
  Async.call (startProcess sandbox cmd o) (EvStartProcess cmd o).

Definition callWaitForPort (p : Process) (port : Z) (o : WaitOptions) : Async.M W unit :=
  Async.call (waitForPort sandbox p port o) (EvWaitForPort p port o).

Definition callGetLogs (p : Process) : Async.M W Logs :=
  Async.call (getLogs sandbox p) (EvGetLogs p).

Definition callKill (p : Process) (signal : string) : Async.M W unit :=
  Async.call (kill sandbox p signal) (EvKill p signal).

Definition callExposePort (port : Z) (hostname : string) : Async.M W Exposed :=
  Async.call (exposePort sandbox port hostname) (EvExposePort port hostname).

Definition callGetExposedPorts (hostname : string) : Async.M W (list ExposedPort) :=
  Async.call (getExposedPorts sandbox hostname) (EvGetExposedPorts hostname).

Definition findExistingAgentServer (port : Z) : Async.M W (option Process) :=
  processes <- callListProcesses ;;
  Async.ret (findExistingIn port processes).

Definition startAgentServer (port : Z) (options : OpenhandsOptions)
  : Async.M W Process :=
  let directory := Js.orElse (opt_directory options) DEFAULT_AGENT_SERVER_DIR in
  let command := buildAgentServerCommand port (Some directory) in
  process <- callStartProcess command
               {| so_cwd := directory; so_env := opt_env options |} ;;
  Async.tryCatch
    (callWaitForPort process port readinessOptions)
    (fun e =>
       logs <- callGetLogs process ;;
       Async.throw
         (OpenhandsStartupError
            ("agent-server failed to start on port " ++ Js.numberToString port
             ++ ". Stderr: " ++ stderrOrEmpty logs)
            (startupContext port logs process) e)) ;;;
  Async.ret process.

Definition ensureAgentServer (port : Z) (options : OpenhandsOptions)
  : Async.M W Process :=
  existingProcess <- findExistingAgentServer port ;;
  match existingProcess with
  | Some existingProcess =>
      (if String.eqb (proc_status existingProcess) "starting" then
         Async.tryCatch
           (callWaitForPort existingProcess port readinessOptions)
           (fun e =>
              logs <- callGetLogs existingProcess ;;
              Async.throw
                (OpenhandsStartupError
                   ("agent-server failed to start. Stderr: " ++ stderrOrEmpty logs)
                   (startupContext port logs existingProcess) e))
       else Async.ret tt) ;;;
      Async.ret existingProcess
  | None =>
      Async.tryCatch
        (startAgentServer port options)
        (fun startupError =>
           retryProcess <- findExistingAgentServer port ;;
           match retryProcess with
           | Some retryProcess =>
               (if String.eqb (proc_status retryProcess) "starting" then
                  Async.tryCatch
                    (callWaitForPort retryProcess port readinessOptions)
                    (fun e =>
                       logs <- callGetLogs retryProcess ;;
                       Async.throw
                         (OpenhandsStartupError
                            ("agent-server failed to start. Stderr: "
                             ++ stderrOrEmpty logs)
                            (startupContext port logs retryProcess) e))
                else Async.ret tt) ;;;
               Async.ret retryProcess
           | None => Async.throw startupError
           end)
  end.

Definition hostnameRequired : string :=
  "hostname is required when exposePort is true. Provide hostname in options or extract from request URL.".

Definition createOpenhandsServer (options : OpenhandsOptions)
  : Async.M W OpenhandsServer :=
  let port := match opt_port options with Some p => p | None => DEFAULT_PORT end in
  process <- ensureAgentServer port options ;;
  previewUrl <-
    match opt_exposePort options with
    | Some true =>
        if negb (Js.truthy (opt_hostname options)) then
          Async.throw (JsError hostnameRequired)
        else
          Async.tryCatch
            (exposed <- callExposePort port (Js.orElse (opt_hostname options) "") ;;
             Async.ret (Some (match exposed with
                              | ExposedString s => s
                              | ExposedObject url => url
                              end)))
            (fun error =>
               Async.emit (EvWarn "Failed to expose port:" error) ;;;
               Async.ret None)
    | _ => Async.ret None
    end ;;
  Async.ret {| srv_port := port;
               srv_url := "http://localhost:" ++ Js.numberToString port;
               srv_previewUrl := previewUrl;
               srv_processId := proc_id process;
               srv_process := process |}.

(** [server.close()]. *)
Definition close (server : OpenhandsServer) : Async.M W unit :=
  callKill (srv_process server) "SIGTERM".

End Coordinator.

(** ** [routes/handler.ts] *)

Record OpenhandsHandlerOptions : Type := mkHandlerOptions {
  ho_options : OpenhandsOptions;
  ho_basePath : option string;
  ho_getSandboxName : option (Request -> option string)
}.

(** The worker's environment: [getSandbox(env.Sandbox, name)] and
    [proxyToSandbox(request, env)]. *)
Record WorkerEnv (W : Type) : Type := mkWorkerEnv {
  getSandbox : string -> Sandbox W;
  proxyToSandbox : Request -> W -> Result (option Response) * W
}.
Arguments getSandbox {W} _ _.
Arguments proxyToSandbox {W} _ _ _.

Definition serverOf (port : Z) (previewUrl : option string) (process : Process)
  : OpenhandsServer :=
  {| srv_port := port;
     srv_url := "http://localhost:" ++ Js.numberToString port;
     srv_previewUrl := previewUrl;
     srv_processId := proc_id process;
     srv_process := process |}.

Section Routes.

Context {W : Type}.

(** [error.stack], which the engine decides. *)
Variable stackOf : JsValue -> option string.

(** The loop of [findOpenhandsServer] over the listed processes. *)
Fixpoint findOpenhandsIn (sandbox : Sandbox W) (port : Z) (processes : list Process)
  : Async.M W (option OpenhandsServer) :=
  match processes with
  | [] => Async.ret None
  | process :: rest =>
      if Js.includes (proc_command process) DEFAULT_AGENT_SERVER_PATH
         && (Js.includes (proc_command process) ("--port " ++ Js.numberToString port)
             || Js.includes (proc_command process) ("--port=" ++ Js.numberToString port))
         && (String.eqb (proc_status process) "running"
             || String.eqb (proc_status process) "starting")
      then
        previewUrl <-
          Async.tryCatch
            (exposedPorts <- callGetExposedPorts sandbox "" ;;
             Async.ret
               (option_map ep_url
                  (List.find (fun p => Z.eqb (ep_port p) port) exposedPorts)))
            (fun _ => Async.ret None) ;;
        Async.ret (Some (serverOf port previewUrl process))
      else findOpenhandsIn sandbox port rest
  end.

Definition findOpenhandsServer (sandbox : Sandbox W) (port : Z)
  : Async.M W (option OpenhandsServer) :=
  processes <- callListProcesses sandbox ;;
  findOpenhandsIn sandbox port processes.

Definition callProxyToSandbox (env : WorkerEnv W) (request : Request)
  : Async.M W (option Response) :=
  Async.call (proxyToSandbox env request) (EvProxyToSandbox request).

Definition withHostname (options : OpenhandsOptions) (h : option string)
  : OpenhandsOptions :=
  {| opt_port := opt_port options;
     opt_directory := opt_directory options;
     opt_hostname := h;
     opt_exposePort := opt_exposePort options;
     opt_env := opt_env options;
     opt_sandboxName := opt_sandboxName options |}.

Definition startRoute (sandbox : Sandbox W) (options : OpenhandsOptions)
           (request : Request) : Async.M W (option Response) :=
  Async.tryCatch
    (let hostname := Js.orElse (opt_hostname options) (req_hostname request) in
     server <- createOpenhandsServer sandbox
                 (withHostname options
                    (match opt_exposePort options with
                     | Some true => Some hostname
                     | _ => None
                     end)) ;;
     Async.ret
       (Some (Response_json
                (JObject
                   ([("process",
                      JObject [("id", JString (srv_processId server));
                               ("port", JNumber (srv_port server));
                               ("status", JString "running")])]
                    ++ optField "previewUrl"
                         (if Js.truthy (srv_previewUrl server)
                          then Some (JObject
                                       [("url", JString (Js.orElse (srv_previewUrl server) ""));
                                        ("port", JNumber (srv_port server))])
                          else None)
                    ++ [("success", JBool true)]))
                None)))
    (fun error =>
       Async.ret
         (Some (Response_json
                  (JObject
                     ([("error", JString (errorText error))]
                      ++ optField "errorStack"
                           (match error with
                            | JsNonError _ => None
                            | _ => option_map JString (stackOf error)
                            end)
                      ++ [("success", JBool false)]))
                  (Some 500)))).

Definition errorEnvelope (error : JsValue) : Response :=
  Response_json
    (JObject [("error", JString (errorText error)); ("success", JBool false)])
    (Some 500).

Definition stopRoute (sandbox : Sandbox W) (options : OpenhandsOptions)
  : Async.M W (option Response) :=
  Async.tryCatch
    (let port := match opt_port options with Some p => p | None => 8001 end in
     server <- findOpenhandsServer sandbox port ;;
     match server with
     | Some server =>
         close sandbox server ;;;
         Async.ret
           (Some (Response_json
                    (JObject [("success", JBool true);
                              ("message", JString "Server stopped")])
                    None))
     | None =>
         Async.ret
           (Some (Response_json
                    (JObject [("success", JBool false);
                              ("message", JString "No server running")])
                    (Some 404)))
     end)
    (fun error => Async.ret (Some (errorEnvelope error))).

Definition statusRoute (sandbox : Sandbox W) (options : OpenhandsOptions)
  : Async.M W (option Response) :=
  Async.tryCatch
    (let port := match opt_port options with Some p => p | None => 8001 end in
     server <- findOpenhandsServer sandbox port ;;
     match server with
     | None =>
         Async.ret
           (Some (Response_json
                    (JObject [("running", JBool false); ("success", JBool true)])
                    None))
     | Some server =>
         processes <- callListProcesses sandbox ;;
         let process :=
           List.find (fun p => String.eqb (proc_id p) (srv_processId server))
                     processes in
         Async.ret
           (Some (Response_json
                    (JObject
                       ([("running",
                          JBool (match process with
                                 | Some p => String.eqb (proc_status p) "running"
                                 | None => false
                                 end));
                         ("port", JNumber (srv_port server))]
                        ++ optField "previewUrl"
                             (option_map JString (srv_previewUrl server))
                        ++ [("process",
                             match process with
                             | Some p =>
                                 JObject [("id", JString (proc_id p));
                                          ("status", JString (proc_status p));
                                          ("command", JString (proc_command p))]
                             | None => JNull
                             end);
                            ("success", JBool true)]))
                    None))
     end)
    (fun error => Async.ret (Some (errorEnvelope error))).

(** The function [createOpenhandsHandler(options)] returns. *)
Definition createOpenhandsHandler (hopts : OpenhandsHandlerOptions)
           (request : Request) (env : WorkerEnv W) : Async.M W (option Response) :=
  let options := ho_options hopts in
  let basePath := Js.orElse (ho_basePath hopts) "" in
  let getSandboxName :=
    match ho_getSandboxName hopts with
    | Some f => f
    | None => req_sandboxParam
    end in
  let pathname := req_pathname request in
  let sandboxName :=
    Js.orElse (getSandboxName request)
              (Js.orElse (opt_sandboxName options) "my-sandbox") in
  let sandbox := getSandbox env sandboxName in
  proxyResponse <- callProxyToSandbox env request ;;
  match proxyResponse with
  | Some r => Async.ret (Some r)
  | None =>
      if String.eqb pathname (basePath ++ "/start-openhands") then
        startRoute sandbox options request
      else if String.eqb pathname (basePath ++ "/stop-openhands") then
        stopRoute sandbox options
      else if String.eqb pathname (basePath ++ "/openhands-status") then
        statusRoute sandbox options
      else Async.ret None
  end.

End Routes.

(** ** A small sandbox to run the code on

    A process table, the answer the next [startProcess] gives, the processes a
    concurrent caller adds to the table while this caller spawns, the ids of
    the processes whose port answers, the captured stderr and the answer of
    [exposePort]. *)

Module Sim.

Record World : Type := mkWorld {
  procs : list Process;
  spawn : Result Process;
  race : list Process;
  readyIds : list string;
  stderrText : option string;
  expose : Result Exposed
}.

Definition sim_listProcesses (w : World) : Result (list Process) * World :=
  (Ok (procs w), w).

Definition sim_startProcess (cmd : string) (o : StartOptions) (w : World)
  : Result Process * World :=
  match spawn w with
  | Ok p =>
      let started := {| proc_id := proc_id p; proc_command := cmd;
                        proc_status := proc_status p |} in
      (Ok started,
       {| procs := (procs w ++ race w ++ [started])%list; spawn := spawn w;
          race := []; readyIds := readyIds w; stderrText := stderrText w;
          expose := expose w |})
  | Thrown e =>
      (Thrown e,
       {| procs := (procs w ++ race w)%list; spawn := spawn w; race := [];
          readyIds := readyIds w; stderrText := stderrText w;
          expose := expose w |})
  end.

Definition sim_waitForPort (p : Process) (port : Z) (o : WaitOptions) (w : World)
  : Result unit * World :=
  if List.existsb (String.eqb (proc_id p)) (readyIds w)
  then (Ok tt, w)
  else (Thrown (JsError "Timed out waiting for port"), w).

Definition sim_getLogs (p : Process) (w : World) : Result Logs * World :=
  (Ok {| logs_stdout := ""; logs_stderr := stderrText w |}, w).

Definition sim_kill (p : Process) (signal : string) (w : World)
  : Result unit * World :=
  (Ok tt,
   {| procs := List.map (fun q => if String.eqb (proc_id q) (proc_id p)
                                  then {| proc_id := proc_id q;
                                          proc_command := proc_command q;
                                          proc_status := "killed" |}
                                  else q) (procs w);
      spawn := spawn w; race := race w; readyIds := readyIds w;
      stderrText := stderrText w; expose := expose w |}).

Definition sim_exposePort (port : Z) (hostname : string) (w : World)
  : Result Exposed * World :=
  (expose w, w).

Definition sim_getExposedPorts (hostname : string) (w : World)
  : Result (list ExposedPort) * World :=
  (Ok [], w).

Definition sandbox : Sandbox World :=
  {| listProcesses := sim_listProcesses;
     startProcess := sim_startProcess;
     waitForPort := sim_waitForPort;
     getLogs := sim_getLogs;
     kill := sim_kill;
     exposePort := sim_exposePort;
     getExposedPorts := sim_getExposedPorts |}.

Definition env : WorkerEnv World :=
  {| getSandbox := fun _ => sandbox;
     proxyToSandbox := fun _ w => (Ok None, w) |}.

Definition noOptions : OpenhandsOptions :=
  {| opt_port := None; opt_directory := None; opt_hostname := None;
     opt_exposePort := None; opt_env := None; opt_sandboxName := None |}.

Definition fresh : Process :=
  {| proc_id := "proc-1"; proc_command := ""; proc_status := "running" |}.

(** An empty sandbox in which a spawn succeeds and the port answers. *)
Definition healthy : World :=
  {| procs := []; spawn := Ok fresh; race := []; readyIds := ["proc-1"];
     stderrText := None; expose := Ok (ExposedObject "https://8001-sb.example.com") |}.

(** An empty sandbox in which a spawn succeeds and the port never answers. *)
Definition deaf : World :=
  {| procs := []; spawn := Ok fresh; race := []; readyIds := [];
     stderrText := Some "Traceback: address already in use";
     expose := Ok (ExposedObject "https://8001-sb.example.com") |}.

(** A server that is still starting and whose port does not answer. *)
Definition booting : Process :=
  {| proc_id := "proc-3";
     proc_command := buildAgentServerCommand 8001 None;
     proc_status := "starting" |}.

Definition warming : World :=
  {| procs := [booting]; spawn := Ok fresh; race := []; readyIds := [];
     stderrText := Some "ImportError: no module named uvicorn";
     expose := Ok (ExposedObject "https://8001-sb.example.com") |}.

(** A concurrent caller wins the race: this caller's spawn is rejected and
    the winner's process is in the table afterwards. *)
Definition winner : Process :=
  {| proc_id := "proc-7";
     proc_command := buildAgentServerCommand 8001 None;
     proc_status := "running" |}.

Definition racing : World :=
  {| procs := []; spawn := Thrown (JsError "Process already exists");
     race := [winner]; readyIds := ["proc-7"]; stderrText := None;
     expose := Ok (ExposedObject "https://8001-sb.example.com") |}.

(** A healthy sandbox whose exposure call fails. *)
Definition unexposable : World :=
  {| procs := []; spawn := Ok fresh; race := []; readyIds := ["proc-1"];
     stderrText := None; expose := Thrown (JsError "exposure failed") |}.

Definition exposeOn (hostname : string) : OpenhandsOptions :=
  {| opt_port := None; opt_directory := None; opt_hostname := Some hostname;
     opt_exposePort := Some true; opt_env := None; opt_sandboxName := None |}.

End Sim.

(** * Vocabulary of the properties *)

(** [pat] occurs in [s]. *)
Definition contains (s pat : string) : Prop :=
  exists a c, s = a ++ pat ++ c.

(** The selection the specification describes: the command line contains the
    binary path and one of the two port flags, and the status is active. *)
Definition Matches (port : Z) (p : Process) : Prop :=
  contains (proc_command p) DEFAULT_AGENT_SERVER_PATH
  /\ (contains (proc_command p) ("--port " ++ Js.numberToString port)
      \/ contains (proc_command p) ("--port=" ++ Js.numberToString port))
  /\ (proc_status p = "starting" \/ proc_status p = "running").

Definition commandMatches (port : Z) (cmd : string) : bool :=
  Js.includes cmd DEFAULT_AGENT_SERVER_PATH
  && (Js.includes cmd ("--port " ++ Js.numberToString port)
      || Js.includes cmd ("--port=" ++ Js.numberToString port)).

Definition isActive (st : string) : bool :=
  String.eqb st "starting" || String.eqb st "running".

Definition matchesAgentServer (port : Z) (p : Process) : bool :=
  commandMatches port (proc_command p) && isActive (proc_status p).

(** The launch command itself, without a directory change. *)
Definition launchCommand (port : Z) : string :=
  DEFAULT_AGENT_SERVER_PATH ++ " --host 0.0.0.0 --port " ++ Js.numberToString port.

(** The preview-address lookup of [findOpenhandsServer]; its errors are
    ignored. *)
Definition previewLookup {W} (sb : Sandbox W) (port : Z) : Async.M W (option string) :=
  Async.tryCatch
    (exposedPorts <- callGetExposedPorts sb "" ;;
     Async.ret
       (option_map ep_url (List.find (fun p => Z.eqb (ep_port p) port) exposedPorts)))
    (fun _ => Async.ret None).

Definition startCommand (port : Z) (options : OpenhandsOptions) : string :=
  buildAgentServerCommand port
    (Some (Js.orElse (opt_directory options) DEFAULT_AGENT_SERVER_DIR)).

Definition startOptions (options : OpenhandsOptions) : StartOptions :=
  {| so_cwd := Js.orElse (opt_directory options) DEFAULT_AGENT_SERVER_DIR;
     so_env := opt_env options |}.

(** The error a failed readiness wait on a freshly spawned process raises. *)
Definition spawnFailure (port : Z) (logs : Logs) (p : Process) (cause : JsValue)
  : JsValue :=
  OpenhandsStartupError
    ("agent-server failed to start on port " ++ Js.numberToString port
     ++ ". Stderr: " ++ stderrOrEmpty logs)
    (startupContext port logs p) cause.

(** The error a failed readiness wait on a located process raises. *)
Definition reuseFailure (port : Z) (logs : Logs) (p : Process) (cause : JsValue)
  : JsValue :=
  OpenhandsStartupError
    ("agent-server failed to start. Stderr: " ++ stderrOrEmpty logs)
    (startupContext port logs p) cause.

(** The reuse branch of [ensureAgentServer]: what is done with a process the
    locator found at the start of the call. *)
Definition reuseBranch {W} (sb : Sandbox W) (port : Z) (existingProcess : Process)
  : Async.M W Process :=
  (if String.eqb (proc_status existingProcess) "starting" then
     Async.tryCatch
       (callWaitForPort sb existingProcess port readinessOptions)
       (fun e =>
          logs <- callGetLogs sb existingProcess ;;
          Async.throw (reuseFailure port logs existingProcess e))
   else Async.ret tt) ;;;
  Async.ret existingProcess.

(** A run that happens after the events [t0]. *)
Definition after {W A} (t0 : Trace) (x : Result A * W * Trace) : Result A * W * Trace :=
  match x with
  | (r, w, t) => (r, w, (t0 ++ t)%list)
  end.

(** Events of a readiness wait on [p]: the wait, and the log fetch after a
    failed wait. *)
Definition isProbeOf (p : Process) (port : Z) (ev : Event) : Prop :=
  match ev with
  | EvWaitForPort p' port' o _ => p' = p /\ port' = port /\ o = readinessOptions
  | EvGetLogs p' _ => p' = p
  | _ => False
  end.

(** [options.port ?? DEFAULT_PORT]. *)
Definition portOf (options : OpenhandsOptions) : Z :=
  match opt_port options with
  | Some p => p
  | None => DEFAULT_PORT
  end.

Definition exposedUrl (exposed : Exposed) : string :=
  match exposed with
  | ExposedString s => s
  | ExposedObject url => url
  end.

Definition exposeWarning : string := "Failed to expose port:".

(** The events a run of the coordinator can produce: listings, the spawn,
    readiness waits on the given port with the fixed options, log fetches. *)
Definition coordinatorEvent (port : Z) (ev : Event) : Prop :=
  match ev with
  | EvListProcesses _ => True
  | EvStartProcess _ _ _ => True
  | EvWaitForPort _ port' o _ => port' = port /\ o = readinessOptions
  | EvGetLogs _ _ => True
  | _ => False
  end.

Definition exposeWithoutHostname : OpenhandsOptions :=
  {| opt_port := None; opt_directory := None; opt_hostname := None;
     opt_exposePort := Some true; opt_env := None; opt_sandboxName := None |}.

(** A process table that only this code changes, read along a trace: the
    table is what the last listing showed; a successful [startProcess] adds
    one entry at its end, with the id the call returned, the command it was
    given and an active status; nothing else changes the table, and the
    listing itself does not fail. *)
Definition process_eqb (p q : Process) : bool :=
  String.eqb (proc_id p) (proc_id q)
  && String.eqb (proc_command p) (proc_command q)
  && String.eqb (proc_status p) (proc_status q).

Definition spawnedEntry (spawned : string * string) (q : Process) : bool :=
  String.eqb (proc_id q) (fst spawned)
  && String.eqb (proc_command q) (snd spawned)
  && isActive (proc_status q).

Fixpoint entriesOf (spawned : list (string * string)) (l : list Process) : bool :=
  match spawned, l with
  | [], [] => true
  | s :: spawned', q :: l' => spawnedEntry s q && entriesOf spawned' l'
  | _, _ => false
  end.

(** [l] is [table] followed by one entry per spawned process. *)
Fixpoint extends (table : list Process) (spawned : list (string * string))
         (l : list Process) : bool :=
  match table with
  | [] => entriesOf spawned l
  | p :: table' =>
      match l with
      | [] => false
      | q :: l' => process_eqb p q && extends table' spawned l'
      end
  end.

(** [quietFrom table spawned tr]: along [tr], every listing shows the table
    as the last listing showed it ([table]), extended by the processes spawned
    since ([spawned], by id and command). *)
Fixpoint quietFrom (table : option (list Process)) (spawned : list (string * string))
         (tr : Trace) : bool :=
  match tr with
  | [] => true
  | EvListProcesses (Ok l) :: rest =>
      match table with
      | Some t => extends t spawned l
      | None => true
      end && quietFrom (Some l) [] rest
  | EvListProcesses (Thrown _) :: _ => false
  | EvStartProcess cmd _ (Ok p) :: rest =>
      quietFrom table (spawned ++ [(proc_id p, cmd)])%list rest
  | _ :: rest => quietFrom table spawned rest
  end.

(** A readiness wait that succeeded during [tr1] does not fail during [tr2]
    for the same process id, port and options. *)
Definition readinessPersists (tr1 tr2 : Trace) : Prop :=
  forall p port o e,
    In (EvWaitForPort p port o (Thrown e)) tr2 ->
    forall p', proc_id p' = proc_id p ->
               ~ In (EvWaitForPort p' port o (Ok tt)) tr1.

Definition isProbeEvent (ev : Event) : bool :=
  match ev with
  | EvWaitForPort _ _ _ _ | EvGetLogs _ _ | EvExposePort _ _ _ | EvWarn _ _ => true
  | _ => false
  end.

(** After a successful run of the coordinator that returned [p], on a quiet
    table: whatever the next listing shows, the locator finds in it a process
    with [p]'s id, already probed with success if it is still [starting]. *)
Definition relocatable (port : Z) (p : Process) (t1 : Trace)
           (table : list Process) (spawned : list (string * string)) : Prop :=
  forall l,
    extends table spawned l = true ->
    exists q,
      findExistingIn port l = Some q
      /\ proc_id q = proc_id p
      /\ (proc_status q = "starting" ->
          exists p', proc_id p' = proc_id q
                     /\ In (EvWaitForPort p' port readinessOptions (Ok tt)) t1).

Definition stoppedResponse : Response :=
  Response_json (JObject [("success", JBool true); ("message", JString "Server stopped")])
                None.

Definition notRunningResponse : Response :=
  Response_json (JObject [("success", JBool false);
                          ("message", JString "No server running")])
                (Some 404).

Definition idleStatusResponse : Response :=
  Response_json (JObject [("running", JBool false); ("success", JBool true)]) None.

(** The sandbox a request is routed to. *)
Definition sandboxFor {W} (hopts : OpenhandsHandlerOptions) (request : Request)
           (env : WorkerEnv W) : Sandbox W :=
  getSandbox env
    (Js.orElse
       ((match ho_getSandboxName hopts with
         | Some f => f
         | None => req_sandboxParam
         end) request)
       (Js.orElse (opt_sandboxName (ho_options hopts)) "my-sandbox")).

Definition statusRequest : Request :=
  {| req_hostname := "worker.example.com";
     req_pathname := "/openhands-status";
     req_sandboxParam := None |}.

Definition defaultHandlerOptions : OpenhandsHandlerOptions :=
  {| ho_options := Sim.noOptions; ho_basePath := None; ho_getSandboxName := None |}.

Definition stopRequest : Request :=
  {| req_hostname := "worker.example.com";
     req_pathname := "/stop-openhands";
     req_sandboxParam := None |}.

(** * More of the sources *)

(** ** [utils/agent-server.ts]: looking for the executable

    These functions only use [sandbox.exec]; their calls are recorded in a
    trace of their own. *)

(** What the code reads of the answer of [exec]. *)
Record ExecResult : Type := mkExecResult {
  exec_stdout : string
}.

Record ExecCall : Type := mkExecCall {
  call_command : string;
  call_answer : Result ExecResult
}.

Module Shell.

Definition M (W A : Type) : Type := W -> Result A * W * list ExecCall.

Definition ret {W A} (a : A) : M W A := fun w => (Ok a, w, []).

Definition bind {W A B} (m : M W A) (k : A -> M W B) : M W B :=
  fun w =>
    match m w with
    | (Ok a, w1, t1) =>
        match k a w1 with
        | (r, w2, t2) => (r, w2, (t1 ++ t2)%list)
        end
    | (Thrown e, w1, t1) => (Thrown e, w1, t1)
    end.

Definition tryCatch {W A} (m : M W A) (h : JsValue -> M W A) : M W A :=
  fun w =>
    match m w with
    | (Ok a, w1, t1) => (Ok a, w1, t1)
    | (Thrown e, w1, t1) =>
        match h e w1 with
        | (r, w2, t2) => (r, w2, (t1 ++ t2)%list)
        end
    end.

(** [await sandbox.exec(command)]. *)
Definition exec {W} (run : string -> W -> Result ExecResult * W) (command : string)
  : M W ExecResult :=
  fun w => match run command w with (r, w1) => (r, w1, [mkExecCall command r]) end.

End Shell.

(** The double quote character of the shell commands. *)
Definition dquote : string := String (Ascii.ascii_of_nat 34) EmptyString.

(** [`test -f ${path} && echo "EXISTS" || echo "NOT_FOUND"`]. *)
Definition existsCommand (path : string) : string :=
  "test -f " ++ path ++ " && echo " ++ dquote ++ "EXISTS" ++ dquote
  ++ " || echo " ++ dquote ++ "NOT_FOUND" ++ dquote.

(** The three locations [findAgentServerPath] probes, in order. *)
Definition agentServerLocations : list string :=
  [DEFAULT_AGENT_SERVER_PATH;
   "/software-agent-sdk/.venv/bin/agent-server";
   "/root/software-agent-sdk/.venv/bin/agent-server"].

Section AgentServerPath.

Context {W : Type}.

(** [sandbox.exec]. *)
Variable run : string -> W -> Result ExecResult * W.

(** [String.prototype.trim], as the engine defines it. *)
Variable trim : string -> string.

(** [checkAgentServerExists(sandbox, path = DEFAULT_AGENT_SERVER_PATH)]. *)
Definition checkAgentServerExists (path : option string) : Shell.M W bool :=
  let path := match path with Some p => p | None => DEFAULT_AGENT_SERVER_PATH end in
  Shell.tryCatch
    (Shell.bind (Shell.exec run (existsCommand path))
       (fun result => Shell.ret (String.eqb (trim (exec_stdout result)) "EXISTS")))
    (fun _ => Shell.ret false).

(** The [for] loop of [findAgentServerPath]: the first location that exists,
    or [None] when the loop runs to its end. *)
Fixpoint firstExistingLocation (locations : list string) : Shell.M W (option string) :=
  match locations with
  | [] => Shell.ret None
  | location :: rest =>
      Shell.bind (checkAgentServerExists (Some location))
        (fun found =>
           if found then Shell.ret (Some location)
           else firstExistingLocation rest)
  end.

(** [findAgentServerPath(sandbox)]. *)
Definition findAgentServerPath : Shell.M W (option string) :=
  Shell.bind (firstExistingLocation agentServerLocations)
    (fun found =>
       match found with
       | Some location => Shell.ret (Some location)
       | None =>
           Shell.tryCatch
             (Shell.bind (Shell.exec run "which agent-server")
                (fun result =>
                   let path := trim (exec_stdout result) in
                   if Js.truthyStr path && negb (Js.includes path "not found")
                   then Shell.ret (Some path)
                   else Shell.ret None))
             (fun _ => Shell.ret None)
       end).

End AgentServerPath.

(** ** [routes/handler.ts]: wrapping a worker's own handler *)

(** [attachOpenhandsRoutes(fetchHandler, options)]; the worker's own handler
    is an arbitrary computation. *)
Definition attachOpenhandsRoutes {W} (stackOf : JsValue -> option string)
           (fetchHandler : Request -> WorkerEnv W -> Async.M W Response)
           (hopts : OpenhandsHandlerOptions)
           (request : Request) (env : WorkerEnv W) : Async.M W Response :=
  openhandsResponse <- createOpenhandsHandler stackOf hopts request env ;;
  match openhandsResponse with
  | Some r => Async.ret r
  | None => fetchHandler request env
  end.

(** ** Vocabulary of the further properties *)

Definition isGetLogs (ev : Event) : bool :=
  match ev with EvGetLogs _ _ => true | _ => false end.

Definition isKill (ev : Event) : bool :=
  match ev with EvKill _ _ _ => true | _ => false end.

Definition isExposePort (ev : Event) : bool :=
  match ev with EvExposePort _ _ _ => true | _ => false end.

(** The calls the coordinator may make. *)
Definition isCoordinatorCall (ev : Event) : bool :=
  isListProcesses ev || isStartProcess ev || isWaitForPort ev || isGetLogs ev.

(** The calls that only read the sandbox's state. *)
Definition isReadOnlyCall (ev : Event) : bool :=
  match ev with
  | EvListProcesses _ | EvGetExposedPorts _ _ => true
  | _ => false
  end.

(** [options.directory || DEFAULT_AGENT_SERVER_DIR]. *)
Definition directoryOf (options : OpenhandsOptions) : string :=
  Js.orElse (opt_directory options) DEFAULT_AGENT_SERVER_DIR.

(** The options the start route passes to [createOpenhandsServer]. *)
Definition startRouteOptions (options : OpenhandsOptions) (request : Request)
  : OpenhandsOptions :=
  withHostname options
    (match opt_exposePort options with
     | Some true => Some (Js.orElse (opt_hostname options) (req_hostname request))
     | _ => None
     end).

(** The answer to a probe says the file exists. *)
Definition saysExists (trim : string -> string) (c : ExecCall) : bool :=
  match call_answer c with
  | Ok r => String.eqb (trim (exec_stdout r)) "EXISTS"
  | Thrown _ => false
  end.

(** The [running] flag the status route computes from its second listing. *)
Definition listedAsRunning (pid : string) (processes : list Process) : bool :=
  match List.find (fun p => String.eqb (proc_id p) pid) processes with
  | Some p => String.eqb (proc_status p) "running"
  | None => false
  end.

(** A property of a JSON answer. *)
Definition responseField (k : string) (r : Response) : option Json :=
  match resp_body r with
  | JsonBody (JObject fields) => lookupField k fields
  | _ => None
  end.

(** The preview address [findOpenhandsServer] reads off the exposed ports. *)
Definition previewOf (port : Z) (answer : Result (list ExposedPort)) : option string :=
  match answer with
  | Ok exposedPorts =>
      option_map ep_url (List.find (fun p => Z.eqb (ep_port p) port) exposedPorts)
  | Thrown _ => None
  end.

(** What [findAgentServerPath] makes of the answer of [which agent-server]. *)
Definition whichPath (trim : string -> string) (answer : Result ExecResult)
  : option string :=
  match answer with
  | Ok result =>
      let path := trim (exec_stdout result) in
      if Js.truthyStr path && negb (Js.includes path "not found")
      then Some path
      else None
  | Thrown _ => None
  end.

(** The four commands [findAgentServerPath] can run, in order. *)
Definition pathCommands : list string :=
  (List.map existsCommand agentServerLocations ++ ["which agent-server"])%list.

(** A shell in which every probe says the file is missing and [which]
    prints a path. *)
Definition shellWithWhich (command : string) (w : unit) : Result ExecResult * unit :=
  if String.eqb command "which agent-server"
  then (Ok {| exec_stdout := "/usr/local/bin/agent-server" |}, w)
  else (Ok {| exec_stdout := "NOT_FOUND" |}, w).

(** A shell in which the default path exists. *)
Definition shellWithDefault (command : string) (w : unit) : Result ExecResult * unit :=
  if String.eqb command (existsCommand DEFAULT_AGENT_SERVER_PATH)
  then (Ok {| exec_stdout := "EXISTS" |}, w)
  else (Thrown (JsError "exec failed"), w).

Definition startRequest : Request :=
  {| req_hostname := "worker.example.com";
     req_pathname := "/start-openhands";
     req_sandboxParam := None |}.

Definition otherRequest : Request :=
  {| req_hostname := "worker.example.com";
     req_pathname := "/health";
     req_sandboxParam := None |}.

(** A worker's own handler that answers 404. *)
Definition notFoundHandler {W} (_ : Request) (_ : WorkerEnv W) : Async.M W Response :=
  Async.ret {| resp_status := 404; resp_body := RawBody "Not found" |}.

(** ** Further sandboxes *)

(** The small sandbox with a [getLogs] that throws. *)
Definition sandboxWithoutLogs : Sandbox Sim.World :=
  {| listProcesses := Sim.sim_listProcesses;
     startProcess := Sim.sim_startProcess;
     waitForPort := Sim.sim_waitForPort;
     getLogs := fun _ w => (Thrown (JsError "logs unavailable"), w);
     kill := Sim.sim_kill;
     exposePort := Sim.sim_exposePort;
     getExposedPorts := Sim.sim_getExposedPorts |}.

(** The small sandbox with a port that answers one readiness wait and then
    stops answering; the process table is left as it is. *)
Definition sandboxAnsweringOnce : Sandbox Sim.World :=
  {| listProcesses := Sim.sim_listProcesses;
     startProcess := Sim.sim_startProcess;
     waitForPort :=
       fun p port o w =>
         if List.existsb (String.eqb (proc_id p)) (Sim.readyIds w)
         then (Ok tt,
               {| Sim.procs := Sim.procs w; Sim.spawn := Sim.spawn w;
                  Sim.race := Sim.race w; Sim.readyIds := [];
                  Sim.stderrText := Sim.stderrText w; Sim.expose := Sim.expose w |})
         else (Thrown (JsError "Timed out waiting for port"), w);
     getLogs := Sim.sim_getLogs;
     kill := Sim.sim_kill;
     exposePort := Sim.sim_exposePort;
     getExposedPorts := Sim.sim_getExposedPorts |}.

(** A server that is still starting and whose port answers. *)
Definition answering : Sim.World :=
  {| Sim.procs := [Sim.booting]; Sim.spawn := Ok Sim.fresh; Sim.race := [];
     Sim.readyIds := ["proc-3"]; Sim.stderrText := None;
     Sim.expose := Ok (ExposedObject "https://8001-sb.example.com") |}.

(** An empty sandbox in which a concurrent caller's server appears, listed as
    running, while this caller spawns, and this caller's own server never
    answers. *)
Definition contested : Sim.World :=
  {| Sim.procs := []; Sim.spawn := Ok Sim.fresh; Sim.race := [Sim.winner];
     Sim.readyIds := []; Sim.stderrText := Some "Traceback: address already in use";
     Sim.expose := Ok (ExposedObject "https://8001-sb.example.com") |}.

(** * Properties *)

(** ** Strings *)

Lemma prefix_iff (p s : string) :
  String.prefix p s = true <-> exists c, s = p ++ c.
Proof.
  revert s. induction p as [|x p IH]; intros s.
  - split; [intros _; exists s; reflexivity | intros _; destruct s; reflexivity].
  - destruct s as [|y s]; simpl.
    + split; [discriminate | intros [c Hc]; discriminate].
    + destruct (Ascii.ascii_dec x y) as [->|Hne].
      * rewrite IH. split; intros [c Hc]; exists c; congruence.
      * split; [discriminate | intros [c Hc]; congruence].
Qed.

Lemma includes_unfold (s pat : string) :
  Js.includes s pat =
  if String.prefix pat s then true
  else match s with
       | EmptyString => false
       | String _ s' => Js.includes s' pat
       end.
Proof. destruct s; reflexivity. Qed.

Lemma includes_iff (s pat : string) :
  Js.includes s pat = true <-> contains s pat.
Proof.
  unfold contains. induction s as [|x s IH]; rewrite includes_unfold.
  - destruct (String.prefix pat "") eqn:E.
    + split; [intros _ | reflexivity].
      apply prefix_iff in E. destruct E as [c Hc]. exists "", c. exact Hc.
    + split; [discriminate|].
      intros [a [c H]]. destruct a; [|discriminate]. simpl in H.
      assert (String.prefix pat "" = true) by (apply prefix_iff; eauto).
      congruence.
  - destruct (String.prefix pat (String x s)) eqn:E.
    + split; [intros _ | reflexivity].
      apply prefix_iff in E. destruct E as [c Hc]. exists "", c. exact Hc.
    + rewrite IH. split.
      * intros [a [c H]]. exists (String x a), c. simpl. congruence.
      * intros [a [c H]]. destruct a as [|y a].
        -- simpl in H.
           assert (String.prefix pat (String x s) = true) by (apply prefix_iff; eauto).
           congruence.
        -- simpl in H. exists a, c. congruence.
Qed.

Lemma append_assoc (a b c : string) : (a ++ b) ++ c = a ++ (b ++ c).
Proof. induction a; simpl; congruence. Qed.

Lemma contains_append_l (a s pat : string) :
  contains s pat -> contains (a ++ s) pat.
Proof.
  intros [x [c H]]. exists (a ++ x), c. rewrite H. symmetry. apply append_assoc.
Qed.

Lemma contains_nonempty (s pat : string) :
  contains s pat -> pat <> "" -> s <> "".
Proof.
  intros [a [c H]] Hp ->. destruct a; simpl in H; [|discriminate].
  destruct pat; [congruence | discriminate].
Qed.

(** ** The process locator *)

Lemma matchesAgentServer_iff (port : Z) (p : Process) :
  matchesAgentServer port p = true <-> Matches port p.
Proof.
  unfold matchesAgentServer, commandMatches, isActive, Matches.
  rewrite !andb_true_iff, !orb_true_iff, !includes_iff, !String.eqb_eq.
  tauto.
Qed.

Lemma findExistingIn_cons (port : Z) (p : Process) (rest : list Process) :
  findExistingIn port (p :: rest) =
  if matchesAgentServer port p then Some p else findExistingIn port rest.
Proof.
  unfold matchesAgentServer, commandMatches, isActive. cbn [findExistingIn].
  destruct (Js.includes (proc_command p) DEFAULT_AGENT_SERVER_PATH);
    [|reflexivity].
  destruct (Js.includes (proc_command p) ("--port " ++ Js.numberToString port));
    destruct (Js.includes (proc_command p) ("--port=" ++ Js.numberToString port));
    reflexivity.
Qed.

Lemma findExistingIn_Some (port : Z) (processes : list Process) (p : Process) :
  findExistingIn port processes = Some p ->
  exists before after,
    processes = (before ++ p :: after)%list
    /\ matchesAgentServer port p = true
    /\ Forall (fun q => matchesAgentServer port q = false) before.
Proof.
  induction processes as [|q rest IH]; [discriminate|].
  rewrite findExistingIn_cons. destruct (matchesAgentServer port q) eqn:E.
  - intros [= ->]. exists [], rest. auto.
  - intros H. destruct (IH H) as [before [after [-> [Hm Hb]]]].
    exists (q :: before), after. auto.
Qed.

Lemma findExistingIn_None (port : Z) (processes : list Process) :
  findExistingIn port processes = None <->
  Forall (fun q => matchesAgentServer port q = false) processes.
Proof.
  induction processes as [|q rest IH]; [split; auto|].
  rewrite findExistingIn_cons. destruct (matchesAgentServer port q) eqn:E.
  - split; [discriminate | intros H; inversion H; congruence].
  - rewrite IH. split; [auto | intros H; inversion H; auto].
Qed.

Lemma findExistingIn_app_None (port : Z) (l1 l2 : list Process) :
  findExistingIn port l1 = None ->
  findExistingIn port (l1 ++ l2) = findExistingIn port l2.
Proof.
  induction l1 as [|q rest IH]; [reflexivity|].
  rewrite <- app_comm_cons, !findExistingIn_cons.
  destruct (matchesAgentServer port q); [discriminate | exact IH].
Qed.

Lemma findExistingIn_app_Some (port : Z) (l1 l2 : list Process) (p : Process) :
  findExistingIn port l1 = Some p ->
  findExistingIn port (l1 ++ l2) = Some p.
Proof.
  induction l1 as [|q rest IH]; [discriminate|].
  rewrite <- app_comm_cons, !findExistingIn_cons.
  destruct (matchesAgentServer port q); [auto | exact IH].
Qed.

Lemma findExistingAgentServer_run {W} (sb : Sandbox W) (port : Z) (w : W) :
  findExistingAgentServer sb port w =
  match listProcesses sb w with
  | (Ok l, w') => (Ok (findExistingIn port l), w', [EvListProcesses (Ok l)])
  | (Thrown e, w') => (Thrown e, w', [EvListProcesses (Thrown e)])
  end.
Proof.
  unfold findExistingAgentServer, callListProcesses, Async.bind, Async.call, Async.ret.
  destruct (listProcesses sb w) as [[l|e] w']; reflexivity.
Qed.

(** C4.  On every process list and port the locator answers with the first
    record whose command line contains the binary path and one of
    [--port N] / [--port=N] and whose status is [starting] or [running]; when
    there is no such record it answers "not found", and the only way it can
    throw is that the sandbox's listing itself throws. *)
Theorem locator_first_match (port : Z) (processes : list Process) :
  match findExistingIn port processes with
  | Some p =>
      exists before after,
        processes = (before ++ p :: after)%list
        /\ Matches port p
        /\ Forall (fun q => ~ Matches port q) before
  | None => Forall (fun q => ~ Matches port q) processes
  end
  /\ forall W (sb : Sandbox W) (w : W),
       match listProcesses sb w with
       | (Ok l, w') =>
           findExistingAgentServer sb port w =
           (Ok (findExistingIn port l), w', [EvListProcesses (Ok l)])
       | (Thrown e, w') =>
           findExistingAgentServer sb port w =
           (Thrown e, w', [EvListProcesses (Thrown e)])
       end.
Proof.
  assert (Hneg : forall l,
             Forall (fun q => matchesAgentServer port q = false) l ->
             Forall (fun q => ~ Matches port q) l).
  { intros l H. eapply Forall_impl; [|exact H].
    intros q Hq HM. apply matchesAgentServer_iff in HM. congruence. }
  split.
  - destruct (findExistingIn port processes) as [p|] eqn:E.
    + destruct (findExistingIn_Some _ _ _ E) as [before [after [-> [Hm Hb]]]].
      exists before, after. split; [reflexivity|].
      split; [apply matchesAgentServer_iff; exact Hm | auto].
    + apply Hneg, findExistingIn_None, E.
  - intros W sb w. rewrite findExistingAgentServer_run.
    destruct (listProcesses sb w) as [[l|e] w']; reflexivity.
Qed.

(** The example of the specification: two running servers, on 8001 and 9001. *)
Example locator_matching_example :
  let p1 := {| proc_id := "a";
               proc_command := DEFAULT_AGENT_SERVER_PATH ++ " --port 8001";
               proc_status := "running" |} in
  let p2 := {| proc_id := "b";
               proc_command := DEFAULT_AGENT_SERVER_PATH ++ " --port 9001";
               proc_status := "running" |} in
  findExistingIn 8001 [p1; p2] = Some p1
  /\ findExistingIn 9001 [p1; p2] = Some p2
  /\ findExistingIn 7000 [p1; p2] = None.
Proof. repeat split; reflexivity. Qed.

(** The match is by substring: a server on port 80010 is found for port 8001. *)
Example locator_substring_example :
  findExistingIn 8001
    [{| proc_id := "a";
        proc_command := DEFAULT_AGENT_SERVER_PATH ++ " --port 80010";
        proc_status := "running" |}] <> None.
Proof. discriminate. Qed.

(** ** The command builder *)

Lemma append_nil_r (s : string) : s ++ "" = s.
Proof. induction s; simpl; congruence. Qed.

Lemma launchCommand_contains_path (port : Z) :
  contains (launchCommand port) DEFAULT_AGENT_SERVER_PATH.
Proof. exists "", (" --host 0.0.0.0 --port " ++ Js.numberToString port). reflexivity. Qed.

Lemma launchCommand_contains_port (port : Z) :
  contains (launchCommand port) ("--port " ++ Js.numberToString port).
Proof.
  exists (DEFAULT_AGENT_SERVER_PATH ++ " --host 0.0.0.0 "), "".
  rewrite append_nil_r. reflexivity.
Qed.

Lemma buildAgentServerCommand_cases (port : Z) (directory : option string) :
  (buildAgentServerCommand port directory = launchCommand port
   /\ forall d, directory = Some d -> d = "" \/ d = DEFAULT_AGENT_SERVER_DIR)
  \/ exists d, directory = Some d /\ d <> "" /\ d <> DEFAULT_AGENT_SERVER_DIR
               /\ buildAgentServerCommand port directory
                  = "cd " ++ d ++ " && " ++ launchCommand port.
Proof.
  unfold buildAgentServerCommand. fold (launchCommand port).
  destruct directory as [d|].
  - unfold Js.truthyStr.
    destruct (String.eqb_spec d ""); simpl.
    + left. split; [reflexivity|]. intros d' [= <-]. auto.
    + destruct (String.eqb_spec d DEFAULT_AGENT_SERVER_DIR); simpl.
      * left. split; [reflexivity|]. intros d' [= <-]. auto.
      * right. exists d. auto.
  - left. split; [reflexivity | discriminate].
Qed.

Lemma buildAgentServerCommand_matches (port : Z) (directory : option string) :
  commandMatches port (buildAgentServerCommand port directory) = true.
Proof.
  unfold commandMatches.
  rewrite andb_true_iff, orb_true_iff, !includes_iff.
  destruct (buildAgentServerCommand_cases port directory)
    as [[-> _] | [d [_ [_ [_ ->]]]]].
  - split; [apply launchCommand_contains_path | left; apply launchCommand_contains_port].
  - split; [|left]; apply (contains_append_l "cd "), contains_append_l,
      (contains_append_l " && ");
      [apply launchCommand_contains_path | apply launchCommand_contains_port].
Qed.

(** C8, the claim as stated fails: an empty directory differs from the default
    directory, and the command is not prefixed with a directory change. *)
Lemma buildAgentServerCommand_empty_directory :
  "" <> DEFAULT_AGENT_SERVER_DIR
  /\ buildAgentServerCommand 8001 (Some "")
     = "/container-server/software-agent-sdk/.venv/bin/agent-server --host 0.0.0.0 --port 8001"
  /\ ~ (forall port d,
          d <> DEFAULT_AGENT_SERVER_DIR ->
          buildAgentServerCommand port (Some d)
          = "cd " ++ d ++ " && " ++ launchCommand port).
Proof.
  split; [discriminate|]. split; [reflexivity|].
  intros H. specialize (H 8001 "" ltac:(discriminate)). discriminate.
Qed.

(** C8, amended.  The result of the builder is fixed by its two arguments:
    it is exactly [<binary> --host 0.0.0.0 --port <port>] when the directory
    is omitted, empty or the default one, and that same string after
    [cd <directory> && ] for every other directory; so it begins with a
    directory change exactly when a directory is supplied that is not empty
    and differs from the default.  For every port and directory the result is
    matched by the locator's pattern for that port: a process listed with
    this command and an active status is located. *)
Theorem buildAgentServerCommand_shape (port : Z) (directory : option string) :
  let launch :=
    DEFAULT_AGENT_SERVER_PATH ++ " --host 0.0.0.0 --port " ++ Js.numberToString port in
  (directory = None \/ directory = Some "" \/ directory = Some DEFAULT_AGENT_SERVER_DIR ->
   buildAgentServerCommand port directory = launch)
  /\ (forall d,
         directory = Some d -> d <> "" -> d <> DEFAULT_AGENT_SERVER_DIR ->
         buildAgentServerCommand port directory = "cd " ++ d ++ " && " ++ launch)
  /\ (String.prefix "cd " (buildAgentServerCommand port directory) = true
      <-> exists d, directory = Some d /\ d <> "" /\ d <> DEFAULT_AGENT_SERVER_DIR)
  /\ commandMatches port (buildAgentServerCommand port directory) = true
  /\ (forall i st,
         st = "starting" \/ st = "running" ->
         findExistingIn port
           [{| proc_id := i;
               proc_command := buildAgentServerCommand port directory;
               proc_status := st |}]
         = Some {| proc_id := i;
                   proc_command := buildAgentServerCommand port directory;
                   proc_status := st |}).
Proof.
  cbv zeta. fold (launchCommand port).
  assert (Hlaunch : String.prefix "cd " (launchCommand port) = false) by reflexivity.
  assert (Hcd : forall d, String.prefix "cd " ("cd " ++ d ++ " && " ++ launchCommand port)
                          = true).
  { intros d. apply prefix_iff. eexists. reflexivity. }
  destruct (buildAgentServerCommand_cases port directory)
    as [[E Hd] | [d [Hdir [Hne [Hnd E]]]]].
  - split; [intros _; exact E|].
    split.
    { intros d Hdir Hne Hnd. destruct (Hd d Hdir); contradiction. }
    split.
    { rewrite E, Hlaunch. split; [discriminate|].
      intros [d [Hdir [Hne Hnd]]]. destruct (Hd d Hdir); contradiction. }
    split; [apply buildAgentServerCommand_matches|].
    intros i st Hst. rewrite findExistingIn_cons.
    unfold matchesAgentServer, isActive. cbn [proc_command proc_status].
    rewrite buildAgentServerCommand_matches.
    destruct Hst as [-> | ->]; reflexivity.
  - split.
    { intros [H | [H | H]]; rewrite H in Hdir; try discriminate Hdir;
        injection Hdir as <-; contradiction. }
    split.
    { intros d' Hdir'. rewrite Hdir in Hdir'. injection Hdir' as <-.
      intros _ _. exact E. }
    split.
    { rewrite E, Hcd. split; [intros _; exists d; auto | reflexivity]. }
    split; [apply buildAgentServerCommand_matches|].
    intros i st Hst. rewrite findExistingIn_cons.
    unfold matchesAgentServer, isActive. cbn [proc_command proc_status].
    rewrite buildAgentServerCommand_matches.
    destruct Hst as [-> | ->]; reflexivity.
Qed.

Example build_with_directory :
  buildAgentServerCommand 8001 (Some "/workspace") =
  "cd /workspace && /container-server/software-agent-sdk/.venv/bin/agent-server --host 0.0.0.0 --port 8001".
Proof. reflexivity. Qed.

Example build_default_directory :
  buildAgentServerCommand 8001 (Some DEFAULT_AGENT_SERVER_DIR) =
  buildAgentServerCommand 8001 None.
Proof. reflexivity. Qed.

(** ** The two locators *)

Lemma previewLookup_total {W} (sb : Sandbox W) (port : Z) (w : W) :
  exists url, Async.result (previewLookup sb port w) = Ok url.
Proof.
  unfold previewLookup, Async.tryCatch, Async.bind, callGetExposedPorts,
    Async.call, Async.ret, Async.result.
  destruct (getExposedPorts sb "" w) as [[l|e] w']; simpl; eauto.
Qed.

Lemma findOpenhandsIn_cons {W} (sb : Sandbox W) (port : Z) (p : Process)
      (rest : list Process) :
  findOpenhandsIn sb port (p :: rest) =
  if matchesAgentServer port p
  then (previewUrl <- previewLookup sb port ;;
        Async.ret (Some (serverOf port previewUrl p)))
  else findOpenhandsIn sb port rest.
Proof.
  cbn [findOpenhandsIn]. unfold matchesAgentServer, commandMatches, isActive.
  rewrite (orb_comm (String.eqb (proc_status p) "running")). reflexivity.
Qed.

Lemma findOpenhandsIn_agrees {W} (sb : Sandbox W) (port : Z)
      (processes : list Process) (w : W) :
  match findExistingIn port processes with
  | Some p =>
      exists url,
        Async.result (findOpenhandsIn sb port processes w)
        = Ok (Some (serverOf port url p))
  | None => findOpenhandsIn sb port processes w = (Ok None, w, [])
  end.
Proof.
  induction processes as [|q rest IH]; [reflexivity|].
  rewrite findExistingIn_cons, findOpenhandsIn_cons.
  destruct (matchesAgentServer port q); [|exact IH].
  destruct (previewLookup_total sb port w) as [url Hurl].
  exists url. unfold Async.bind, Async.result in *.
  destruct (previewLookup sb port w) as [[r w'] t]. simpl in Hurl. subst r.
  reflexivity.
Qed.

Lemma findOpenhandsServer_run {W} (sb : Sandbox W) (port : Z) (w : W) :
  Async.result (findOpenhandsServer sb port w) =
  match listProcesses sb w with
  | (Ok l, w') => Async.result (findOpenhandsIn sb port l w')
  | (Thrown e, _) => Thrown e
  end.
Proof.
  unfold findOpenhandsServer, callListProcesses, Async.bind, Async.call, Async.result.
  destruct (listProcesses sb w) as [[l|e] w']; [|reflexivity].
  destruct (findOpenhandsIn sb port l w') as [[r w''] t]. reflexivity.
Qed.

(** C10.  On the same sandbox state and port, the route layer's locator
    [findOpenhandsServer] answers with a handle exactly when the coordinator's
    locator [findExistingAgentServer] answers with a process, and the handle
    then wraps that very process (same process id); both answer "not found"
    together, and both throw together (only when the listing throws). *)
Theorem locators_agree {W} (sb : Sandbox W) (port : Z) (w : W) :
  match Async.result (findExistingAgentServer sb port w),
        Async.result (findOpenhandsServer sb port w) with
  | Ok (Some p), Ok (Some server) =>
      srv_processId server = proc_id p /\ srv_process server = p
      /\ srv_port server = port
  | Ok None, Ok None => True
  | Thrown e, Thrown e' => e = e'
  | _, _ => False
  end.
Proof.
  rewrite findExistingAgentServer_run, findOpenhandsServer_run.
  destruct (listProcesses sb w) as [[l|e] w']; [|reflexivity].
  cbn [Async.result fst].
  pose proof (findOpenhandsIn_agrees sb port l w') as H.
  destruct (findExistingIn port l) as [p|].
  - destruct H as [url ->]. auto.
  - rewrite H. exact I.
Qed.

(** ** Runs of the coordinator *)

Lemma reuseBranch_run {W} (sb : Sandbox W) (port : Z) (p : Process) (w : W) :
  reuseBranch sb port p w =
  if String.eqb (proc_status p) "starting" then
    match waitForPort sb p port readinessOptions w with
    | (Ok _, w1) => (Ok p, w1, [EvWaitForPort p port readinessOptions (Ok tt)])
    | (Thrown e, w1) =>
        match getLogs sb p w1 with
        | (Ok logs, w2) =>
            (Thrown (reuseFailure port logs p e), w2,
             [EvWaitForPort p port readinessOptions (Thrown e);
              EvGetLogs p (Ok logs)])
        | (Thrown e', w2) =>
            (Thrown e', w2,
             [EvWaitForPort p port readinessOptions (Thrown e);
              EvGetLogs p (Thrown e')])
        end
    end
  else (Ok p, w, []).
Proof.
  unfold reuseBranch, Async.bind, Async.tryCatch, callWaitForPort, callGetLogs,
    Async.call, Async.throw, Async.ret.
  destruct (String.eqb (proc_status p) "starting"); [|reflexivity].
  destruct (waitForPort sb p port readinessOptions w) as [[[]|e] w1]; [reflexivity|].
  destruct (getLogs sb p w1) as [[logs|e'] w2]; reflexivity.
Qed.

Lemma startAgentServer_run {W} (sb : Sandbox W) (port : Z)
      (options : OpenhandsOptions) (w : W) :
  startAgentServer sb port options w =
  let cmd := startCommand port options in
  let so := startOptions options in
  match startProcess sb cmd so w with
  | (Thrown e, w1) => (Thrown e, w1, [EvStartProcess cmd so (Thrown e)])
  | (Ok p, w1) =>
      match waitForPort sb p port readinessOptions w1 with
      | (Ok _, w2) =>
          (Ok p, w2,
           [EvStartProcess cmd so (Ok p);
            EvWaitForPort p port readinessOptions (Ok tt)])
      | (Thrown e, w2) =>
          match getLogs sb p w2 with
          | (Ok logs, w3) =>
              (Thrown (spawnFailure port logs p e), w3,
               [EvStartProcess cmd so (Ok p);
                EvWaitForPort p port readinessOptions (Thrown e);
                EvGetLogs p (Ok logs)])
          | (Thrown e', w3) =>
              (Thrown e', w3,
               [EvStartProcess cmd so (Ok p);
                EvWaitForPort p port readinessOptions (Thrown e);
                EvGetLogs p (Thrown e')])
          end
      end
  end.
Proof.
  unfold startAgentServer, Async.bind, Async.tryCatch, callStartProcess,
    callWaitForPort, callGetLogs, Async.call, Async.throw, Async.ret.
  fold (startCommand port options). fold (startOptions options).
  cbv zeta.
  destruct (startProcess sb (startCommand port options) (startOptions options) w)
    as [[p|e] w1]; [|reflexivity].
  destruct (waitForPort sb p port readinessOptions w1) as [[[]|e] w2]; [reflexivity|].
  destruct (getLogs sb p w2) as [[logs|e'] w3]; reflexivity.
Qed.

Lemma ensureAgentServer_run {W} (sb : Sandbox W) (port : Z)
      (options : OpenhandsOptions) (w : W) :
  ensureAgentServer sb port options w =
  match listProcesses sb w with
  | (Thrown e, w1) => (Thrown e, w1, [EvListProcesses (Thrown e)])
  | (Ok l, w1) =>
      match findExistingIn port l with
      | Some p => after [EvListProcesses (Ok l)] (reuseBranch sb port p w1)
      | None =>
          match startAgentServer sb port options w1 with
          | (Ok p, w2, t) => (Ok p, w2, EvListProcesses (Ok l) :: t)
          | (Thrown startupError, w2, t) =>
              match listProcesses sb w2 with
              | (Thrown e, w3) =>
                  (Thrown e, w3,
                   EvListProcesses (Ok l) :: t ++ [EvListProcesses (Thrown e)])
              | (Ok l2, w3) =>
                  match findExistingIn port l2 with
                  | Some q =>
                      after (EvListProcesses (Ok l) :: t)
                            (after [EvListProcesses (Ok l2)]
                                   (reuseBranch sb port q w3))
                  | None =>
                      (Thrown startupError, w3,
                       EvListProcesses (Ok l) :: t ++ [EvListProcesses (Ok l2)])
                  end
              end
          end
      end
  end%list.
Proof.
  unfold ensureAgentServer.
  unfold Async.bind at 1. rewrite findExistingAgentServer_run.
  destruct (listProcesses sb w) as [[l|e] w1]; [|reflexivity].
  destruct (findExistingIn port l) as [p|]; [reflexivity|].
  unfold Async.tryCatch at 1.
  destruct (startAgentServer sb port options w1) as [[[p|startupError] w2] t];
    [reflexivity|].
  unfold Async.bind at 1. rewrite findExistingAgentServer_run.
  destruct (listProcesses sb w2) as [[l2|e] w3]; [|reflexivity].
  destruct (findExistingIn port l2) as [q|]; [|reflexivity].
  unfold after, reuseBranch, reuseFailure.
  match goal with
  | |- context [Async.bind ?m ?k w3] => destruct (Async.bind m k w3) as [[r w4] t4]
  end.
  reflexivity.
Qed.

(** *** What the traces of the parts contain *)

Lemma countEvents_app (f : Event -> bool) (t1 t2 : Trace) :
  countEvents f (t1 ++ t2)%list = (countEvents f t1 + countEvents f t2)%nat.
Proof. unfold countEvents. rewrite filter_app, length_app. reflexivity. Qed.

Lemma countEvents_cons (f : Event -> bool) (ev : Event) (t : Trace) :
  countEvents f (ev :: t) = ((if f ev then 1 else 0) + countEvents f t)%nat.
Proof. unfold countEvents. simpl. destruct (f ev); reflexivity. Qed.

Ltac count_events :=
  repeat (rewrite countEvents_app || rewrite countEvents_cons
          || rewrite <- app_comm_cons).

Lemma reuseBranch_trace {W} (sb : Sandbox W) (port : Z) (p : Process) (w : W) :
  Forall (isProbeOf p port) (Async.trace (reuseBranch sb port p w)).
Proof.
  rewrite reuseBranch_run.
  destruct (String.eqb (proc_status p) "starting"); [|constructor].
  destruct (waitForPort sb p port readinessOptions w) as [[[]|e] w1].
  - repeat constructor.
  - destruct (getLogs sb p w1) as [[logs|e'] w2]; repeat constructor.
Qed.

Lemma probe_counts (p : Process) (port : Z) (t : Trace) :
  Forall (isProbeOf p port) t ->
  countEvents isStartProcess t = 0%nat /\ countEvents isListProcesses t = 0%nat.
Proof.
  induction 1 as [|ev t Hev _ [IH1 IH2]]; [split; reflexivity|].
  rewrite !countEvents_cons, IH1, IH2.
  destruct ev; simpl in Hev; try contradiction; split; reflexivity.
Qed.

Lemma startAgentServer_counts {W} (sb : Sandbox W) (port : Z)
      (options : OpenhandsOptions) (w : W) :
  countEvents isStartProcess (Async.trace (startAgentServer sb port options w)) = 1%nat
  /\ countEvents isListProcesses (Async.trace (startAgentServer sb port options w)) = 0%nat.
Proof.
  rewrite startAgentServer_run. cbv zeta.
  destruct (startProcess sb _ _ w) as [[p|e] w1]; [|split; reflexivity].
  destruct (waitForPort sb p port readinessOptions w1) as [[[]|e] w2];
    [split; reflexivity|].
  destruct (getLogs sb p w2) as [[logs|e'] w3]; split; reflexivity.
Qed.

Lemma after_trace {W A} (t0 : Trace) (x : Result A * W * Trace) :
  Async.trace (after t0 x) = (t0 ++ Async.trace x)%list.
Proof. destruct x as [[r w] t]. reflexivity. Qed.

Lemma after_result {W A} (t0 : Trace) (x : Result A * W * Trace) :
  Async.result (after t0 x) = Async.result x.
Proof. destruct x as [[r w] t]. reflexivity. Qed.

Lemma after_after {W A} (t0 t1 : Trace) (x : Result A * W * Trace) :
  after t0 (after t1 x) = after (t0 ++ t1)%list x.
Proof. destruct x as [[r w] t]. unfold after. rewrite app_assoc. reflexivity. Qed.

(** ** The reuse path *)

(** C2, the claim as stated fails: the probe of a located process that is
    still [starting] fails, fetching its logs throws, and the call throws that
    error, not an [OpenhandsStartupError]. *)
Lemma probe_failure_without_logs :
  let out := ensureAgentServer sandboxWithoutLogs 8001 Sim.noOptions Sim.warming in
  findExistingIn 8001 [Sim.booting] = Some Sim.booting
  /\ Async.trace out
     = [EvListProcesses (Ok [Sim.booting]);
        EvWaitForPort Sim.booting 8001 readinessOptions
                      (Thrown (JsError "Timed out waiting for port"));
        EvGetLogs Sim.booting (Thrown (JsError "logs unavailable"))]
  /\ Async.result out = Thrown (JsError "logs unavailable")
  /\ ~ (forall W (sb : Sandbox W) port options (w : W) l w1 p e w2,
          listProcesses sb w = (Ok l, w1) ->
          findExistingIn port l = Some p ->
          proc_status p = "starting" ->
          waitForPort sb p port readinessOptions w1 = (Thrown e, w2) ->
          exists m c cause,
            Async.result (ensureAgentServer sb port options w)
            = Thrown (OpenhandsStartupError m c cause)).
Proof.
  cbv zeta. split; [reflexivity|]. split; [reflexivity|]. split; [reflexivity|].
  intros H.
  destruct (H _ sandboxWithoutLogs 8001 Sim.noOptions Sim.warming
              [Sim.booting] Sim.warming Sim.booting
              (JsError "Timed out waiting for port") Sim.warming
              eq_refl eq_refl eq_refl eq_refl) as [m [c [cause Hr]]].
  discriminate Hr.
Qed.

(** C2, amended.  When the locator finds a process, the call makes no [startProcess]
    call.  A process found in status [running] is returned at once.  A process
    found in status [starting] is probed: when the probe succeeds the process
    is returned; when it fails and its logs are captured, the call fails with
    an [OpenhandsStartupError] whose context carries the port and that
    process's id, command and captured stderr (and when capturing the logs
    throws, with that error). *)
Theorem reuse_spawns_nothing {W} (sb : Sandbox W) (port : Z)
        (options : OpenhandsOptions) (w : W)
        (l : list Process) (w1 : W) (p : Process)
        (Hlist : listProcesses sb w = (Ok l, w1))
        (Hfound : findExistingIn port l = Some p) :
  let out := ensureAgentServer sb port options w in
  countEvents isStartProcess (Async.trace out) = 0%nat
  /\ (proc_status p = "starting" \/ proc_status p = "running")
  /\ (proc_status p = "running" -> out = (Ok p, w1, [EvListProcesses (Ok l)]))
  /\ (proc_status p = "starting" ->
      match waitForPort sb p port readinessOptions w1 with
      | (Ok _, w2) =>
          out = (Ok p, w2,
                 [EvListProcesses (Ok l);
                  EvWaitForPort p port readinessOptions (Ok tt)])
      | (Thrown e, w2) =>
          match getLogs sb p w2 with
          | (Ok logs, w3) =>
              out = (Thrown
                       (OpenhandsStartupError
                          ("agent-server failed to start. Stderr: "
                           ++ Js.orElse (logs_stderr logs) "(empty)")
                          {| ctx_port := port;
                             ctx_stderr := logs_stderr logs;
                             ctx_command := Some (proc_command p);
                             ctx_processId := Some (proc_id p) |}
                          e),
                     w3,
                     [EvListProcesses (Ok l);
                      EvWaitForPort p port readinessOptions (Thrown e);
                      EvGetLogs p (Ok logs)])
          | (Thrown e', w3) =>
              out = (Thrown e', w3,
                     [EvListProcesses (Ok l);
                      EvWaitForPort p port readinessOptions (Thrown e);
                      EvGetLogs p (Thrown e')])
          end
      end).
Proof.
  intros out. subst out. rewrite ensureAgentServer_run, Hlist, Hfound.
  split.
  { rewrite after_trace, countEvents_app.
    rewrite (proj1 (probe_counts _ _ _ (reuseBranch_trace sb port p w1))).
    reflexivity. }
  split.
  { destruct (findExistingIn_Some _ _ _ Hfound) as [_ [_ [_ [Hm _]]]].
    apply matchesAgentServer_iff in Hm. apply Hm. }
  rewrite reuseBranch_run. split.
  - intros ->. reflexivity.
  - intros ->. change (String.eqb "starting" "starting") with true. cbv iota.
    destruct (waitForPort sb p port readinessOptions w1) as [[[]|e] w2]; [reflexivity|].
    destruct (getLogs sb p w2) as [[logs|e'] w3]; reflexivity.
Qed.

(** ** The re-check after a failed start *)

(** C1.  When the locator finds nothing and the spawn-and-probe sequence
    throws [startupError], the locator is run exactly once more and
    [startProcess] is not called again.  When the second run of the locator
    finds a process, it is handled by the code of the reuse branch and its
    outcome is the outcome of the call, whatever [startupError] was; when it
    finds nothing, the call throws [startupError] itself. *)
Theorem recheck_once {W} (sb : Sandbox W) (port : Z)
        (options : OpenhandsOptions) (w : W)
        (l : list Process) (w1 : W) (startupError : JsValue) (w2 : W) (t : Trace)
        (Hlist : listProcesses sb w = (Ok l, w1))
        (Hnone : findExistingIn port l = None)
        (Hstart : startAgentServer sb port options w1 = (Thrown startupError, w2, t)) :
  let out := ensureAgentServer sb port options w in
  countEvents isListProcesses (Async.trace out) = 2%nat
  /\ countEvents isStartProcess (Async.trace out) = 1%nat
  /\ match listProcesses sb w2 with
     | (Ok l2, w3) =>
         match findExistingIn port l2 with
         | Some q =>
             out = after (EvListProcesses (Ok l) :: t ++ [EvListProcesses (Ok l2)])
                         (reuseBranch sb port q w3)
         | None =>
             out = (Thrown startupError, w3,
                    EvListProcesses (Ok l) :: t ++ [EvListProcesses (Ok l2)])
         end
     | (Thrown e, w3) =>
         out = (Thrown e, w3,
                EvListProcesses (Ok l) :: t ++ [EvListProcesses (Thrown e)])
     end%list
  /\ (forall (v : W) (l' : list Process) (v1 : W) (p : Process),
         listProcesses sb v = (Ok l', v1) ->
         findExistingIn port l' = Some p ->
         ensureAgentServer sb port options v
         = after [EvListProcesses (Ok l')] (reuseBranch sb port p v1)).
Proof.
  intros out. subst out.
  pose proof (startAgentServer_counts sb port options w1) as [Hs Hl].
  rewrite Hstart in Hs, Hl. cbn [Async.trace snd] in Hs, Hl.
  rewrite ensureAgentServer_run, Hlist, Hnone, Hstart.
  assert (Hfinal : forall v l' v1 p,
             listProcesses sb v = (Ok l', v1) ->
             findExistingIn port l' = Some p ->
             ensureAgentServer sb port options v
             = after [EvListProcesses (Ok l')] (reuseBranch sb port p v1)).
  { intros v l' v1 p E1 E2. rewrite ensureAgentServer_run, E1, E2. reflexivity. }
  destruct (listProcesses sb w2) as [[l2|e] w3].
  - destruct (findExistingIn port l2) as [q|].
    + rewrite !after_after, after_trace.
      pose proof (probe_counts _ _ _ (reuseBranch_trace sb port q w3)) as [Hq1 Hq2].
      count_events. rewrite Hs, Hl, Hq1, Hq2.
      repeat split; auto.
    + cbn [Async.trace snd]. count_events. rewrite Hs, Hl.
      repeat split; auto.
  - cbn [Async.trace snd]. count_events. rewrite Hs, Hl.
    repeat split; auto.
Qed.

(** *** Runs of [createOpenhandsServer] *)

Lemma createOpenhandsServer_run {W} (sb : Sandbox W) (options : OpenhandsOptions)
      (w : W) :
  createOpenhandsServer sb options w =
  let port := portOf options in
  match ensureAgentServer sb port options w with
  | (Thrown e, w1, t) => (Thrown e, w1, t)
  | (Ok p, w1, t) =>
      match opt_exposePort options with
      | Some true =>
          if Js.truthy (opt_hostname options) then
            let h := Js.orElse (opt_hostname options) "" in
            match exposePort sb port h w1 with
            | (Ok exposed, w2) =>
                (Ok (serverOf port (Some (exposedUrl exposed)) p), w2,
                 t ++ [EvExposePort port h (Ok exposed)])
            | (Thrown e, w2) =>
                (Ok (serverOf port None p), w2,
                 t ++ [EvExposePort port h (Thrown e); EvWarn exposeWarning e])
            end
          else (Thrown (JsError hostnameRequired), w1, t)
      | _ => (Ok (serverOf port None p), w1, t)
      end
  end%list.
Proof.
  unfold createOpenhandsServer. fold (portOf options). cbv zeta.
  unfold Async.bind at 1.
  destruct (ensureAgentServer sb (portOf options) options w) as [[[p|e] w1] t];
    [|reflexivity].
  unfold Async.bind at 1.
  destruct (opt_exposePort options) as [[|]|].
  - destruct (Js.truthy (opt_hostname options)); cbn [negb].
    + unfold Async.tryCatch, Async.bind, callExposePort, Async.call, Async.emit,
        Async.ret.
      destruct (exposePort sb (portOf options) (Js.orElse (opt_hostname options) "") w1)
        as [[exposed|e] w2]; reflexivity.
    + unfold Async.throw. rewrite app_nil_r. reflexivity.
  - unfold Async.ret. rewrite !app_nil_r. reflexivity.
  - unfold Async.ret. rewrite !app_nil_r. reflexivity.
Qed.

Lemma probe_is_coordinatorEvent (p : Process) (port : Z) (t : Trace) :
  Forall (isProbeOf p port) t -> Forall (coordinatorEvent port) t.
Proof.
  apply Forall_impl. intros [] H; simpl in *; tauto.
Qed.

Lemma startAgentServer_events {W} (sb : Sandbox W) (port : Z)
      (options : OpenhandsOptions) (w : W) :
  Forall (coordinatorEvent port) (Async.trace (startAgentServer sb port options w)).
Proof.
  rewrite startAgentServer_run. cbv zeta.
  destruct (startProcess sb _ _ w) as [[p|e] w1]; [|repeat constructor].
  destruct (waitForPort sb p port readinessOptions w1) as [[[]|e] w2];
    [repeat constructor|].
  destruct (getLogs sb p w2) as [[logs|e'] w3]; repeat constructor.
Qed.

Lemma ensureAgentServer_events {W} (sb : Sandbox W) (port : Z)
      (options : OpenhandsOptions) (w : W) :
  Forall (coordinatorEvent port) (Async.trace (ensureAgentServer sb port options w)).
Proof.
  rewrite ensureAgentServer_run.
  destruct (listProcesses sb w) as [[l|e] w1]; [|repeat constructor].
  destruct (findExistingIn port l) as [p|].
  { rewrite after_trace. apply Forall_app. split; [repeat constructor|].
    apply probe_is_coordinatorEvent with (p := p), reuseBranch_trace. }
  pose proof (startAgentServer_events sb port options w1) as Hs.
  destruct (startAgentServer sb port options w1) as [[[p|err] w2] t];
    cbn [Async.trace snd] in *; [constructor; [exact I | exact Hs]|].
  destruct (listProcesses sb w2) as [[l2|e] w3].
  - destruct (findExistingIn port l2) as [q|].
    + rewrite !after_trace. constructor; [exact I|].
      apply Forall_app. split; [exact Hs|].
      constructor; [exact I|].
      apply probe_is_coordinatorEvent with (p := q), reuseBranch_trace.
    + cbn [Async.trace snd]. constructor; [exact I|].
      apply Forall_app. split; [exact Hs | repeat constructor].
  - cbn [Async.trace snd]. constructor; [exact I|].
    apply Forall_app. split; [exact Hs | repeat constructor].
Qed.

Lemma ensureAgentServer_never_exposes {W} (sb : Sandbox W) (port : Z)
      (options : OpenhandsOptions) (w : W) (pt : Z) (h : string) (r : Result Exposed) :
  ~ In (EvExposePort pt h r) (Async.trace (ensureAgentServer sb port options w)).
Proof.
  intros Hin.
  pose proof (ensureAgentServer_events sb port options w) as H.
  rewrite Forall_forall in H. exact (H _ Hin).
Qed.

(** ** Exposure *)

(** C3, the claim as stated fails: on an empty sandbox, a call that asks for
    exposure without a hostname lists the processes, spawns a server and waits
    for its port before it throws the configuration error. *)
Lemma hostname_check_follows_ensure :
  let out := createOpenhandsServer Sim.sandbox exposeWithoutHostname Sim.healthy in
  Async.result out = Thrown (JsError hostnameRequired)
  /\ countEvents isStartProcess (Async.trace out) = 1%nat
  /\ countEvents isSandboxCall (Async.trace out) = 3%nat
  /\ ~ (forall W (sb : Sandbox W) (options : OpenhandsOptions) (w : W),
          opt_exposePort options = Some true ->
          opt_hostname options = None ->
          countEvents isSandboxCall
            (Async.trace (createOpenhandsServer sb options w)) = 0%nat).
Proof.
  cbv zeta. split; [reflexivity|]. split; [reflexivity|]. split; [reflexivity|].
  intros H.
  specialize (H _ Sim.sandbox exposeWithoutHostname Sim.healthy eq_refl eq_refl).
  discriminate H.
Qed.

(** C3, amended.  A call with [exposePort] set and no (or an empty) hostname
    always fails, and never calls the sandbox's [exposePort]: the coordinator
    runs first, with all its sandbox calls; when it fails the call fails with
    its error, and when it succeeds the call fails with the configuration
    error, raised before the exposure call. *)
Theorem hostname_required_before_expose {W} (sb : Sandbox W)
        (options : OpenhandsOptions) (w : W)
        (Hexpose : opt_exposePort options = Some true)
        (Hhost : Js.truthy (opt_hostname options) = false) :
  let out := createOpenhandsServer sb options w in
  let ens := ensureAgentServer sb (portOf options) options w in
  Async.trace out = Async.trace ens
  /\ Async.world out = Async.world ens
  /\ match Async.result ens with
     | Ok _ => Async.result out = Thrown (JsError hostnameRequired)
     | Thrown e => Async.result out = Thrown e
     end
  /\ (forall pt h r, ~ In (EvExposePort pt h r) (Async.trace out))
  /\ hostnameRequired
     = "hostname is required when exposePort is true. Provide hostname in options or extract from request URL.".
Proof.
  cbv zeta. rewrite createOpenhandsServer_run. cbv zeta.
  pose proof (ensureAgentServer_never_exposes sb (portOf options) options w) as Hno.
  rewrite Hexpose, Hhost.
  destruct (ensureAgentServer sb (portOf options) options w) as [[[p|e] w1] t];
    cbn [Async.trace Async.world Async.result fst snd] in *; auto 6.
Qed.

(** C7.  With [exposePort] set and a hostname given, when the coordinator has
    obtained a process and the sandbox's [exposePort] call throws, the call
    still resolves: the handle wraps the process, its [previewUrl] is
    undefined, and the failure is only reported through [console.warn]. *)
Theorem expose_failure_is_swallowed {W} (sb : Sandbox W)
        (options : OpenhandsOptions) (w : W)
        (h : string) (p : Process) (pt : Z) (hn : string) (e : JsValue)
        (Hexpose : opt_exposePort options = Some true)
        (Hhost : opt_hostname options = Some h)
        (Hens : Async.result (ensureAgentServer sb (portOf options) options w) = Ok p)
        (Hthrows : In (EvExposePort pt hn (Thrown e))
                      (Async.trace (createOpenhandsServer sb options w))) :
  let out := createOpenhandsServer sb options w in
  exists server,
    Async.result out = Ok server
    /\ srv_previewUrl server = None
    /\ srv_processId server = proc_id p
    /\ srv_port server = portOf options
    /\ pt = portOf options /\ hn = h
    /\ Async.trace out
       = (Async.trace (ensureAgentServer sb (portOf options) options w)
          ++ [EvExposePort pt hn (Thrown e); EvWarn "Failed to expose port:" e])%list.
Proof.
  cbv zeta. revert Hthrows. rewrite createOpenhandsServer_run. cbv zeta.
  pose proof (ensureAgentServer_never_exposes sb (portOf options) options w) as Hno.
  rewrite Hexpose, Hhost.
  destruct (ensureAgentServer sb (portOf options) options w) as [[[p'|e'] w1] t];
    cbn [Async.trace Async.world Async.result fst snd] in *; [|discriminate].
  injection Hens as ->.
  unfold Js.truthy, Js.orElse.
  destruct (Js.truthyStr h).
  - destruct (exposePort sb (portOf options) h w1) as [[exposed|e0] w2];
      cbn [snd]; intros Hin; apply in_app_or in Hin;
      destruct Hin as [Hin | Hin]; try (exfalso; exact (Hno _ _ _ Hin)).
    + destruct Hin as [Hin | []]. discriminate Hin.
    + destruct Hin as [Hin | [Hin | []]]; [|discriminate Hin].
      injection Hin as <- <- <-.
      exists (serverOf (portOf options) None p). repeat split; reflexivity.
  - cbn [snd]. intros Hin. exfalso. exact (Hno _ _ _ Hin).
Qed.

(** ** Failed readiness waits *)

Lemma matches_command_nonempty (port : Z) (p : Process) :
  matchesAgentServer port p = true -> proc_command p <> "".
Proof.
  intros H. apply matchesAgentServer_iff in H. destruct H as [H _].
  apply (contains_nonempty _ _ H). discriminate.
Qed.

(** C6, the claim as stated fails: the readiness wait on the spawned process
    fails, the re-check finds the server a concurrent caller started, listed
    as [running], and the call returns that server. *)
Lemma failed_wait_absorbed_by_concurrent_server :
  let out := ensureAgentServer Sim.sandbox 8001 Sim.noOptions contested in
  let own := {| proc_id := "proc-1";
                proc_command := buildAgentServerCommand 8001 None;
                proc_status := "running" |} in
  In (EvWaitForPort own 8001 readinessOptions
        (Thrown (JsError "Timed out waiting for port")))
     (Async.trace out)
  /\ Async.result out = Ok Sim.winner
  /\ proc_id Sim.winner <> proc_id own
  /\ ~ (forall W (sb : Sandbox W) port options (w : W) q o e,
          In (EvWaitForPort q port o (Thrown e))
             (Async.trace (ensureAgentServer sb port options w)) ->
          exists m c cause,
            Async.result (ensureAgentServer sb port options w)
            = Thrown (OpenhandsStartupError m c cause)).
Proof.
  cbv zeta.
  assert (Hin : In (EvWaitForPort
                      {| proc_id := "proc-1";
                         proc_command := buildAgentServerCommand 8001 None;
                         proc_status := "running" |} 8001 readinessOptions
                      (Thrown (JsError "Timed out waiting for port")))
                   (Async.trace (ensureAgentServer Sim.sandbox 8001 Sim.noOptions
                                                   contested))).
  { right. right. left. reflexivity. }
  split; [exact Hin|]. split; [reflexivity|]. split; [discriminate|].
  intros H. destruct (H _ _ _ _ _ _ _ _ Hin) as [m [c [cause Hr]]].
  discriminate Hr.
Qed.

(** C6, amended.  Every readiness wait of an ensure call is made on the
    call's port with the fixed 60-second timeout.  A failed wait on a process
    the locator found, at the start of the call or at the re-check (whatever
    made the start fail), with its logs fetched, fails the call with an
    [OpenhandsStartupError] whose context holds the port, that process's
    command line (not empty), its id and the stderr as fetched.  A failed wait
    on the freshly spawned process, with its logs fetched, raises such an
    error for the spawned process: it is the call's error when the re-check
    finds no match, and it is discarded when the re-check finds a process of
    another id, whose readiness then decides the outcome as in the reuse
    branch (a process listed as [running] is returned). *)
Theorem readiness_failure_outcome {W} (sb : Sandbox W) (port : Z)
        (options : OpenhandsOptions) (w : W) :
  let out := ensureAgentServer sb port options w in
  (forall q pt o r,
      In (EvWaitForPort q pt o r) (Async.trace out) ->
      pt = port /\ wo_timeout o = 60000 /\ wo_mode o = "http" /\ wo_path o = "/")
  /\ (forall l w1 p e w2 logs w3,
         listProcesses sb w = (Ok l, w1) ->
         findExistingIn port l = Some p ->
         proc_status p = "starting" ->
         waitForPort sb p port readinessOptions w1 = (Thrown e, w2) ->
         getLogs sb p w2 = (Ok logs, w3) ->
         Async.result out
         = Thrown (OpenhandsStartupError
                     ("agent-server failed to start. Stderr: "
                      ++ Js.orElse (logs_stderr logs) "(empty)")
                     {| ctx_port := port;
                        ctx_stderr := logs_stderr logs;
                        ctx_command := Some (proc_command p);
                        ctx_processId := Some (proc_id p) |}
                     e)
         /\ proc_command p <> "")
  /\ (forall l w1 startupError w2 ts l2 w3 q e w4 logs w5,
         listProcesses sb w = (Ok l, w1) ->
         findExistingIn port l = None ->
         startAgentServer sb port options w1 = (Thrown startupError, w2, ts) ->
         listProcesses sb w2 = (Ok l2, w3) ->
         findExistingIn port l2 = Some q ->
         proc_status q = "starting" ->
         waitForPort sb q port readinessOptions w3 = (Thrown e, w4) ->
         getLogs sb q w4 = (Ok logs, w5) ->
         Async.result out
         = Thrown (OpenhandsStartupError
                     ("agent-server failed to start. Stderr: "
                      ++ Js.orElse (logs_stderr logs) "(empty)")
                     {| ctx_port := port;
                        ctx_stderr := logs_stderr logs;
                        ctx_command := Some (proc_command q);
                        ctx_processId := Some (proc_id q) |}
                     e)
         /\ proc_command q <> "")
  /\ (forall l w1 p v2 e v3 logs w2 l2 w3,
         listProcesses sb w = (Ok l, w1) ->
         findExistingIn port l = None ->
         startProcess sb (startCommand port options) (startOptions options) w1
         = (Ok p, v2) ->
         waitForPort sb p port readinessOptions v2 = (Thrown e, v3) ->
         getLogs sb p v3 = (Ok logs, w2) ->
         listProcesses sb w2 = (Ok l2, w3) ->
         let spawnError :=
           OpenhandsStartupError
             ("agent-server failed to start on port " ++ Js.numberToString port
              ++ ". Stderr: " ++ Js.orElse (logs_stderr logs) "(empty)")
             {| ctx_port := port;
                ctx_stderr := logs_stderr logs;
                ctx_command := Some (proc_command p);
                ctx_processId := Some (proc_id p) |}
             e in
         Async.result (startAgentServer sb port options w1) = Thrown spawnError
         /\ (findExistingIn port l2 = None -> Async.result out = Thrown spawnError)
         /\ (forall q,
                findExistingIn port l2 = Some q ->
                proc_id q <> proc_id p ->
                Async.result out = Async.result (reuseBranch sb port q w3)
                /\ (proc_status q = "running" -> Async.result out = Ok q))).
Proof.
  cbv zeta. split.
  { intros q pt o r Hin.
    pose proof (ensureAgentServer_events sb port options w) as H.
    rewrite Forall_forall in H. specialize (H _ Hin). simpl in H.
    destruct H as [-> ->]. auto. }
  assert (Hreuse : forall q v e v' logs v'' l0,
             findExistingIn port l0 = Some q ->
             proc_status q = "starting" ->
             waitForPort sb q port readinessOptions v = (Thrown e, v') ->
             getLogs sb q v' = (Ok logs, v'') ->
             Async.result (reuseBranch sb port q v)
             = Thrown (OpenhandsStartupError
                         ("agent-server failed to start. Stderr: "
                          ++ Js.orElse (logs_stderr logs) "(empty)")
                         {| ctx_port := port;
                            ctx_stderr := logs_stderr logs;
                            ctx_command := Some (proc_command q);
                            ctx_processId := Some (proc_id q) |}
                         e)
             /\ proc_command q <> "").
  { intros q v e v' logs v'' l0 Hfind Hs Hwait Hlogs.
    rewrite reuseBranch_run, Hs, Hwait, Hlogs.
    split; [reflexivity|].
    destruct (findExistingIn_Some _ _ _ Hfind) as [_ [_ [_ [Hm _]]]].
    exact (matches_command_nonempty _ _ Hm). }
  split.
  { intros l w1 p e w2 logs w3 Hlist Hfind Hs Hwait Hlogs.
    rewrite ensureAgentServer_run, Hlist, Hfind, after_result.
    exact (Hreuse _ _ _ _ _ _ _ Hfind Hs Hwait Hlogs). }
  split.
  { intros l w1 startupError w2 ts l2 w3 q e w4 logs w5
           Hlist Hnone Hstart Hrelist Hfind Hs Hwait Hlogs.
    rewrite ensureAgentServer_run, Hlist, Hnone, Hstart, Hrelist, Hfind.
    rewrite !after_result.
    exact (Hreuse _ _ _ _ _ _ _ Hfind Hs Hwait Hlogs). }
  intros l w1 p v2 e v3 logs w2 l2 w3 Hlist Hnone Hspawn Hwait Hlogs Hrelist.
  assert (Hstart : startAgentServer sb port options w1
                   = (Thrown (spawnFailure port logs p e), w2,
                      [EvStartProcess (startCommand port options)
                                      (startOptions options) (Ok p);
                       EvWaitForPort p port readinessOptions (Thrown e);
                       EvGetLogs p (Ok logs)])).
  { rewrite startAgentServer_run. cbv zeta. rewrite Hspawn, Hwait, Hlogs. reflexivity. }
  rewrite ensureAgentServer_run, Hlist, Hnone, Hstart, Hrelist.
  split; [reflexivity|]. split.
  - intros ->. reflexivity.
  - intros q -> Hid. rewrite !after_result. split; [reflexivity|].
    intros Hs. rewrite reuseBranch_run, Hs. reflexivity.
Qed.

(** ** Two calls in a row *)

Lemma process_eqb_eq (p q : Process) : process_eqb p q = true -> p = q.
Proof.
  unfold process_eqb. rewrite !andb_true_iff, !String.eqb_eq.
  destruct p, q; simpl. intros [[-> ->] ->]. reflexivity.
Qed.

Lemma extends_nil (table l : list Process) :
  extends table [] l = true -> l = table.
Proof.
  revert l. induction table as [|p table IH]; intros [|q l] H; simpl in H;
    try discriminate; [reflexivity|].
  apply andb_true_iff in H. destruct H as [Hpq H].
  apply process_eqb_eq in Hpq. subst q. f_equal. auto.
Qed.

Lemma extends_one (table l : list Process) (i cmd : string) :
  extends table [(i, cmd)] l = true ->
  exists q, l = (table ++ [q])%list
            /\ proc_id q = i /\ proc_command q = cmd
            /\ isActive (proc_status q) = true.
Proof.
  revert l. induction table as [|p table IH]; intros l H; simpl in H.
  - destruct l as [|q [|q' l]]; try discriminate.
    + rewrite andb_true_r in H. unfold spawnedEntry in H.
      rewrite !andb_true_iff, !String.eqb_eq in H. exists q. simpl in H. tauto.
    + rewrite andb_false_r in H. discriminate.
  - destruct l as [|q l]; [discriminate|].
    apply andb_true_iff in H. destruct H as [Hpq H].
    apply process_eqb_eq in Hpq. subst q.
    destruct (IH l H) as [q [-> Hq]]. exists q. auto.
Qed.

Lemma quietFrom_skip (table : option (list Process)) (spawned : list (string * string))
      (t rest : Trace) :
  forallb isProbeEvent t = true ->
  quietFrom table spawned (t ++ rest)%list = quietFrom table spawned rest.
Proof.
  induction t as [|ev t IH]; [reflexivity|]. simpl.
  intros H. apply andb_true_iff in H. destruct H as [Hev Ht].
  destruct ev; try discriminate; auto.
Qed.

Lemma reuseBranch_probes {W} (sb : Sandbox W) (port : Z) (p : Process) (w : W) :
  forallb isProbeEvent (Async.trace (reuseBranch sb port p w)) = true.
Proof.
  pose proof (reuseBranch_trace sb port p w) as H.
  induction H as [|ev t Hev _ IH]; [reflexivity|].
  simpl. rewrite IH. destruct ev; simpl in Hev; try contradiction; reflexivity.
Qed.

(** What a successful run of the reuse branch says about the process. *)
Lemma reuseBranch_ok {W} (sb : Sandbox W) (port : Z) (p r : Process) (w w' : W)
      (t : Trace) :
  reuseBranch sb port p w = (Ok r, w', t) ->
  r = p
  /\ (proc_status p = "starting" ->
      In (EvWaitForPort p port readinessOptions (Ok tt)) t).
Proof.
  rewrite reuseBranch_run.
  destruct (String.eqb_spec (proc_status p) "starting") as [E|E].
  - destruct (waitForPort sb p port readinessOptions w) as [[[]|e] w1].
    + intros [= <- <- <-]. split; [reflexivity | intros _; left; reflexivity].
    + destruct (getLogs sb p w1) as [[logs|e'] w2]; discriminate.
  - intros [= <- <- <-]. split; [reflexivity | contradiction].
Qed.

Lemma quietFrom_relist (t : Trace) :
  countEvents isListProcesses t = 0%nat ->
  forall table spawned l rest,
    quietFrom table spawned (t ++ EvListProcesses (Ok l) :: rest)%list = true ->
    quietFrom (Some l) [] rest = true.
Proof.
  induction t as [|ev t IH]; intros Hc table spawned l rest H.
  - simpl in H. apply andb_true_iff in H. apply H.
  - rewrite countEvents_cons in Hc.
    destruct ev as [r|cmd o [p|e]| | | | | | |]; simpl in Hc; try discriminate;
      simpl in H; eauto.
Qed.

Lemma relocatable_found (port : Z) (p : Process) (t1 : Trace) (table : list Process) :
  findExistingIn port table = Some p ->
  (proc_status p = "starting" ->
   In (EvWaitForPort p port readinessOptions (Ok tt)) t1) ->
  relocatable port p t1 table [].
Proof.
  intros Hfind Hwait l Hl. apply extends_nil in Hl. subst l.
  exists p. split; [exact Hfind|]. split; [reflexivity|].
  intros Hs. exists p. auto.
Qed.

Lemma ensureAgentServer_ok_state {W} (sb : Sandbox W) (port : Z)
      (options : OpenhandsOptions) (w0 w1 : W) (p : Process) (t1 : Trace) :
  ensureAgentServer sb port options w0 = (Ok p, w1, t1) ->
  forall rest,
    quietFrom None [] (t1 ++ rest)%list = true ->
    exists table spawned,
      quietFrom (Some table) spawned rest = true
      /\ relocatable port p t1 table spawned.
Proof.
  rewrite ensureAgentServer_run.
  destruct (listProcesses sb w0) as [[l|e] v1]; [|discriminate].
  destruct (findExistingIn port l) as [p0|] eqn:Hfind.
  { pose proof (reuseBranch_probes sb port p0 v1) as Hprobes.
    destruct (reuseBranch sb port p0 v1) as [[r v2] tq] eqn:E.
    unfold after. intros [= -> <- <-] rest Hq.
    destruct (reuseBranch_ok _ _ _ _ _ _ _ E) as [-> Hwait].
    cbn [Async.trace snd] in Hprobes.
    simpl in Hq. rewrite quietFrom_skip in Hq by exact Hprobes.
    exists l, []. split; [exact Hq|].
    apply relocatable_found; [exact Hfind|].
    intros Hs. right. apply Hwait, Hs. }
  pose proof (startAgentServer_counts sb port options v1) as [_ Hnolist].
  destruct (startAgentServer sb port options v1) as [[[p0|err] v2] ts] eqn:Estart.
  { rewrite startAgentServer_run in Estart. cbv zeta in Estart.
    destruct (startProcess sb (startCommand port options) (startOptions options) v1)
      as [[p1|e] v3]; [|discriminate].
    destruct (waitForPort sb p1 port readinessOptions v3) as [[[]|e] v4].
    2:{ destruct (getLogs sb p1 v4) as [[logs|e'] v5]; discriminate. }
    injection Estart as <- <- <-.
    intros [= <- <- <-] rest Hq. simpl in Hq.
    exists l, [(proc_id p1, startCommand port options)]. split; [exact Hq|].
    intros l' Hl'. apply extends_one in Hl'.
    destruct Hl' as [q [-> [Hid [Hcmd Hact]]]].
    exists q. split.
    - rewrite (findExistingIn_app_None _ _ _ Hfind), findExistingIn_cons.
      unfold matchesAgentServer, startCommand in *.
      rewrite Hcmd, buildAgentServerCommand_matches, Hact. reflexivity.
    - split; [exact Hid|]. intros _. exists p1. split; [auto|].
      right. right. left. reflexivity. }
  cbn [Async.trace snd] in Hnolist.
  destruct (listProcesses sb v2) as [[l2|e] v3]; [|discriminate].
  destruct (findExistingIn port l2) as [q|] eqn:Hfind2; [|discriminate].
  pose proof (reuseBranch_probes sb port q v3) as Hprobes.
  destruct (reuseBranch sb port q v3) as [[r v4] tq] eqn:E.
  unfold after. intros [= -> <- <-] rest Hq.
  destruct (reuseBranch_ok _ _ _ _ _ _ _ E) as [-> Hwait].
  cbn [Async.trace snd] in Hprobes.
  simpl in Hq. rewrite <- app_assoc in Hq. simpl in Hq.
  apply quietFrom_relist in Hq; [|exact Hnolist].
  rewrite quietFrom_skip in Hq by exact Hprobes.
  exists l2, []. split; [exact Hq|].
  apply relocatable_found; [exact Hfind2|].
  intros Hs. right. apply in_or_app. right. right. apply Hwait, Hs.
Qed.

Lemma createOpenhandsServer_ok_inv {W} (sb : Sandbox W) (options : OpenhandsOptions)
      (w0 w1 : W) (h1 : OpenhandsServer) (tr1 : Trace) :
  createOpenhandsServer sb options w0 = (Ok h1, w1, tr1) ->
  exists p v1 t1 texp,
    ensureAgentServer sb (portOf options) options w0 = (Ok p, v1, t1)
    /\ tr1 = (t1 ++ texp)%list
    /\ forallb isProbeEvent texp = true
    /\ srv_processId h1 = proc_id p
    /\ (opt_exposePort options = Some true ->
        Js.truthy (opt_hostname options) = true).
Proof.
  rewrite createOpenhandsServer_run. cbv zeta.
  destruct (ensureAgentServer sb (portOf options) options w0) as [[[p|e] v1] t1];
    [|discriminate].
  destruct (opt_exposePort options) as [[|]|].
  - destruct (Js.truthy (opt_hostname options)); [|discriminate].
    destruct (exposePort sb _ _ v1) as [[exposed|e] v2]; intros [= <- <- <-].
    + exists p, v1, t1, [EvExposePort (portOf options)
                          (Js.orElse (opt_hostname options) "") (Ok exposed)].
      auto 6.
    + exists p, v1, t1, [EvExposePort (portOf options)
                          (Js.orElse (opt_hostname options) "") (Thrown e);
                        EvWarn exposeWarning e].
      auto 6.
  - intros [= <- <- <-]. exists p, v1, t1, []. rewrite app_nil_r.
    repeat split; auto; discriminate.
  - intros [= <- <- <-]. exists p, v1, t1, []. rewrite app_nil_r.
    repeat split; auto; discriminate.
Qed.

Lemma createOpenhandsServer_after_ensure {W} (sb : Sandbox W)
      (options : OpenhandsOptions) (w v : W) (q : Process) (t2 : Trace) :
  ensureAgentServer sb (portOf options) options w = (Ok q, v, t2) ->
  (opt_exposePort options = Some true -> Js.truthy (opt_hostname options) = true) ->
  exists h2 texp,
    Async.result (createOpenhandsServer sb options w) = Ok h2
    /\ srv_processId h2 = proc_id q
    /\ Async.trace (createOpenhandsServer sb options w) = (t2 ++ texp)%list
    /\ countEvents isStartProcess texp = 0%nat.
Proof.
  intros Hens Hhost. rewrite createOpenhandsServer_run. cbv zeta. rewrite Hens.
  destruct (opt_exposePort options) as [[|]|].
  - rewrite (Hhost eq_refl).
    destruct (exposePort sb _ _ v) as [[exposed|e] v2]; eexists; eexists;
      cbn [Async.result Async.trace fst snd]; repeat split; reflexivity.
  - exists (serverOf (portOf options) None q), [].
    cbn [Async.result Async.trace fst snd]. rewrite app_nil_r. auto.
  - exists (serverOf (portOf options) None q), [].
    cbn [Async.result Async.trace fst snd]. rewrite app_nil_r. auto.
Qed.

Lemma createOpenhandsServer_trace_prefix {W} (sb : Sandbox W)
      (options : OpenhandsOptions) (w : W) :
  exists texp,
    Async.trace (createOpenhandsServer sb options w)
    = (Async.trace (ensureAgentServer sb (portOf options) options w) ++ texp)%list.
Proof.
  rewrite createOpenhandsServer_run. cbv zeta.
  destruct (ensureAgentServer sb (portOf options) options w) as [[[p|e] v1] t1];
    cbn [Async.trace snd]; [|exists []; rewrite app_nil_r; reflexivity].
  destruct (opt_exposePort options) as [[|]|];
    try (exists []; rewrite app_nil_r; reflexivity).
  destruct (Js.truthy (opt_hostname options));
    [|exists []; rewrite app_nil_r; reflexivity].
  destruct (exposePort sb _ _ v1) as [[exposed|e] v2]; eexists; reflexivity.
Qed.

(** The second call: on a quiet table the coordinator finds the process again
    and spawns nothing. *)
Lemma ensureAgentServer_again {W} (sb : Sandbox W) (port : Z)
      (options : OpenhandsOptions) (w1 : W) (p : Process) (t1 tr1 : Trace)
      (table : list Process) (spawned : list (string * string)) (rest : Trace) :
  relocatable port p t1 table spawned ->
  (forall ev, In ev t1 -> In ev tr1) ->
  quietFrom (Some table) spawned
            (Async.trace (ensureAgentServer sb port options w1) ++ rest)%list = true ->
  readinessPersists tr1 (Async.trace (ensureAgentServer sb port options w1) ++ rest)%list ->
  exists q v t2,
    ensureAgentServer sb port options w1 = (Ok q, v, t2)
    /\ proc_id q = proc_id p
    /\ countEvents isStartProcess t2 = 0%nat.
Proof.
  intros Hrel Hsub. rewrite ensureAgentServer_run.
  destruct (listProcesses sb w1) as [[l|e] v1]; [|discriminate].
  destruct (findExistingIn port l) as [q|] eqn:Hfind.
  2:{ destruct (startAgentServer sb port options v1) as [[[p0|err] v2] ts].
      - simpl. intros Hq _. apply andb_true_iff in Hq. destruct Hq as [Hext _].
        destruct (Hrel l Hext) as [q [Hq _]]. congruence.
      - destruct (listProcesses sb v2) as [[l2|e2] v3];
          [destruct (findExistingIn port l2)|]; rewrite ?after_trace; simpl;
          intros Hq _; apply andb_true_iff in Hq; destruct Hq as [Hext _];
          destruct (Hrel l Hext) as [q' [Hq' _]]; congruence. }
  rewrite after_trace. simpl. intros Hq Hready.
  apply andb_true_iff in Hq. destruct Hq as [Hext _].
  destruct (Hrel l Hext) as [q' [Hq' [Hid Hwaited]]].
  assert (q' = q) by congruence. subst q'.
  revert Hready. rewrite reuseBranch_run.
  destruct (String.eqb_spec (proc_status q) "starting") as [Hs|Hs].
  - destruct (waitForPort sb q port readinessOptions v1) as [[[]|e] v2].
    + intros _. eexists; eexists; eexists. split; [reflexivity|]. auto.
    + destruct (Hwaited Hs) as [p' [Hp' Hin]].
      destruct (getLogs sb q v2) as [[logs|e'] v3]; intros Hready; exfalso;
        refine (Hready q port readinessOptions e _ p' Hp' (Hsub _ Hin));
        right; left; reflexivity.
  - intros _. eexists; eexists; eexists. split; [reflexivity|]. auto.
Qed.

(** C5, the claim as stated fails: the first call reuses a server that is
    still [starting] and whose port answers; nothing is closed and the process
    table stays as it is; the port then stops answering, and the second call
    fails instead of returning a handle. *)
Lemma second_call_fails_when_port_stops_answering :
  let first := createOpenhandsServer sandboxAnsweringOnce Sim.noOptions answering in
  let second :=
    createOpenhandsServer sandboxAnsweringOnce Sim.noOptions (Async.world first) in
  Async.result first = Ok (serverOf 8001 None Sim.booting)
  /\ countEvents isKill (Async.trace first) = 0%nat
  /\ countEvents isStartProcess (Async.trace first) = 0%nat
  /\ Sim.procs (Async.world first) = Sim.procs answering
  /\ Sim.procs (Async.world second) = Sim.procs answering
  /\ isStartupError
       (match Async.result second with Thrown e => e | Ok _ => JsNonError "" end)
     = true
  /\ ~ (forall W (sb : Sandbox W) options (w0 w1 : W) h1 tr1,
          createOpenhandsServer sb options w0 = (Ok h1, w1, tr1) ->
          fst (listProcesses sb w1) = fst (listProcesses sb w0) ->
          exists h2,
            Async.result (createOpenhandsServer sb options w1) = Ok h2
            /\ srv_processId h2 = srv_processId h1).
Proof.
  cbv zeta. repeat (split; [reflexivity|]).
  intros H.
  destruct (H _ sandboxAnsweringOnce Sim.noOptions answering
              (Async.world (createOpenhandsServer sandboxAnsweringOnce Sim.noOptions
                                                  answering))
              (serverOf 8001 None Sim.booting)
              (Async.trace (createOpenhandsServer sandboxAnsweringOnce Sim.noOptions
                                                  answering))
              eq_refl eq_refl) as [h2 [Hr _]].
  discriminate Hr.
Qed.

(** C5, amended.  Two calls in a row with the same options, the second starting in the
    world the first one left, on a process table that only these calls change
    (the listings succeed and show the same table, extended by the process a
    call spawned, and a readiness wait that succeeded in the first call does
    not fail in the second): the second call returns a handle with the same
    process id as the first and makes no [startProcess] call. *)
Theorem ensure_twice_same_process {W} (sb : Sandbox W) (options : OpenhandsOptions)
        (w0 w1 : W) (h1 : OpenhandsServer) (tr1 : Trace)
        (Hfirst : createOpenhandsServer sb options w0 = (Ok h1, w1, tr1))
        (Hquiet : quietFrom None []
                    (tr1 ++ Async.trace (createOpenhandsServer sb options w1))%list
                  = true)
        (Hready : readinessPersists tr1
                    (Async.trace (createOpenhandsServer sb options w1))) :
  exists h2,
    Async.result (createOpenhandsServer sb options w1) = Ok h2
    /\ srv_processId h2 = srv_processId h1
    /\ countEvents isStartProcess
         (Async.trace (createOpenhandsServer sb options w1)) = 0%nat.
Proof.
  destruct (createOpenhandsServer_ok_inv _ _ _ _ _ _ Hfirst)
    as [p [v1 [t1 [texp [Hens [-> [Hprobe [Hid Hhost]]]]]]]].
  destruct (createOpenhandsServer_trace_prefix sb options w1) as [texp2 Htr2].
  rewrite Htr2 in Hquiet, Hready. rewrite <- app_assoc in Hquiet.
  destruct (ensureAgentServer_ok_state _ _ _ _ _ _ _ Hens _ Hquiet)
    as [table [spawned [Hq Hrel]]].
  rewrite quietFrom_skip in Hq by exact Hprobe.
  destruct (ensureAgentServer_again sb (portOf options) options w1 p t1
              (t1 ++ texp)%list table spawned texp2 Hrel
              ltac:(intros ev Hin; apply in_or_app; left; exact Hin) Hq Hready)
    as [q [v [t2 [Hens2 [Hidq Hcount]]]]].
  destruct (createOpenhandsServer_after_ensure _ _ _ _ _ _ Hens2 Hhost)
    as [h2 [texp2' [Hr [Hid2 [Htr Hc]]]]].
  exists h2. split; [exact Hr|]. split; [congruence|].
  rewrite Htr, countEvents_app, Hcount, Hc. reflexivity.
Qed.

(** ** The stop and status routes *)

Lemma stopRoute_result {W} (sb : Sandbox W) (options : OpenhandsOptions) (w : W) :
  exists resp,
    Async.result (stopRoute sb options w) = Ok (Some resp)
    /\ match findOpenhandsServer sb (portOf options) w with
       | (Ok None, _, _) => resp = notRunningResponse
       | (Ok (Some server), v, _) =>
           match kill sb (srv_process server) "SIGTERM" v with
           | (Ok _, _) => resp = stoppedResponse
           | (Thrown e, _) => resp = errorEnvelope e
           end
       | (Thrown e, _, _) => resp = errorEnvelope e
       end.
Proof.
  unfold stopRoute. cbv zeta.
  change (match opt_port options with Some p => p | None => 8001 end)
    with (portOf options).
  unfold Async.tryCatch, Async.bind at 1.
  destruct (findOpenhandsServer sb (portOf options) w) as [[[[server|]|e] v] t].
  - unfold Async.bind, close, callKill, Async.call, Async.ret.
    destruct (kill sb (srv_process server) "SIGTERM" v) as [[[]|e] v'];
      eexists; split; reflexivity.
  - eexists; split; reflexivity.
  - eexists; split; reflexivity.
Qed.

Lemma statusRoute_result {W} (sb : Sandbox W) (options : OpenhandsOptions) (w : W) :
  exists resp,
    Async.result (statusRoute sb options w) = Ok (Some resp)
    /\ match findOpenhandsServer sb (portOf options) w with
       | (Ok None, _, _) => resp = idleStatusResponse
       | (Ok (Some server), v, _) =>
           match listProcesses sb v with
           | (Ok _, _) => resp_status resp = 200 /\ successFlag resp = Some true
           | (Thrown e, _) => resp = errorEnvelope e
           end
       | (Thrown e, _, _) => resp = errorEnvelope e
       end.
Proof.
  unfold statusRoute. cbv zeta.
  change (match opt_port options with Some p => p | None => 8001 end)
    with (portOf options).
  unfold Async.tryCatch, Async.bind at 1.
  destruct (findOpenhandsServer sb (portOf options) w) as [[[[server|]|e] v] t].
  - unfold Async.bind, callListProcesses, Async.call, Async.ret.
    destruct (listProcesses sb v) as [[l|e] v'].
    + eexists. split; [reflexivity|]. split; [reflexivity|].
      unfold successFlag, Response_json. cbn [resp_body].
      destruct (srv_previewUrl server); reflexivity.
    + eexists; split; reflexivity.
  - eexists; split; reflexivity.
  - eexists; split; reflexivity.
Qed.

Lemma append_inj_l (a b c : string) : a ++ b = a ++ c -> b = c.
Proof. induction a; simpl; intros H; [exact H | injection H; auto]. Qed.

Lemma handler_dispatch {W} stackOf (hopts : OpenhandsHandlerOptions)
      (request : Request) (env : WorkerEnv W) (w w1 : W) :
  proxyToSandbox env request w = (Ok None, w1) ->
  let basePath := Js.orElse (ho_basePath hopts) "" in
  (req_pathname request = basePath ++ "/stop-openhands" ->
   Async.result (createOpenhandsHandler stackOf hopts request env w)
   = Async.result (stopRoute (sandboxFor hopts request env) (ho_options hopts) w1))
  /\ (req_pathname request = basePath ++ "/openhands-status" ->
      Async.result (createOpenhandsHandler stackOf hopts request env w)
      = Async.result (statusRoute (sandboxFor hopts request env) (ho_options hopts) w1)).
Proof.
  intros Hproxy basePath.
  unfold createOpenhandsHandler. fold basePath. cbv zeta.
  unfold Async.bind at 1. unfold Async.bind at 1.
  unfold callProxyToSandbox, Async.call. rewrite Hproxy.
  fold (sandboxFor hopts request env).
  split; intros ->.
  - destruct (String.eqb_spec (basePath ++ "/stop-openhands")
                              (basePath ++ "/start-openhands")) as [E|_].
    { apply append_inj_l in E. discriminate E. }
    rewrite String.eqb_refl.
    destruct (stopRoute (sandboxFor hopts request env) (ho_options hopts) w1)
      as [[r v] t].
    reflexivity.
  - destruct (String.eqb_spec (basePath ++ "/openhands-status")
                              (basePath ++ "/start-openhands")) as [E|_].
    { apply append_inj_l in E. discriminate E. }
    destruct (String.eqb_spec (basePath ++ "/openhands-status")
                              (basePath ++ "/stop-openhands")) as [E|_].
    { apply append_inj_l in E. discriminate E. }
    rewrite String.eqb_refl.
    destruct (statusRoute (sandboxFor hopts request env) (ho_options hopts) w1)
      as [[r v] t].
    reflexivity.
Qed.

(** C9, the claim as stated fails for the status route: with no matching
    process the status route answers 200 with [{running: false, success: true}],
    not 404. *)
Lemma status_route_not_found_is_200 :
  let out := createOpenhandsHandler (fun _ => None) defaultHandlerOptions
               statusRequest Sim.env Sim.healthy in
  Async.result (findOpenhandsServer Sim.sandbox 8001 Sim.healthy) = Ok None
  /\ Async.result out
     = Ok (Some {| resp_status := 200;
                   resp_body := JsonBody (JObject [("running", JBool false);
                                                   ("success", JBool true)]) |})
  /\ ~ (exists resp, Async.result out = Ok (Some resp) /\ resp_status resp = 404).
Proof.
  cbv zeta. split; [reflexivity|]. split; [reflexivity|].
  intros [resp [H1 H2]].
  change (Async.result
            (createOpenhandsHandler (fun _ => None) defaultHandlerOptions
                                    statusRequest Sim.env Sim.healthy))
    with (Ok (Some idleStatusResponse)) in H1.
  injection H1 as <-. discriminate H2.
Qed.

(** C9, amended.  For a request the preview proxy passes on: the stop route
    answers 404 with [success: false] when no matching process is found, and
    the status route answers 200 with [{running: false, success: true}] in
    that case; an error thrown inside either route (by the listing, or by the
    kill of the stop route) is answered with 500 and the envelope
    [{error, success: false}]; every answer of the two routes carries a
    boolean [success] flag. *)
Theorem route_envelopes {W} (stackOf : JsValue -> option string)
        (hopts : OpenhandsHandlerOptions) (request : Request)
        (env : WorkerEnv W) (w w1 : W)
        (Hproxy : proxyToSandbox env request w = (Ok None, w1)) :
  let basePath := Js.orElse (ho_basePath hopts) "" in
  let sandbox := sandboxFor hopts request env in
  let found := findOpenhandsServer sandbox (portOf (ho_options hopts)) w1 in
  let out := createOpenhandsHandler stackOf hopts request env w in
  (req_pathname request = basePath ++ "/stop-openhands" ->
   exists resp,
     Async.result out = Ok (Some resp)
     /\ (exists b, successFlag resp = Some b)
     /\ (Async.result found = Ok None ->
         resp_status resp = 404 /\ successFlag resp = Some false)
     /\ (forall e, Async.result found = Thrown e ->
                   resp_status resp = 500 /\ successFlag resp = Some false
                   /\ resp = errorEnvelope e)
     /\ (forall server e,
            Async.result found = Ok (Some server) ->
            fst (kill sandbox (srv_process server) "SIGTERM" (Async.world found))
            = Thrown e ->
            resp_status resp = 500 /\ successFlag resp = Some false
            /\ resp = errorEnvelope e))
  /\ (req_pathname request = basePath ++ "/openhands-status" ->
      exists resp,
        Async.result out = Ok (Some resp)
        /\ (exists b, successFlag resp = Some b)
        /\ (Async.result found = Ok None ->
            resp_status resp = 200
            /\ resp_body resp = JsonBody (JObject [("running", JBool false);
                                                   ("success", JBool true)]))
        /\ (forall e, Async.result found = Thrown e ->
                      resp_status resp = 500 /\ successFlag resp = Some false
                      /\ resp = errorEnvelope e)
        /\ (forall server e,
               Async.result found = Ok (Some server) ->
               fst (listProcesses sandbox (Async.world found)) = Thrown e ->
               resp_status resp = 500 /\ successFlag resp = Some false
               /\ resp = errorEnvelope e)).
Proof.
  cbv zeta.
  destruct (handler_dispatch stackOf hopts request env w w1 Hproxy) as [Hstop Hstatus].
  split; intros Hpath.
  - rewrite (Hstop Hpath).
    destruct (stopRoute_result (sandboxFor hopts request env) (ho_options hopts) w1)
      as [resp [Hr Hcase]].
    exists resp. split; [exact Hr|].
    destruct (findOpenhandsServer (sandboxFor hopts request env)
                                  (portOf (ho_options hopts)) w1)
      as [[[[server|]|e] v] t]; cbn [Async.result Async.world fst snd].
    + destruct (kill (sandboxFor hopts request env) (srv_process server) "SIGTERM" v)
        as [[[]|e] v'] eqn:Hkill; subst resp.
      * split; [exists true; reflexivity|].
        split; [discriminate|]. split; [discriminate|].
        intros server' e' [= <-] E. rewrite Hkill in E. discriminate E.
      * split; [exists false; reflexivity|].
        split; [discriminate|]. split; [discriminate|].
        intros server' e' [= <-] E. rewrite Hkill in E. injection E as <-. auto.
    + subst resp. split; [exists false; reflexivity|].
      split; [auto|]. split; [discriminate|]. intros; discriminate.
    + subst resp. split; [exists false; reflexivity|].
      split; [discriminate|]. split; [|intros; discriminate].
      intros e' [= <-]. auto.
  - rewrite (Hstatus Hpath).
    destruct (statusRoute_result (sandboxFor hopts request env) (ho_options hopts) w1)
      as [resp [Hr Hcase]].
    exists resp. split; [exact Hr|].
    destruct (findOpenhandsServer (sandboxFor hopts request env)
                                  (portOf (ho_options hopts)) w1)
      as [[[[server|]|e] v] t]; cbn [Async.result Async.world fst snd].
    + destruct (listProcesses (sandboxFor hopts request env) v) as [[l|e] v'];
        cbn [fst].
      * destruct Hcase as [Hst Hflag].
        split; [exists true; exact Hflag|].
        split; [discriminate|]. split; [discriminate|].
        intros server' e' _ E. discriminate E.
      * subst resp. split; [exists false; reflexivity|].
        split; [discriminate|]. split; [discriminate|].
        intros server' e' _ [= <-]. auto.
    + subst resp. split; [exists true; reflexivity|].
      split; [auto|]. split; [discriminate|]. intros; discriminate.
    + subst resp. split; [exists false; reflexivity|].
      split; [discriminate|]. split; [|intros; discriminate].
      intros e' [= <-]. auto.
Qed.

(** ** The theorems at work on the small sandbox *)

Lemma recheck_once_witness :
  listProcesses Sim.sandbox Sim.racing = (Ok [], Sim.racing)
  /\ Async.result (startAgentServer Sim.sandbox 8001 Sim.noOptions Sim.racing)
     = Thrown (JsError "Process already exists")
  /\ countEvents isListProcesses
       (Async.trace (ensureAgentServer Sim.sandbox 8001 Sim.noOptions Sim.racing))
     = 2%nat
  /\ countEvents isStartProcess
       (Async.trace (ensureAgentServer Sim.sandbox 8001 Sim.noOptions Sim.racing))
     = 1%nat.
Proof.
  split; [reflexivity|]. split; [reflexivity|].
  pose proof (recheck_once Sim.sandbox 8001 Sim.noOptions Sim.racing
                [] Sim.racing (JsError "Process already exists")
                (Async.world (startAgentServer Sim.sandbox 8001 Sim.noOptions Sim.racing))
                (Async.trace (startAgentServer Sim.sandbox 8001 Sim.noOptions Sim.racing))
                eq_refl eq_refl eq_refl) as H.
  cbv zeta in H. split; [exact (proj1 H) | exact (proj1 (proj2 H))].
Defined.

Lemma reuse_spawns_nothing_witness :
  listProcesses Sim.sandbox Sim.warming = (Ok [Sim.booting], Sim.warming)
  /\ findExistingIn 8001 [Sim.booting] = Some Sim.booting
  /\ countEvents isStartProcess
       (Async.trace (ensureAgentServer Sim.sandbox 8001 Sim.noOptions Sim.warming))
     = 0%nat.
Proof.
  split; [reflexivity|]. split; [reflexivity|].
  exact (proj1 (reuse_spawns_nothing Sim.sandbox 8001 Sim.noOptions Sim.warming
                  [Sim.booting] Sim.warming Sim.booting eq_refl eq_refl)).
Defined.

Lemma hostname_required_before_expose_witness :
  opt_exposePort exposeWithoutHostname = Some true
  /\ Js.truthy (opt_hostname exposeWithoutHostname) = false
  /\ Async.trace (createOpenhandsServer Sim.sandbox exposeWithoutHostname Sim.healthy)
     = Async.trace (ensureAgentServer Sim.sandbox 8001 exposeWithoutHostname Sim.healthy).
Proof.
  split; [reflexivity|]. split; [reflexivity|].
  exact (proj1 (hostname_required_before_expose Sim.sandbox exposeWithoutHostname
                  Sim.healthy eq_refl eq_refl)).
Defined.

Lemma expose_failure_is_swallowed_witness :
  exists server,
    Async.result (createOpenhandsServer Sim.sandbox (Sim.exposeOn "example.com")
                                        Sim.unexposable) = Ok server
    /\ srv_previewUrl server = None.
Proof.
  destruct (expose_failure_is_swallowed Sim.sandbox (Sim.exposeOn "example.com")
              Sim.unexposable "example.com"
              {| proc_id := "proc-1";
                 proc_command := buildAgentServerCommand 8001 None;
                 proc_status := "running" |}
              8001 "example.com" (JsError "exposure failed")
              eq_refl eq_refl eq_refl
              ltac:(right; right; right; left; reflexivity))
    as [server [Hr [Hp _]]].
  exists server. split; [exact Hr | exact Hp].
Defined.

Lemma readiness_failure_outcome_witness :
  listProcesses Sim.sandbox Sim.warming = (Ok [Sim.booting], Sim.warming)
  /\ findExistingIn 8001 [Sim.booting] = Some Sim.booting
  /\ proc_status Sim.booting = "starting"
  /\ Async.result (ensureAgentServer Sim.sandbox 8001 Sim.noOptions Sim.warming)
     = Thrown (OpenhandsStartupError
                 ("agent-server failed to start. Stderr: "
                  ++ "ImportError: no module named uvicorn")
                 {| ctx_port := 8001;
                    ctx_stderr := Some "ImportError: no module named uvicorn";
                    ctx_command := Some (proc_command Sim.booting);
                    ctx_processId := Some (proc_id Sim.booting) |}
                 (JsError "Timed out waiting for port")).
Proof.
  split; [reflexivity|]. split; [reflexivity|]. split; [reflexivity|].
  exact (proj1 (proj1 (proj2 (readiness_failure_outcome Sim.sandbox 8001 Sim.noOptions
                                Sim.warming))
                      [Sim.booting] Sim.warming Sim.booting
                      (JsError "Timed out waiting for port") Sim.warming
                      {| logs_stdout := "";
                         logs_stderr := Some "ImportError: no module named uvicorn" |}
                      Sim.warming eq_refl eq_refl eq_refl eq_refl eq_refl)).
Defined.

Lemma ensure_twice_same_process_witness :
  let first := createOpenhandsServer Sim.sandbox Sim.noOptions Sim.healthy in
  let second := createOpenhandsServer Sim.sandbox Sim.noOptions (Async.world first) in
  Async.result first = Ok (serverOf 8001 None
                             {| proc_id := "proc-1";
                                proc_command := buildAgentServerCommand 8001 None;
                                proc_status := "running" |})
  /\ countEvents isStartProcess (Async.trace first) = 1%nat
  /\ quietFrom None [] (Async.trace first ++ Async.trace second)%list = true
  /\ exists h2,
       Async.result second = Ok h2
       /\ srv_processId h2 = "proc-1"
       /\ countEvents isStartProcess (Async.trace second) = 0%nat.
Proof.
  cbv zeta. split; [reflexivity|]. split; [reflexivity|]. split; [reflexivity|].
  apply (ensure_twice_same_process Sim.sandbox Sim.noOptions Sim.healthy
           (Async.world (createOpenhandsServer Sim.sandbox Sim.noOptions Sim.healthy))
           (serverOf 8001 None
              {| proc_id := "proc-1";
                 proc_command := buildAgentServerCommand 8001 None;
                 proc_status := "running" |})
           (Async.trace (createOpenhandsServer Sim.sandbox Sim.noOptions Sim.healthy))
           eq_refl eq_refl).
  intros p port o e Hin. vm_compute in Hin.
  destruct Hin as [Hin|[]]. discriminate Hin.
Defined.

Lemma route_envelopes_witness :
  proxyToSandbox Sim.env stopRequest Sim.healthy = (Ok None, Sim.healthy)
  /\ exists resp,
       Async.result (createOpenhandsHandler (fun _ => None) defaultHandlerOptions
                                            stopRequest Sim.env Sim.healthy)
       = Ok (Some resp)
       /\ resp_status resp = 404
       /\ successFlag resp = Some false.
Proof.
  split; [reflexivity|].
  destruct (proj1 (route_envelopes (fun _ => None) defaultHandlerOptions stopRequest
                     Sim.env Sim.healthy Sim.healthy eq_refl) eq_refl)
    as [resp [Hr [_ [H404 _]]]].
  exists resp. split; [exact Hr | exact (H404 eq_refl)].
Defined.

Lemma buildAgentServerCommand_shape_witness :
  Some "/workspace" = Some "/workspace"
  /\ "/workspace" <> ""
  /\ "/workspace" <> DEFAULT_AGENT_SERVER_DIR
  /\ buildAgentServerCommand 8001 (Some "/workspace")
     = "cd " ++ "/workspace" ++ " && "
       ++ DEFAULT_AGENT_SERVER_PATH ++ " --host 0.0.0.0 --port " ++ Js.numberToString 8001.
Proof.
  split; [reflexivity|]. split; [discriminate|]. split; [discriminate|].
  exact (proj1 (proj2 (buildAgentServerCommand_shape 8001 (Some "/workspace")))
           "/workspace" eq_refl ltac:(discriminate) ltac:(discriminate)).
Defined.

(** * Further properties of the sources *)

(** ** The coordinator's calls *)

Ltac split_run :=
  repeat match goal with
         | |- context [match ?x with _ => _ end] => destruct x
         end.

(** X1.  Whatever the sandbox answers, one run of [ensureAgentServer] lists
    the processes once or twice, spawns at most once, probes at most twice and
    fetches logs at most twice, and makes no other call (no kill, no port
    exposure). *)
Theorem ensure_call_budget {W} (sb : Sandbox W) (port : Z)
        (options : OpenhandsOptions) (w : W) :
  let t := Async.trace (ensureAgentServer sb port options w) in
  (1 <= countEvents isListProcesses t <= 2)%nat
  /\ (countEvents isStartProcess t <= 1)%nat
  /\ (countEvents isWaitForPort t <= 2)%nat
  /\ (countEvents isGetLogs t <= 2)%nat
  /\ forallb isCoordinatorCall t = true.
Proof.
  cbv zeta. rewrite ensureAgentServer_run.
  destruct (listProcesses sb w) as [[l|e] w1]; [|cbn; repeat split; lia].
  destruct (findExistingIn port l) as [p|].
  { rewrite reuseBranch_run. split_run; cbn; repeat split; lia. }
  rewrite startAgentServer_run. cbv zeta.
  destruct (startProcess sb (startCommand port options) (startOptions options) w1)
    as [[p|e] w2].
  - destruct (waitForPort sb p port readinessOptions w2) as [[[]|e] w3];
      [cbn; repeat split; lia|].
    destruct (getLogs sb p w3) as [[logs|e'] w4];
      (destruct (listProcesses sb w4) as [[l2|e2] w5]; [|cbn; repeat split; lia]);
      (destruct (findExistingIn port l2) as [q|]; [|cbn; repeat split; lia]);
      rewrite reuseBranch_run; split_run; cbn; repeat split; lia.
  - destruct (listProcesses sb w2) as [[l2|e2] w3]; [|cbn; repeat split; lia].
    destruct (findExistingIn port l2) as [q|]; [|cbn; repeat split; lia].
    rewrite reuseBranch_run. split_run; cbn; repeat split; lia.
Qed.

Lemma found_is_active (port : Z) (l : list Process) (p : Process) :
  findExistingIn port l = Some p ->
  proc_status p = "starting" \/ proc_status p = "running".
Proof.
  intros H. destruct (findExistingIn_Some _ _ _ H) as [_ [_ [_ [Hm _]]]].
  apply matchesAgentServer_iff in Hm. apply Hm.
Qed.

Lemma reuseBranch_vetted {W} (sb : Sandbox W) (port : Z) (l : list Process)
      (q r : Process) (v v' : W) (tq : Trace) :
  findExistingIn port l = Some q ->
  reuseBranch sb port q v = (Ok r, v', tq) ->
  r = q
  /\ (proc_status q = "running"
      \/ In (EvWaitForPort q port readinessOptions (Ok tt)) tq).
Proof.
  intros Hfind Hrun. destruct (reuseBranch_ok _ _ _ _ _ _ _ Hrun) as [-> Hwait].
  split; [reflexivity|].
  destruct (found_is_active _ _ _ Hfind) as [Hs|Hs]; auto.
Qed.

(** X2.  A process that [ensureAgentServer] returns has been vetted in that
    very call: either the locator found it in a listing of the call and it is
    listed as [running] or a readiness wait on it succeeded, or the call
    spawned it, after a listing without a match, and the readiness wait on it
    succeeded. *)
Theorem ensure_returns_vetted_process {W} (sb : Sandbox W) (port : Z)
        (options : OpenhandsOptions) (w : W) (p : Process)
        (Hok : Async.result (ensureAgentServer sb port options w) = Ok p) :
  let t := Async.trace (ensureAgentServer sb port options w) in
  (exists l,
      In (EvListProcesses (Ok l)) t
      /\ findExistingIn port l = Some p
      /\ (proc_status p = "running"
          \/ In (EvWaitForPort p port readinessOptions (Ok tt)) t))
  \/ (In (EvStartProcess (startCommand port options) (startOptions options) (Ok p)) t
      /\ In (EvWaitForPort p port readinessOptions (Ok tt)) t
      /\ exists l, In (EvListProcesses (Ok l)) t /\ findExistingIn port l = None).
Proof.
  cbv zeta. revert Hok. rewrite ensureAgentServer_run.
  destruct (listProcesses sb w) as [[l|e] w1]; [|discriminate].
  destruct (findExistingIn port l) as [p0|] eqn:Hfind.
  { destruct (reuseBranch sb port p0 w1) as [[r v] tq] eqn:E.
    unfold after. cbn [Async.result Async.trace fst snd]. intros ->.
    destruct (reuseBranch_vetted _ _ _ _ _ _ _ _ Hfind E) as [-> Hv].
    left. exists l. split; [left; reflexivity|]. split; [exact Hfind|].
    destruct Hv as [Hv|Hv]; [left; exact Hv | right; right; exact Hv]. }
  rewrite startAgentServer_run. cbv zeta.
  destruct (startProcess sb (startCommand port options) (startOptions options) w1)
    as [[p1|e] w2].
  - destruct (waitForPort sb p1 port readinessOptions w2) as [[[]|e] w3].
    + cbn [Async.result Async.trace fst snd]. intros [= ->]. right.
      split; [right; left; reflexivity|].
      split; [right; right; left; reflexivity|].
      exists l. split; [left; reflexivity | exact Hfind].
    + destruct (getLogs sb p1 w3) as [[logs|e'] w4];
        (destruct (listProcesses sb w4) as [[l2|e2] w5]; [|discriminate]);
        (destruct (findExistingIn port l2) as [q|] eqn:Hfind2; [|discriminate]);
        destruct (reuseBranch sb port q w5) as [[r v] tq] eqn:E;
        unfold after; cbn [Async.result Async.trace fst snd]; intros ->;
        destruct (reuseBranch_vetted _ _ _ _ _ _ _ _ Hfind2 E) as [-> Hv];
        left; exists l2;
        (split; [right; right; right; right; left; reflexivity|]);
        (split; [exact Hfind2|]);
        (destruct Hv as [Hv|Hv];
         [left; exact Hv
         | right; right; right; right; right; right; exact Hv]).
  - destruct (listProcesses sb w2) as [[l2|e2] w3]; [|discriminate].
    destruct (findExistingIn port l2) as [q|] eqn:Hfind2; [|discriminate].
    destruct (reuseBranch sb port q w3) as [[r v] tq] eqn:E.
    unfold after. cbn [Async.result Async.trace fst snd]. intros ->.
    destruct (reuseBranch_vetted _ _ _ _ _ _ _ _ Hfind2 E) as [-> Hv].
    left. exists l2.
    split; [right; right; left; reflexivity|]. split; [exact Hfind2|].
    destruct Hv as [Hv|Hv]; [left; exact Hv | right; right; right; right; exact Hv].
Qed.

Ltac spawn_facts Hfind :=
  split; [reflexivity|];
  split; [reflexivity|];
  split; [reflexivity|];
  split; [apply buildAgentServerCommand_matches|];
  eexists; eexists; split; [reflexivity | exact Hfind].

(** X3.  The coordinator spawns only after its first listing showed no match,
    and what it spawns is always the built command for the call's port, in the
    caller's directory (or the default one) and with the caller's environment;
    that command is one the locator recognises for the same port. *)
Theorem spawn_only_when_absent {W} (sb : Sandbox W) (port : Z)
        (options : OpenhandsOptions) (w : W)
        (cmd : string) (o : StartOptions) (r : Result Process)
        (Hspawn : In (EvStartProcess cmd o r)
                     (Async.trace (ensureAgentServer sb port options w))) :
  cmd = buildAgentServerCommand port (Some (directoryOf options))
  /\ so_cwd o = directoryOf options
  /\ so_env o = opt_env options
  /\ commandMatches port cmd = true
  /\ exists l rest,
       Async.trace (ensureAgentServer sb port options w)
       = EvListProcesses (Ok l) :: EvStartProcess cmd o r :: rest
       /\ findExistingIn port l = None.
Proof.
  assert (Hprobe : forall q v t0,
             In (EvStartProcess cmd o r) (t0 ++ Async.trace (reuseBranch sb port q v))%list ->
             In (EvStartProcess cmd o r) t0).
  { intros q v t0 Hin. apply in_app_or in Hin. destruct Hin as [Hin|Hin]; [exact Hin|].
    pose proof (reuseBranch_trace sb port q v) as Hp. rewrite Forall_forall in Hp.
    destruct (Hp _ Hin). }
  revert Hspawn. rewrite ensureAgentServer_run.
  destruct (listProcesses sb w) as [[l|e] w1].
  2:{ intros [Hin|[]]. discriminate Hin. }
  destruct (findExistingIn port l) as [p0|] eqn:Hfind.
  { rewrite after_trace. intros Hin. apply Hprobe in Hin.
    destruct Hin as [Hin|[]]. discriminate Hin. }
  rewrite startAgentServer_run. cbv zeta.
  destruct (startProcess sb (startCommand port options) (startOptions options) w1)
    as [[p1|e] w2].
  - destruct (waitForPort sb p1 port readinessOptions w2) as [[[]|e] w3].
    + cbn [Async.trace snd]. intros [Hin|[Hin|[Hin|[]]]]; try discriminate Hin.
      injection Hin as <- <- <-. spawn_facts Hfind.
    + destruct (getLogs sb p1 w3) as [[logs|e'] w4];
        (destruct (listProcesses sb w4) as [[l2|e2] w5];
         [destruct (findExistingIn port l2) as [q|]|]);
        rewrite ?after_after, ?after_trace; cbn [Async.trace snd];
        intros Hin; try apply Hprobe in Hin;
        cbn [In app] in Hin;
        (destruct Hin as [Hin|[Hin|[Hin|[Hin|[Hin|[]]]]]]; try discriminate Hin);
        injection Hin as <- <- <-; spawn_facts Hfind.
  - destruct (listProcesses sb w2) as [[l2|e2] w3];
      [destruct (findExistingIn port l2) as [q|]|];
      rewrite ?after_after, ?after_trace; cbn [Async.trace snd];
      intros Hin; try apply Hprobe in Hin;
      cbn [In app] in Hin;
      (destruct Hin as [Hin|[Hin|[Hin|[]]]]; try discriminate Hin);
      injection Hin as <- <- <-; spawn_facts Hfind.
Qed.

(** ** The handle and the exposure *)

Lemma coordinator_never_exposes (port : Z) (t : Trace) :
  Forall (coordinatorEvent port) t -> countEvents isExposePort t = 0%nat.
Proof.
  induction 1 as [|ev t Hev _ IH]; [reflexivity|].
  rewrite countEvents_cons, IH. destruct ev; simpl in Hev; try contradiction; reflexivity.
Qed.

(** X4.  [createOpenhandsServer] fails in exactly two ways: with the error of
    the coordinator, or, when the coordinator succeeded, exposure was asked
    for and the hostname is missing or empty, with the hostname error.  When
    it succeeds, the handle carries the call's port (8001 when none is
    given), the URL [http://localhost:<port>] and the id of the process the
    coordinator returned, and [close()] targets that process. *)
Theorem create_outcome {W} (sb : Sandbox W) (options : OpenhandsOptions) (w : W) :
  let out := createOpenhandsServer sb options w in
  let ens := ensureAgentServer sb (portOf options) options w in
  (forall e,
      Async.result out = Thrown e <->
      Async.result ens = Thrown e
      \/ (exists p, Async.result ens = Ok p
                    /\ opt_exposePort options = Some true
                    /\ Js.truthy (opt_hostname options) = false
                    /\ e = JsError hostnameRequired))
  /\ (forall h,
         Async.result out = Ok h ->
         exists p,
           Async.result ens = Ok p
           /\ srv_port h = match opt_port options with Some n => n | None => 8001 end
           /\ srv_url h = "http://localhost:" ++ Js.numberToString (srv_port h)
           /\ srv_processId h = proc_id p
           /\ srv_process h = p).
Proof.
  cbv zeta. rewrite createOpenhandsServer_run. cbv zeta.
  destruct (ensureAgentServer sb (portOf options) options w) as [[[p|e0] w1] t];
    cbn [Async.result fst].
  2:{ split.
      - intros e. split; [intros [= <-]; left; reflexivity|].
        intros [[= <-]|[p [H _]]]; [reflexivity | discriminate H].
      - intros h H. discriminate H. }
  destruct (opt_exposePort options) as [[|]|].
  - destruct (Js.truthy (opt_hostname options)).
    + destruct (exposePort sb _ _ w1) as [[exposed|e1] w2]; cbn [Async.result fst];
        (split;
         [intros e; split;
          [discriminate | intros [H|[p' [_ [_ [H _]]]]]; discriminate H]
         |intros h [= <-]; exists p; repeat split; reflexivity]).
    + cbn [Async.result fst]. split.
      * intros e. split.
        -- intros [= <-]. right. exists p. auto.
        -- intros [H|[p' [_ [_ [_ ->]]]]]; [discriminate H | reflexivity].
      * intros h H. discriminate H.
  - cbn [Async.result fst]. split.
    + intros e. split; [discriminate|].
      intros [H|[p' [_ [H _]]]]; discriminate H.
    + intros h [= <-]. exists p. repeat split; reflexivity.
  - cbn [Async.result fst]. split.
    + intros e. split; [discriminate|].
      intros [H|[p' [_ [H _]]]]; discriminate H.
    + intros h [= <-]. exists p. repeat split; reflexivity.
Qed.

(** X5.  Unless [exposePort] is set to true, [createOpenhandsServer] makes no
    call beyond those of the coordinator, even when a hostname is supplied:
    the sandbox's [exposePort] is never called and the handle's [previewUrl]
    is undefined. *)
Theorem no_exposure_unless_asked {W} (sb : Sandbox W) (options : OpenhandsOptions)
        (w : W)
        (Hoff : opt_exposePort options <> Some true) :
  let out := createOpenhandsServer sb options w in
  let ens := ensureAgentServer sb (portOf options) options w in
  Async.trace out = Async.trace ens
  /\ Async.world out = Async.world ens
  /\ countEvents isExposePort (Async.trace out) = 0%nat
  /\ (forall h, Async.result out = Ok h -> srv_previewUrl h = None).
Proof.
  cbv zeta. rewrite createOpenhandsServer_run. cbv zeta.
  pose proof (coordinator_never_exposes _ _
                (ensureAgentServer_events sb (portOf options) options w)) as Hno.
  destruct (ensureAgentServer sb (portOf options) options w) as [[[p|e0] w1] t];
    cbn [Async.result Async.trace Async.world fst snd] in *.
  2:{ repeat split; auto. intros h H. discriminate H. }
  destruct (opt_exposePort options) as [[|]|]; [contradiction Hoff; reflexivity| |];
    cbn [Async.result Async.trace Async.world fst snd];
    repeat split; auto; intros h [= <-]; reflexivity.
Qed.

(** X6.  With [exposePort] set and a non-empty hostname, the sandbox's
    [exposePort] is called exactly once when the coordinator succeeds, after
    all the coordinator's calls, for the call's port and the caller's
    hostname; when it answers, the handle's [previewUrl] is the answer itself
    if it is a string and its [url] otherwise.  When the coordinator fails,
    [exposePort] is not called. *)
Theorem exposure_once_after_readiness {W} (sb : Sandbox W)
        (options : OpenhandsOptions) (w : W) (h : string)
        (Hon : opt_exposePort options = Some true)
        (Hhost : opt_hostname options = Some h)
        (Hne : h <> "") :
  let out := createOpenhandsServer sb options w in
  let ens := ensureAgentServer sb (portOf options) options w in
  match Async.result ens with
  | Thrown _ => countEvents isExposePort (Async.trace out) = 0%nat
  | Ok p =>
      countEvents isExposePort (Async.trace out) = 1%nat
      /\ exists r rest,
           Async.trace out
           = (Async.trace ens ++ EvExposePort (portOf options) h r :: rest)%list
           /\ forall exposed,
                r = Ok exposed ->
                rest = []
                /\ Async.result out
                   = Ok (serverOf (portOf options)
                           (Some (match exposed with
                                  | ExposedString s => s
                                  | ExposedObject url => url
                                  end)) p)
  end.
Proof.
  cbv zeta. rewrite createOpenhandsServer_run. cbv zeta.
  pose proof (coordinator_never_exposes _ _
                (ensureAgentServer_events sb (portOf options) options w)) as Hno.
  rewrite Hon, Hhost. unfold Js.truthy, Js.orElse, Js.truthyStr.
  destruct (String.eqb_spec h "") as [E|_]; [contradiction|]. cbn [negb].
  destruct (ensureAgentServer sb (portOf options) options w) as [[[p|e0] w1] t];
    cbn [Async.result Async.trace Async.world fst snd] in *; [|exact Hno].
  destruct (exposePort sb (portOf options) h w1) as [[exposed|e1] w2];
    cbn [Async.result Async.trace Async.world fst snd].
  - split; [count_events; rewrite Hno; reflexivity|].
    exists (Ok exposed), []. split; [reflexivity|].
    intros ex [= <-]. split; reflexivity.
  - split; [count_events; rewrite Hno; reflexivity|].
    exists (Thrown e1), [EvWarn exposeWarning e1]. split; [reflexivity|].
    intros ex H. discriminate H.
Qed.

(** ** The route layer *)

Lemma findOpenhandsIn_run {W} (sb : Sandbox W) (port : Z) (l : list Process) (w : W) :
  findOpenhandsIn sb port l w =
  match findExistingIn port l with
  | Some p =>
      match getExposedPorts sb "" w with
      | (answer, w1) =>
          (Ok (Some (serverOf port (previewOf port answer) p)), w1,
           [EvGetExposedPorts "" answer])
      end
  | None => (Ok None, w, [])
  end.
Proof.
  induction l as [|q rest IH]; [reflexivity|].
  rewrite findExistingIn_cons, findOpenhandsIn_cons.
  destruct (matchesAgentServer port q); [|exact IH].
  unfold Async.bind, previewLookup, Async.tryCatch, Async.bind, callGetExposedPorts,
    Async.call, Async.ret.
  destruct (getExposedPorts sb "" w) as [[eps|e] w1]; reflexivity.
Qed.

Lemma findOpenhandsServer_full_run {W} (sb : Sandbox W) (port : Z) (w : W) :
  findOpenhandsServer sb port w =
  match listProcesses sb w with
  | (Thrown e, w1) => (Thrown e, w1, [EvListProcesses (Thrown e)])
  | (Ok l, w1) =>
      match findExistingIn port l with
      | Some p =>
          match getExposedPorts sb "" w1 with
          | (answer, w2) =>
              (Ok (Some (serverOf port (previewOf port answer) p)), w2,
               [EvListProcesses (Ok l); EvGetExposedPorts "" answer])
          end
      | None => (Ok None, w1, [EvListProcesses (Ok l)])
      end
  end.
Proof.
  unfold findOpenhandsServer, Async.bind, callListProcesses, Async.call.
  destruct (listProcesses sb w) as [[l|e] w1]; [|reflexivity].
  rewrite findOpenhandsIn_run.
  destruct (findExistingIn port l) as [p|]; [|reflexivity].
  destruct (getExposedPorts sb "" w1) as [answer w2]. reflexivity.
Qed.

(** X7.  The route layer's locator never fails because of the preview lookup:
    when the listing holds a match and [getExposedPorts] throws, the handle is
    still returned, without a preview address; when it answers, the preview
    address is the URL of the first exposed entry for the port, if any.  The
    lookup is made only when a process was found. *)
Theorem route_locator_preview {W} (sb : Sandbox W) (port : Z) (w : W)
        (l : list Process) (w1 : W)
        (Hlist : listProcesses sb w = (Ok l, w1)) :
  match findExistingIn port l with
  | Some p =>
      exists server,
        Async.result (findOpenhandsServer sb port w) = Ok (Some server)
        /\ srv_processId server = proc_id p
        /\ srv_previewUrl server
           = match fst (getExposedPorts sb "" w1) with
             | Ok exposedPorts =>
                 option_map ep_url
                   (List.find (fun ep => Z.eqb (ep_port ep) port) exposedPorts)
             | Thrown _ => None
             end
        /\ Async.trace (findOpenhandsServer sb port w)
           = [EvListProcesses (Ok l);
              EvGetExposedPorts "" (fst (getExposedPorts sb "" w1))]
  | None =>
      findOpenhandsServer sb port w = (Ok None, w1, [EvListProcesses (Ok l)])
  end.
Proof.
  rewrite findOpenhandsServer_full_run, Hlist.
  destruct (findExistingIn port l) as [p|]; [|reflexivity].
  destruct (getExposedPorts sb "" w1) as [answer w2].
  eexists. repeat split; reflexivity.
Qed.

Lemma stopRoute_run {W} (sb : Sandbox W) (options : OpenhandsOptions) (w : W) :
  stopRoute sb options w =
  match findOpenhandsServer sb (portOf options) w with
  | (Ok (Some server), v, t) =>
      match kill sb (srv_process server) "SIGTERM" v with
      | (Ok _, v') =>
          (Ok (Some stoppedResponse), v',
           t ++ [EvKill (srv_process server) "SIGTERM" (Ok tt)])
      | (Thrown e, v') =>
          (Ok (Some (errorEnvelope e)), v',
           t ++ [EvKill (srv_process server) "SIGTERM" (Thrown e)])
      end
  | (Ok None, v, t) => (Ok (Some notRunningResponse), v, t)
  | (Thrown e, v, t) => (Ok (Some (errorEnvelope e)), v, t)
  end%list.
Proof.
  unfold stopRoute. cbv zeta.
  change (match opt_port options with Some p => p | None => 8001 end)
    with (portOf options).
  unfold Async.tryCatch, Async.bind at 1.
  destruct (findOpenhandsServer sb (portOf options) w) as [[[[server|]|e] v] t].
  - unfold Async.bind, close, callKill, Async.call, Async.ret.
    destruct (kill sb (srv_process server) "SIGTERM" v) as [[[]|e] v'].
    + rewrite app_nil_r. reflexivity.
    + rewrite app_nil_r. reflexivity.
  - unfold Async.ret. rewrite app_nil_r. reflexivity.
  - unfold Async.ret. rewrite app_nil_r. reflexivity.
Qed.

Lemma statusRoute_run {W} (sb : Sandbox W) (options : OpenhandsOptions) (w : W) :
  exists body : OpenhandsServer -> list Process -> Json,
    (forall server l2,
        body server l2
        = JObject
            ([("running", JBool (listedAsRunning (srv_processId server) l2));
              ("port", JNumber (srv_port server))]
             ++ optField "previewUrl" (option_map JString (srv_previewUrl server))
             ++ [("process",
                  match List.find (fun q => String.eqb (proc_id q)
                                                       (srv_processId server)) l2 with
                  | Some q => JObject [("id", JString (proc_id q));
                                       ("status", JString (proc_status q));
                                       ("command", JString (proc_command q))]
                  | None => JNull
                  end);
                 ("success", JBool true)])%list)
    /\ statusRoute sb options w =
       match findOpenhandsServer sb (portOf options) w with
       | (Ok (Some server), v, t) =>
           match listProcesses sb v with
           | (Ok l2, v') =>
               (Ok (Some (Response_json (body server l2) None)), v',
                t ++ [EvListProcesses (Ok l2)])
           | (Thrown e, v') =>
               (Ok (Some (errorEnvelope e)), v', t ++ [EvListProcesses (Thrown e)])
           end
       | (Ok None, v, t) => (Ok (Some idleStatusResponse), v, t)
       | (Thrown e, v, t) => (Ok (Some (errorEnvelope e)), v, t)
       end%list.
Proof.
  eexists. split; [intros server l2; reflexivity|].
  unfold statusRoute. cbv zeta.
  change (match opt_port options with Some p => p | None => 8001 end)
    with (portOf options).
  unfold Async.tryCatch, Async.bind at 1.
  destruct (findOpenhandsServer sb (portOf options) w) as [[[[server|]|e] v] t].
  - unfold Async.bind, callListProcesses, Async.call, Async.ret.
    destruct (listProcesses sb v) as [[l2|e] v'].
    + rewrite app_nil_r. reflexivity.
    + rewrite app_nil_r. reflexivity.
  - unfold Async.ret. rewrite app_nil_r. reflexivity.
  - unfold Async.ret. rewrite app_nil_r. reflexivity.
Qed.

(** X8.  On a listing that answers, the stop route kills at most one process:
    when the locator finds one, exactly one [kill] is sent, with [SIGTERM], to
    the first matching process, and the answer is 200 [Server stopped] when
    the kill succeeds and the 500 envelope when it throws; when nothing is
    found no [kill] is sent.  The stop route never spawns. *)
Theorem stop_route_kills_located_process {W} (sb : Sandbox W)
        (options : OpenhandsOptions) (w : W) (l : list Process) (w1 : W)
        (Hlist : listProcesses sb w = (Ok l, w1)) :
  let out := stopRoute sb options w in
  countEvents isStartProcess (Async.trace out) = 0%nat
  /\ match findExistingIn (portOf options) l with
     | Some p =>
         exists r,
           List.filter isKill (Async.trace out) = [EvKill p "SIGTERM" r]
           /\ Async.result out
              = Ok (Some (match r with
                          | Ok _ => stoppedResponse
                          | Thrown e => errorEnvelope e
                          end))
     | None =>
         List.filter isKill (Async.trace out) = []
         /\ Async.result out = Ok (Some notRunningResponse)
     end.
Proof.
  cbv zeta. rewrite stopRoute_run, findOpenhandsServer_full_run, Hlist.
  destruct (findExistingIn (portOf options) l) as [p|].
  - destruct (getExposedPorts sb "" w1) as [answer w2].
    cbn [srv_process serverOf].
    destruct (kill sb p "SIGTERM" w2) as [[[]|e] w3];
      (split; [reflexivity|]); eexists; split; reflexivity.
  - split; [reflexivity|]. split; reflexivity.
Qed.

(** X9.  The status route only reads: whatever the sandbox answers, it calls
    nothing but [listProcesses] (at most twice) and [getExposedPorts] (at most
    once), and it always answers with a response; it never throws. *)
Theorem status_route_read_only {W} (sb : Sandbox W) (options : OpenhandsOptions)
        (w : W) :
  let out := statusRoute sb options w in
  forallb isReadOnlyCall (Async.trace out) = true
  /\ (countEvents isListProcesses (Async.trace out) <= 2)%nat
  /\ exists resp, Async.result out = Ok (Some resp).
Proof.
  cbv zeta. destruct (statusRoute_run sb options w) as [body [_ ->]].
  rewrite findOpenhandsServer_full_run.
  destruct (listProcesses sb w) as [[l|e] w1].
  - destruct (findExistingIn (portOf options) l) as [p|].
    + destruct (getExposedPorts sb "" w1) as [answer w2].
      destruct (listProcesses sb w2) as [[l2|e] w3];
        (split; [reflexivity|]); (split; [cbn; lia|]); eexists; reflexivity.
    + split; [reflexivity|]. split; [cbn; lia|]. eexists; reflexivity.
  - split; [reflexivity|]. split; [cbn; lia|]. eexists; reflexivity.
Qed.

(** X10.  When the status route finds a process and its second listing
    answers, the answer is 200 with [success: true]; [running] is true exactly
    when the second listing holds a process with the found id whose status is
    [running] (so a server that is still [starting] is reported as not
    running), and [process] is [null] when the id is no longer listed. *)
Theorem status_route_reports_second_listing {W} (sb : Sandbox W)
        (options : OpenhandsOptions) (w : W)
        (l : list Process) (w1 : W) (p : Process) (l2 : list Process) (w3 : W)
        (Hlist : listProcesses sb w = (Ok l, w1))
        (Hfound : findExistingIn (portOf options) l = Some p)
        (Hagain : listProcesses sb (snd (getExposedPorts sb "" w1)) = (Ok l2, w3)) :
  exists resp,
    statusRoute sb options w
    = (Ok (Some resp), w3,
       [EvListProcesses (Ok l);
        EvGetExposedPorts "" (fst (getExposedPorts sb "" w1));
        EvListProcesses (Ok l2)])
    /\ resp_status resp = 200
    /\ responseField "success" resp = Some (JBool true)
    /\ responseField "running" resp = Some (JBool (listedAsRunning (proc_id p) l2))
    /\ responseField "port" resp = Some (JNumber (portOf options))
    /\ responseField "process" resp
       = Some (match List.find (fun q => String.eqb (proc_id q) (proc_id p)) l2 with
               | Some q => JObject [("id", JString (proc_id q));
                                    ("status", JString (proc_status q));
                                    ("command", JString (proc_command q))]
               | None => JNull
               end).
Proof.
  destruct (statusRoute_run sb options w) as [body [Hbody ->]].
  rewrite findOpenhandsServer_full_run, Hlist, Hfound.
  revert Hagain.
  destruct (getExposedPorts sb "" w1) as [answer w2]. cbn [fst snd]. intros ->.
  eexists. split; [reflexivity|]. split; [reflexivity|].
  rewrite Hbody. unfold responseField, Response_json.
  cbn [resp_body srv_previewUrl srv_processId srv_port serverOf].
  destruct (previewOf (portOf options) answer);
    destruct (List.find (fun q => String.eqb (proc_id q) (proc_id p)) l2);
    repeat split; reflexivity.
Qed.

Lemma startRoute_run {W} (stackOf : JsValue -> option string) (sb : Sandbox W)
      (options : OpenhandsOptions) (request : Request) (w : W) :
  exists (okBody : OpenhandsServer -> Json) (errBody : JsValue -> Json),
    (forall server,
        okBody server
        = JObject
            ([("process",
               JObject [("id", JString (srv_processId server));
                        ("port", JNumber (srv_port server));
                        ("status", JString "running")])]
             ++ optField "previewUrl"
                  (if Js.truthy (srv_previewUrl server)
                   then Some (JObject
                                [("url", JString (Js.orElse (srv_previewUrl server) ""));
                                 ("port", JNumber (srv_port server))])
                   else None)
             ++ [("success", JBool true)])%list)
    /\ (forall e,
           errBody e
           = JObject
               ([("error", JString (errorText e))]
                ++ optField "errorStack"
                     (match e with
                      | JsNonError _ => None
                      | _ => option_map JString (stackOf e)
                      end)
                ++ [("success", JBool false)])%list)
    /\ startRoute stackOf sb options request w =
       match createOpenhandsServer sb (startRouteOptions options request) w with
       | (Ok server, v, t) => (Ok (Some (Response_json (okBody server) None)), v, t)
       | (Thrown e, v, t) => (Ok (Some (Response_json (errBody e) (Some 500))), v, t)
       end.
Proof.
  eexists. eexists. split; [intros server; reflexivity|].
  split; [intros e; reflexivity|].
  unfold startRoute. cbv zeta. fold (startRouteOptions options request).
  unfold Async.tryCatch, Async.bind at 1.
  destruct (createOpenhandsServer sb (startRouteOptions options request) w)
    as [[[server|e] v] t].
  - unfold Async.ret. rewrite app_nil_r. reflexivity.
  - unfold Async.ret. rewrite app_nil_r. reflexivity.
Qed.

(** X11.  The start route never throws and makes no call of its own: its
    trace is that of [createOpenhandsServer]; it answers 200 with
    [success: true] and the handle's process id and port when the server was
    obtained, and 500 with [success: false] and the error's message when
    [createOpenhandsServer] threw. *)
Theorem start_route_envelope {W} (stackOf : JsValue -> option string)
        (sb : Sandbox W) (options : OpenhandsOptions) (request : Request) (w : W) :
  let out := startRoute stackOf sb options request w in
  let inner := createOpenhandsServer sb (startRouteOptions options request) w in
  Async.trace out = Async.trace inner
  /\ exists resp,
       Async.result out = Ok (Some resp)
       /\ match Async.result inner with
          | Ok server =>
              resp_status resp = 200
              /\ responseField "success" resp = Some (JBool true)
              /\ responseField "process" resp
                 = Some (JObject [("id", JString (srv_processId server));
                                  ("port", JNumber (srv_port server));
                                  ("status", JString "running")])
          | Thrown e =>
              resp_status resp = 500
              /\ responseField "success" resp = Some (JBool false)
              /\ responseField "error" resp = Some (JString (errorText e))
          end.
Proof.
  cbv zeta.
  destruct (startRoute_run stackOf sb options request w)
    as [okBody [errBody [Hok [Herr ->]]]].
  destruct (createOpenhandsServer sb (startRouteOptions options request) w)
    as [[[server|e] v] t]; cbn [Async.trace Async.result fst snd].
  - split; [reflexivity|]. eexists. split; [reflexivity|].
    rewrite Hok. unfold responseField, Response_json. cbn [resp_body resp_status].
    destruct (Js.truthy (srv_previewUrl server)); repeat split; reflexivity.
  - split; [reflexivity|]. eexists. split; [reflexivity|].
    rewrite Herr. unfold responseField, Response_json. cbn [resp_body resp_status].
    destruct e; cbn [optField]; try destruct (stackOf _); repeat split; reflexivity.
Qed.

Lemma startRouteOptions_fields (options : OpenhandsOptions) (request : Request) :
  opt_port (startRouteOptions options request) = opt_port options
  /\ opt_directory (startRouteOptions options request) = opt_directory options
  /\ opt_env (startRouteOptions options request) = opt_env options
  /\ opt_exposePort (startRouteOptions options request) = opt_exposePort options.
Proof. repeat split; reflexivity. Qed.

(** X12.  Through the start route the hostname falls back to the request's:
    with [exposePort] set and a request whose URL has a hostname, the hostname
    error cannot arise; when the coordinator succeeds the route answers 200
    and [exposePort] is called exactly once, with the configured hostname if
    there is a non-empty one and the request's hostname otherwise. *)
Theorem start_route_hostname_fallback {W} (stackOf : JsValue -> option string)
        (sb : Sandbox W) (options : OpenhandsOptions) (request : Request) (w : W)
        (p : Process)
        (Hon : opt_exposePort options = Some true)
        (Hreq : req_hostname request <> "")
        (Hens : Async.result
                  (ensureAgentServer sb (portOf options)
                                     (startRouteOptions options request) w) = Ok p) :
  let out := startRoute stackOf sb options request w in
  exists resp r,
    Async.result out = Ok (Some resp)
    /\ resp_status resp = 200
    /\ List.filter isExposePort (Async.trace out)
       = [EvExposePort (portOf options)
                       (Js.orElse (opt_hostname options) (req_hostname request)) r].
Proof.
  cbv zeta.
  destruct (startRoute_run stackOf sb options request w)
    as [okBody [errBody [Hok [Herr ->]]]].
  rewrite createOpenhandsServer_run. cbv zeta.
  change (portOf (startRouteOptions options request)) with (portOf options) in *.
  pose proof (coordinator_never_exposes _ _
                (ensureAgentServer_events sb (portOf options)
                   (startRouteOptions options request) w)) as Hno.
  destruct (ensureAgentServer sb (portOf options) (startRouteOptions options request) w)
    as [[[p'|e0] w1] t]; cbn [Async.result Async.trace fst snd] in *; [|discriminate].
  assert (Hfilter : List.filter isExposePort t = []).
  { unfold countEvents in Hno. destruct (List.filter isExposePort t); [reflexivity|].
    discriminate Hno. }
  assert (Htruthy : Js.truthy (opt_hostname (startRouteOptions options request)) = true
                    /\ Js.orElse (opt_hostname (startRouteOptions options request)) ""
                       = Js.orElse (opt_hostname options) (req_hostname request)).
  { unfold startRouteOptions, withHostname. cbn [opt_hostname]. rewrite Hon.
    unfold Js.truthy, Js.orElse, Js.truthyStr.
    destruct (opt_hostname options) as [h|].
    - destruct (String.eqb_spec h "") as [->|Hh]; cbn [negb].
      + destruct (String.eqb_spec (req_hostname request) ""); [contradiction|].
        split; reflexivity.
      + destruct (String.eqb_spec h ""); [contradiction|]. split; reflexivity.
    - destruct (String.eqb_spec (req_hostname request) ""); [contradiction|].
      split; reflexivity. }
  destruct Htruthy as [Ht Hh].
  change (opt_exposePort (startRouteOptions options request))
    with (opt_exposePort options).
  rewrite Hon, Ht, Hh.
  destruct (exposePort sb (portOf options)
              (Js.orElse (opt_hostname options) (req_hostname request)) w1)
    as [[exposed|e1] w2]; cbn [Async.result Async.trace fst snd];
    eexists; eexists; (split; [reflexivity|]); (split; [reflexivity|]);
    rewrite filter_app, Hfilter; reflexivity.
Qed.

Lemma handler_run {W} (stackOf : JsValue -> option string)
      (hopts : OpenhandsHandlerOptions) (request : Request)
      (env : WorkerEnv W) (w : W) :
  createOpenhandsHandler stackOf hopts request env w =
  let basePath := Js.orElse (ho_basePath hopts) "" in
  let sandbox := sandboxFor hopts request env in
  match proxyToSandbox env request w with
  | (Ok (Some r), w1) => (Ok (Some r), w1, [EvProxyToSandbox request (Ok (Some r))])
  | (Thrown e, w1) => (Thrown e, w1, [EvProxyToSandbox request (Thrown e)])
  | (Ok None, w1) =>
      after [EvProxyToSandbox request (Ok None)]
        (if String.eqb (req_pathname request) (basePath ++ "/start-openhands") then
           startRoute stackOf sandbox (ho_options hopts) request w1
         else if String.eqb (req_pathname request) (basePath ++ "/stop-openhands") then
           stopRoute sandbox (ho_options hopts) w1
         else if String.eqb (req_pathname request) (basePath ++ "/openhands-status") then
           statusRoute sandbox (ho_options hopts) w1
         else (Ok None, w1, []))
  end.
Proof.
  unfold createOpenhandsHandler. cbv zeta.
  fold (sandboxFor hopts request env).
  unfold Async.bind at 1. unfold callProxyToSandbox, Async.call.
  destruct (proxyToSandbox env request w) as [[[r|]|e] w1]; try reflexivity.
  unfold after.
  destruct (String.eqb (req_pathname request)
                       (Js.orElse (ho_basePath hopts) "" ++ "/start-openhands")).
  { destruct (startRoute stackOf (sandboxFor hopts request env) (ho_options hopts)
                         request w1) as [[r v] t]. reflexivity. }
  destruct (String.eqb (req_pathname request)
                       (Js.orElse (ho_basePath hopts) "" ++ "/stop-openhands")).
  { destruct (stopRoute (sandboxFor hopts request env) (ho_options hopts) w1)
      as [[r v] t]. reflexivity. }
  destruct (String.eqb (req_pathname request)
                       (Js.orElse (ho_basePath hopts) "" ++ "/openhands-status")).
  { destruct (statusRoute (sandboxFor hopts request env) (ho_options hopts) w1)
      as [[r v] t]. reflexivity. }
  reflexivity.
Qed.

(** X13.  The handler asks the preview proxy first and, outside its three
    routes, does nothing else: an answer of the proxy is returned as it is
    and an error of the proxy is thrown, whatever the path, without a call to
    the sandbox; and when the proxy passes on a request whose path is none of
    the three routes (under the base path), the handler returns [null]
    without a call to the sandbox. *)
Theorem handler_defers_outside_routes {W} (stackOf : JsValue -> option string)
        (hopts : OpenhandsHandlerOptions) (request : Request)
        (env : WorkerEnv W) (w : W) :
  let basePath := Js.orElse (ho_basePath hopts) "" in
  let out := createOpenhandsHandler stackOf hopts request env w in
  match proxyToSandbox env request w with
  | (Ok (Some r), w1) =>
      out = (Ok (Some r), w1, [EvProxyToSandbox request (Ok (Some r))])
  | (Thrown e, w1) =>
      out = (Thrown e, w1, [EvProxyToSandbox request (Thrown e)])
  | (Ok None, w1) =>
      req_pathname request <> basePath ++ "/start-openhands" ->
      req_pathname request <> basePath ++ "/stop-openhands" ->
      req_pathname request <> basePath ++ "/openhands-status" ->
      out = (Ok None, w1, [EvProxyToSandbox request (Ok None)])
  end.
Proof.
  cbv zeta. rewrite handler_run. cbv zeta.
  destruct (proxyToSandbox env request w) as [[[r|]|e] w1]; try reflexivity.
  intros H1 H2 H3.
  destruct (String.eqb_spec (req_pathname request)
              (Js.orElse (ho_basePath hopts) "" ++ "/start-openhands"));
    [contradiction|].
  destruct (String.eqb_spec (req_pathname request)
              (Js.orElse (ho_basePath hopts) "" ++ "/stop-openhands"));
    [contradiction|].
  destruct (String.eqb_spec (req_pathname request)
              (Js.orElse (ho_basePath hopts) "" ++ "/openhands-status"));
    [contradiction|].
  reflexivity.
Qed.

(** X14.  [attachOpenhandsRoutes] runs the worker's own handler only when the
    OpenHands handler returns [null]: for a request the proxy passes on to one
    of the three routes the outcome is a response that does not depend on the
    worker's handler, which is not run; for any other path the worker's
    handler is run, in the world the proxy left. *)
Theorem attach_runs_own_handler_only_on_null {W} (stackOf : JsValue -> option string)
        (hopts : OpenhandsHandlerOptions) (request : Request)
        (env : WorkerEnv W) (w w1 : W)
        (Hproxy : proxyToSandbox env request w = (Ok None, w1)) :
  let basePath := Js.orElse (ho_basePath hopts) "" in
  ((req_pathname request = basePath ++ "/start-openhands"
    \/ req_pathname request = basePath ++ "/stop-openhands"
    \/ req_pathname request = basePath ++ "/openhands-status") ->
   exists resp v t,
     forall fetchHandler,
       attachOpenhandsRoutes stackOf fetchHandler hopts request env w = (Ok resp, v, t))
  /\ (req_pathname request <> basePath ++ "/start-openhands" ->
      req_pathname request <> basePath ++ "/stop-openhands" ->
      req_pathname request <> basePath ++ "/openhands-status" ->
      forall fetchHandler,
        attachOpenhandsRoutes stackOf fetchHandler hopts request env w
        = after [EvProxyToSandbox request (Ok None)] (fetchHandler request env w1)).
Proof.
  cbv zeta.
  assert (Hroute : forall (route : Result (option Response) * W * Trace) resp v t,
             route = (Ok (Some resp), v, t) ->
             forall fetchHandler : Request -> WorkerEnv W -> Async.M W Response,
               match after [EvProxyToSandbox request (Ok None)] route with
               | (Ok a, v1, t1) =>
                   match match a with
                         | Some r => Async.ret r
                         | None => fetchHandler request env
                         end v1 with
                   | (r, v2, t2) => (r, v2, (t1 ++ t2)%list)
                   end
               | (Thrown e, v1, t1) => (Thrown e, v1, t1)
               end
               = (Ok resp, v, (EvProxyToSandbox request (Ok None) :: t)%list)).
  { intros route resp v t -> fetchHandler. unfold after, Async.ret.
    rewrite app_nil_r. reflexivity. }
  unfold attachOpenhandsRoutes, Async.bind. rewrite handler_run, Hproxy. cbv zeta.
  split.
  - intros Hpath.
    assert (Hsome : exists resp v t,
               (if String.eqb (req_pathname request)
                              (Js.orElse (ho_basePath hopts) "" ++ "/start-openhands")
                then startRoute stackOf (sandboxFor hopts request env)
                                (ho_options hopts) request w1
                else if String.eqb (req_pathname request)
                                   (Js.orElse (ho_basePath hopts) "" ++ "/stop-openhands")
                     then stopRoute (sandboxFor hopts request env) (ho_options hopts) w1
                     else if String.eqb (req_pathname request)
                                        (Js.orElse (ho_basePath hopts) ""
                                         ++ "/openhands-status")
                          then statusRoute (sandboxFor hopts request env)
                                           (ho_options hopts) w1
                          else (Ok None, w1, []))
               = (Ok (Some resp), v, t)).
    { destruct (String.eqb_spec (req_pathname request)
                  (Js.orElse (ho_basePath hopts) "" ++ "/start-openhands")) as [_|N1].
      { destruct (startRoute_run stackOf (sandboxFor hopts request env)
                                 (ho_options hopts) request w1)
          as [okBody [errBody [_ [_ ->]]]].
        destruct (createOpenhandsServer _ _ w1) as [[[server|e] v] t];
          eexists; eexists; eexists; reflexivity. }
      destruct (String.eqb_spec (req_pathname request)
                  (Js.orElse (ho_basePath hopts) "" ++ "/stop-openhands")) as [_|N2].
      { rewrite stopRoute_run.
        destruct (findOpenhandsServer _ _ w1) as [[[[server|]|e] v] t];
          [destruct (kill _ _ _ v) as [[[]|e] v']| |];
          eexists; eexists; eexists; reflexivity. }
      destruct (String.eqb_spec (req_pathname request)
                  (Js.orElse (ho_basePath hopts) "" ++ "/openhands-status")) as [_|N3].
      { destruct (statusRoute_run (sandboxFor hopts request env) (ho_options hopts) w1)
          as [body [_ ->]].
        destruct (findOpenhandsServer _ _ w1) as [[[[server|]|e] v] t];
          [destruct (listProcesses _ v) as [[l2|e] v']| |];
          eexists; eexists; eexists; reflexivity. }
      exfalso. tauto. }
    destruct Hsome as [resp [v [t Hsome]]].
    exists resp, v, (EvProxyToSandbox request (Ok None) :: t)%list.
    intros fetchHandler. exact (Hroute _ _ _ _ Hsome fetchHandler).
  - intros N1 N2 N3 fetchHandler.
    destruct (String.eqb_spec (req_pathname request)
                (Js.orElse (ho_basePath hopts) "" ++ "/start-openhands"));
      [contradiction|].
    destruct (String.eqb_spec (req_pathname request)
                (Js.orElse (ho_basePath hopts) "" ++ "/stop-openhands"));
      [contradiction|].
    destruct (String.eqb_spec (req_pathname request)
                (Js.orElse (ho_basePath hopts) "" ++ "/openhands-status"));
      [contradiction|].
    unfold after.
    destruct (fetchHandler request env w1) as [[r v] t]. reflexivity.
Qed.

(** ** Looking for the executable *)

Lemma checkAgentServerExists_run {W} (run : string -> W -> Result ExecResult * W)
      (trim : string -> string) (path : option string) (w : W) :
  checkAgentServerExists run trim path w =
  let command :=
    existsCommand (match path with Some p => p | None => DEFAULT_AGENT_SERVER_PATH end) in
  match run command w with
  | (answer, w1) =>
      (Ok (saysExists trim (mkExecCall command answer)), w1,
       [mkExecCall command answer])
  end.
Proof.
  unfold checkAgentServerExists, Shell.tryCatch, Shell.bind, Shell.exec, Shell.ret,
    saysExists.
  cbv zeta.
  destruct (run _ w) as [[r|e] w1]; reflexivity.
Qed.

(** X15.  [checkAgentServerExists] never throws and runs exactly one command,
    the [test -f] of the given path (of the default path when none is given);
    it answers [true] exactly when that command succeeded and its trimmed
    output is [EXISTS], so a command that throws counts as "not there". *)
Theorem check_never_throws {W} (run : string -> W -> Result ExecResult * W)
        (trim : string -> string) (path : option string) (w : W) :
  let out := checkAgentServerExists run trim path w in
  let command :=
    "test -f " ++ match path with Some p => p | None => DEFAULT_AGENT_SERVER_PATH end
    ++ " && echo " ++ dquote ++ "EXISTS" ++ dquote
    ++ " || echo " ++ dquote ++ "NOT_FOUND" ++ dquote in
  snd out = [mkExecCall command (fst (run command w))]
  /\ snd (fst out) = snd (run command w)
  /\ exists b,
       fst (fst out) = Ok b
       /\ (b = true <->
           exists r, fst (run command w) = Ok r /\ trim (exec_stdout r) = "EXISTS").
Proof.
  cbv zeta. rewrite checkAgentServerExists_run. cbv zeta.
  fold (existsCommand match path with Some p => p | None => DEFAULT_AGENT_SERVER_PATH end).
  destruct (run _ w) as [[r|e] w1]; cbn [fst snd].
  - split; [reflexivity|]. split; [reflexivity|]. eexists. split; [reflexivity|].
    unfold saysExists. cbn [call_answer]. rewrite String.eqb_eq. split.
    + intros H. exists r. auto.
    + intros [r' [[= <-] H]]. exact H.
  - split; [reflexivity|]. split; [reflexivity|]. exists false. split; [reflexivity|].
    split; [discriminate|]. intros [r [H _]]. discriminate H.
Qed.

Lemma firstExistingLocation_cons {W} (run : string -> W -> Result ExecResult * W)
      (trim : string -> string) (location : string) (rest : list string) (w : W) :
  firstExistingLocation run trim (location :: rest) w =
  match run (existsCommand location) w with
  | (answer, w1) =>
      if saysExists trim (mkExecCall (existsCommand location) answer)
      then (Ok (Some location), w1, [mkExecCall (existsCommand location) answer])
      else match firstExistingLocation run trim rest w1 with
           | (r, w2, t) =>
               (r, w2, mkExecCall (existsCommand location) answer :: t)
           end
  end.
Proof.
  cbn [firstExistingLocation]. unfold Shell.bind at 1.
  rewrite checkAgentServerExists_run. cbv zeta.
  destruct (run (existsCommand location) w) as [answer w1].
  destruct (saysExists trim _); [reflexivity|].
  destruct (firstExistingLocation run trim rest w1) as [[r w2] t]. reflexivity.
Qed.


Lemma findAgentServerPath_run {W} (run : string -> W -> Result ExecResult * W)
      (trim : string -> string) (w : W) :
  findAgentServerPath run trim w =
  match firstExistingLocation run trim agentServerLocations w with
  | (Ok (Some location), w1, t) => (Ok (Some location), w1, t)
  | (Ok None, w1, t) =>
      match run "which agent-server" w1 with
      | (answer, w2) =>
          (Ok (whichPath trim answer), w2,
           t ++ [mkExecCall "which agent-server" answer])
      end
  | (Thrown e, w1, t) => (Thrown e, w1, t)
  end%list.
Proof.
  unfold findAgentServerPath, Shell.bind at 1.
  destruct (firstExistingLocation run trim agentServerLocations w)
    as [[[[location|]|e] w1] t]; [|unfold whichPath|reflexivity].
  - unfold Shell.ret. rewrite app_nil_r. reflexivity.
  - unfold Shell.tryCatch, Shell.bind, Shell.exec, Shell.ret.
    destruct (run "which agent-server" w1) as [[r|e] w2]; [|reflexivity].
    cbv zeta.
    destruct (Js.truthyStr (trim (exec_stdout r))
              && negb (Js.includes (trim (exec_stdout r)) "not found"));
      reflexivity.
Qed.

Lemma whichPath_Some (trim : string -> string) (answer : Result ExecResult)
      (path : string) :
  whichPath trim answer = Some path ->
  path <> ""
  /\ Js.includes path "not found" = false
  /\ exists r, answer = Ok r /\ path = trim (exec_stdout r).
Proof.
  unfold whichPath. destruct answer as [r|e]; [|discriminate]. cbv zeta.
  destruct (Js.truthyStr (trim (exec_stdout r))) eqn:Et; [|discriminate].
  destruct (Js.includes (trim (exec_stdout r)) "not found") eqn:Ei; [discriminate|].
  cbn [andb negb]. intros [= <-]. split.
  - intros E. unfold Js.truthyStr in Et. rewrite E in Et. discriminate Et.
  - split; [exact Ei|]. exists r. auto.
Qed.

(** X16.  [findAgentServerPath] never throws.  It runs a non-empty initial
    part of four commands, in order: the [test -f] of the default path, of
    [/software-agent-sdk/...] and of [/root/software-agent-sdk/...], then
    [which agent-server].  It stops at the first probe that says [EXISTS] and
    returns that location; only when all three probes fail (or throw) does it
    run [which], and it then returns the trimmed output when that is not empty
    and does not contain [not found], and [null] otherwise. *)
Theorem find_path_first_existing {W} (run : string -> W -> Result ExecResult * W)
        (trim : string -> string) (w : W) :
  let out := findAgentServerPath run trim w in
  let t := snd out in
  (1 <= List.length t <= 4)%nat
  /\ List.map call_command t = List.firstn (List.length t) pathCommands
  /\ forallb (fun c => negb (saysExists trim c)) (List.firstn 3 (removelast t)) = true
  /\ exists result c,
       fst (fst out) = Ok result
       /\ t = (removelast t ++ [c])%list
       /\ match result with
          | Some path =>
              path <> ""
              /\ ((In path agentServerLocations
                   /\ call_command c = existsCommand path
                   /\ saysExists trim c = true)
                  \/ (List.length t = 4%nat
                      /\ Js.includes path "not found" = false
                      /\ exists r, call_answer c = Ok r
                                   /\ path = trim (exec_stdout r)))
          | None =>
              List.length t = 4%nat /\ whichPath trim (call_answer c) = None
          end.
Proof.
  cbv zeta. rewrite findAgentServerPath_run. unfold agentServerLocations.
  rewrite firstExistingLocation_cons.
  destruct (run (existsCommand DEFAULT_AGENT_SERVER_PATH) w) as [a1 w1].
  destruct (saysExists trim (mkExecCall _ a1)) eqn:E1.
  { cbn [fst snd List.length removelast List.firstn forallb List.map app].
    split; [lia|]. split; [reflexivity|]. split; [reflexivity|].
    eexists; eexists. split; [reflexivity|]. split; [reflexivity|].
    split; [discriminate|]. left. split; [left; reflexivity|]. split; [reflexivity|].
    exact E1. }
  rewrite firstExistingLocation_cons.
  destruct (run (existsCommand "/software-agent-sdk/.venv/bin/agent-server") w1)
    as [a2 w2].
  destruct (saysExists trim (mkExecCall _ a2)) eqn:E2.
  { cbn [fst snd List.length removelast List.firstn forallb List.map app].
    rewrite E1.
    split; [lia|]. split; [reflexivity|]. split; [reflexivity|].
    eexists; eexists. split; [reflexivity|]. split; [reflexivity|].
    split; [discriminate|]. left. split; [right; left; reflexivity|].
    split; [reflexivity|]. exact E2. }
  rewrite firstExistingLocation_cons.
  destruct (run (existsCommand "/root/software-agent-sdk/.venv/bin/agent-server") w2)
    as [a3 w3].
  destruct (saysExists trim (mkExecCall _ a3)) eqn:E3.
  { cbn [fst snd List.length removelast List.firstn forallb List.map app].
    rewrite E1, E2.
    split; [lia|]. split; [reflexivity|]. split; [reflexivity|].
    eexists; eexists. split; [reflexivity|]. split; [reflexivity|].
    split; [discriminate|]. left. split; [right; right; left; reflexivity|].
    split; [reflexivity|]. exact E3. }
  cbn [firstExistingLocation]. unfold Shell.ret.
  destruct (run "which agent-server" w3) as [a4 w4].
  cbn [fst snd List.length removelast List.firstn forallb List.map app].
  rewrite E1, E2, E3.
  split; [lia|]. split; [reflexivity|]. split; [reflexivity|].
  eexists; eexists. split; [reflexivity|]. split; [reflexivity|].
  cbn [call_answer].
  destruct (whichPath trim a4) as [path|] eqn:Ew.
  - destruct (whichPath_Some _ _ _ Ew) as [Hne [Hnf Hr]].
    split; [exact Hne|]. right. split; [reflexivity|]. split; [exact Hnf | exact Hr].
  - split; reflexivity.
Qed.

(** ** Ports, commands and the locator's pattern *)

Lemma numberToString_inj (n m : Z) :
  Js.numberToString n = Js.numberToString m -> n = m.
Proof.
  unfold Js.numberToString. intros H.
  assert (Hnorm : forall z, Z.to_int z <> Decimal.Pos Decimal.Nil
                            /\ Z.to_int z <> Decimal.Neg Decimal.Nil).
  { intros z. pose proof (DecimalZ.to_of (Z.to_int z)) as Hz.
    rewrite DecimalZ.of_to in Hz.
    split; intros E; rewrite E in Hz; discriminate Hz. }
  apply (f_equal NilZero.int_of_string) in H.
  rewrite !NilZero.isi in H by apply Hnorm.
  injection H as H. apply DecimalZ.to_int_inj, H.
Qed.

(** X17.  The command line determines the port: for one directory, two ports
    give the same command only if they are equal. *)
Theorem command_determines_port (p q : Z) (directory : option string)
        (Hsame : buildAgentServerCommand p directory
                 = buildAgentServerCommand q directory) :
  p = q.
Proof.
  apply numberToString_inj.
  assert (Hlaunch : launchCommand p = launchCommand q ->
                    Js.numberToString p = Js.numberToString q).
  { unfold launchCommand. intros H.
    apply append_inj_l in H. apply append_inj_l in H. exact H. }
  destruct (buildAgentServerCommand_cases p directory)
    as [[Ep Hp] | [d [Hd [Hne [Hnd Ep]]]]];
    destruct (buildAgentServerCommand_cases q directory)
      as [[Eq Hq] | [d' [Hd' [Hne' [Hnd' Eq]]]]].
  - apply Hlaunch. congruence.
  - subst directory. destruct (Hp d' eq_refl); contradiction.
  - subst directory. destruct (Hq d eq_refl); contradiction.
  - rewrite Hd in Hd'. injection Hd' as <-.
    rewrite Ep, Eq in Hsame.
    apply (append_inj_l "cd ") in Hsame. apply append_inj_l in Hsame.
    apply (append_inj_l " && ") in Hsame. apply Hlaunch, Hsame.
Qed.

Lemma contains_prefix_of (s pat pat' : string) :
  String.prefix pat pat' = true -> contains s pat' -> contains s pat.
Proof.
  intros Hp [a [c ->]]. apply prefix_iff in Hp. destruct Hp as [c' ->].
  exists a, (c' ++ c). rewrite append_assoc. reflexivity.
Qed.

(** X18.  The locator's test is by substring, so it answers for a port [p]
    with a server started on another port [q] whenever the decimal text of
    [p] begins the decimal text of [q]: a listed active process with the
    command built for [q] is located for [p]. *)
Theorem locator_accepts_port_prefix (p q : Z) (directory : option string)
        (pid st : string)
        (Hprefix : String.prefix (Js.numberToString p) (Js.numberToString q) = true)
        (Hactive : st = "starting" \/ st = "running") :
  findExistingIn p
    [{| proc_id := pid;
        proc_command := buildAgentServerCommand q directory;
        proc_status := st |}]
  = Some {| proc_id := pid;
            proc_command := buildAgentServerCommand q directory;
            proc_status := st |}.
Proof.
  rewrite findExistingIn_cons.
  assert (Hm : matchesAgentServer p
                 {| proc_id := pid;
                    proc_command := buildAgentServerCommand q directory;
                    proc_status := st |} = true).
  { apply matchesAgentServer_iff. unfold Matches. cbn [proc_command proc_status].
    pose proof (buildAgentServerCommand_matches q directory) as Hq.
    unfold commandMatches in Hq.
    rewrite andb_true_iff, orb_true_iff, !includes_iff in Hq.
    destruct Hq as [Hpath Hport].
    split; [exact Hpath|]. split; [|exact Hactive].
    destruct Hport as [Hport|Hport]; [left|right];
      (eapply contains_prefix_of; [|exact Hport]);
      apply prefix_iff; apply prefix_iff in Hprefix; destruct Hprefix as [c ->];
      eexists; rewrite <- append_assoc; reflexivity. }
  rewrite Hm. reflexivity.
Qed.

(** ** The error of a failed start *)

(** X19.  When the spawned process does not become ready and its logs are
    fetched, [startAgentServer] throws an [OpenhandsStartupError] whose
    message names the port and quotes the captured stderr, or [(empty)] when
    the stderr is missing or empty, while the context keeps the stderr as
    fetched; the error of the readiness wait is kept as the cause, and the
    process is left as it is (no kill). *)
Theorem spawn_failure_message {W} (sb : Sandbox W) (port : Z)
        (options : OpenhandsOptions) (w w1 w2 w3 : W)
        (p : Process) (e : JsValue) (logs : Logs)
        (Hspawn : startProcess sb (startCommand port options) (startOptions options) w
                  = (Ok p, w1))
        (Hwait : waitForPort sb p port readinessOptions w1 = (Thrown e, w2))
        (Hlogs : getLogs sb p w2 = (Ok logs, w3)) :
  startAgentServer sb port options w
  = (Thrown
       (OpenhandsStartupError
          ("agent-server failed to start on port " ++ Js.numberToString port
           ++ ". Stderr: "
           ++ match logs_stderr logs with
              | Some text => if String.eqb text "" then "(empty)" else text
              | None => "(empty)"
              end)
          {| ctx_port := port;
             ctx_stderr := logs_stderr logs;
             ctx_command := Some (proc_command p);
             ctx_processId := Some (proc_id p) |}
          e),
     w3,
     [EvStartProcess (startCommand port options) (startOptions options) (Ok p);
      EvWaitForPort p port readinessOptions (Thrown e);
      EvGetLogs p (Ok logs)]).
Proof.
  rewrite startAgentServer_run. cbv zeta. rewrite Hspawn, Hwait, Hlogs.
  unfold spawnFailure, stderrOrEmpty, Js.orElse, Js.truthyStr, startupContext.
  destruct (logs_stderr logs) as [text|]; [|reflexivity].
  destruct (String.eqb text ""); reflexivity.
Qed.

(** ** The further properties at work on the small sandbox *)

Lemma ensure_returns_vetted_process_witness :
  let p := {| proc_id := "proc-1";
              proc_command := buildAgentServerCommand 8001 None;
              proc_status := "running" |} in
  let t := Async.trace (ensureAgentServer Sim.sandbox 8001 Sim.noOptions Sim.healthy) in
  Async.result (ensureAgentServer Sim.sandbox 8001 Sim.noOptions Sim.healthy) = Ok p
  /\ ((exists l,
          In (EvListProcesses (Ok l)) t
          /\ findExistingIn 8001 l = Some p
          /\ (proc_status p = "running"
              \/ In (EvWaitForPort p 8001 readinessOptions (Ok tt)) t))
      \/ (In (EvStartProcess (startCommand 8001 Sim.noOptions)
                             (startOptions Sim.noOptions) (Ok p)) t
          /\ In (EvWaitForPort p 8001 readinessOptions (Ok tt)) t
          /\ exists l, In (EvListProcesses (Ok l)) t /\ findExistingIn 8001 l = None)).
Proof.
  cbv zeta. split; [reflexivity|].
  exact (ensure_returns_vetted_process Sim.sandbox 8001 Sim.noOptions Sim.healthy
           _ eq_refl).
Defined.

Lemma spawn_only_when_absent_witness :
  so_cwd (startOptions Sim.noOptions) = DEFAULT_AGENT_SERVER_DIR
  /\ commandMatches 8001 (startCommand 8001 Sim.noOptions) = true.
Proof.
  destruct (spawn_only_when_absent Sim.sandbox 8001 Sim.noOptions Sim.healthy
              (startCommand 8001 Sim.noOptions) (startOptions Sim.noOptions)
              (Ok {| proc_id := "proc-1";
                     proc_command := buildAgentServerCommand 8001 None;
                     proc_status := "running" |})
              ltac:(right; left; reflexivity))
    as [_ [Hcwd [_ [Hm _]]]].
  split; [exact Hcwd | exact Hm].
Defined.

Lemma create_outcome_witness :
  Async.result (ensureAgentServer Sim.sandbox 8001 exposeWithoutHostname Sim.healthy)
  = Thrown (JsError hostnameRequired)
  \/ exists p,
       Async.result (ensureAgentServer Sim.sandbox 8001 exposeWithoutHostname
                                       Sim.healthy) = Ok p
       /\ opt_exposePort exposeWithoutHostname = Some true
       /\ Js.truthy (opt_hostname exposeWithoutHostname) = false
       /\ JsError hostnameRequired = JsError hostnameRequired.
Proof.
  exact (proj1 (proj1 (create_outcome Sim.sandbox exposeWithoutHostname Sim.healthy)
                      (JsError hostnameRequired)) eq_refl).
Defined.

Lemma no_exposure_unless_asked_witness :
  opt_exposePort Sim.noOptions <> Some true
  /\ countEvents isExposePort
       (Async.trace (createOpenhandsServer Sim.sandbox Sim.noOptions Sim.healthy))
     = 0%nat.
Proof.
  split; [discriminate|].
  exact (proj1 (proj2 (proj2
           (no_exposure_unless_asked Sim.sandbox Sim.noOptions Sim.healthy
              ltac:(discriminate))))).
Defined.

Lemma exposure_once_after_readiness_witness :
  countEvents isExposePort
    (Async.trace (createOpenhandsServer Sim.sandbox (Sim.exposeOn "example.com")
                                        Sim.healthy))
  = 1%nat.
Proof.
  exact (proj1 (exposure_once_after_readiness Sim.sandbox (Sim.exposeOn "example.com")
                  Sim.healthy "example.com" eq_refl eq_refl ltac:(discriminate))).
Defined.

Lemma route_locator_preview_witness :
  exists server,
    Async.result (findOpenhandsServer Sim.sandbox 8001 Sim.warming) = Ok (Some server)
    /\ srv_processId server = "proc-3".
Proof.
  destruct (route_locator_preview Sim.sandbox 8001 Sim.warming [Sim.booting]
              Sim.warming eq_refl) as [server [Hr [Hid _]]].
  exists server. split; [exact Hr | exact Hid].
Defined.

Lemma stop_route_kills_located_process_witness :
  exists r,
    List.filter isKill (Async.trace (stopRoute Sim.sandbox Sim.noOptions Sim.warming))
    = [EvKill Sim.booting "SIGTERM" r].
Proof.
  destruct (proj2 (stop_route_kills_located_process Sim.sandbox Sim.noOptions
                     Sim.warming [Sim.booting] Sim.warming eq_refl))
    as [r [Hk _]].
  exists r. exact Hk.
Defined.

Lemma status_route_reports_second_listing_witness :
  exists resp,
    Async.result (statusRoute Sim.sandbox Sim.noOptions Sim.warming) = Ok (Some resp)
    /\ resp_status resp = 200
    /\ responseField "running" resp = Some (JBool false).
Proof.
  destruct (status_route_reports_second_listing Sim.sandbox Sim.noOptions Sim.warming
              [Sim.booting] Sim.warming Sim.booting [Sim.booting] Sim.warming
              eq_refl eq_refl eq_refl)
    as [resp [Hrun [Hst [_ [Hrunning _]]]]].
  exists resp. split; [rewrite Hrun; reflexivity|]. split; [exact Hst | exact Hrunning].
Defined.

Lemma start_route_hostname_fallback_witness :
  exists resp r,
    Async.result (startRoute (fun _ => None) Sim.sandbox exposeWithoutHostname
                             startRequest Sim.healthy) = Ok (Some resp)
    /\ resp_status resp = 200
    /\ List.filter isExposePort
         (Async.trace (startRoute (fun _ => None) Sim.sandbox exposeWithoutHostname
                                  startRequest Sim.healthy))
       = [EvExposePort 8001 "worker.example.com" r].
Proof.
  exact (start_route_hostname_fallback (fun _ => None) Sim.sandbox
           exposeWithoutHostname startRequest Sim.healthy
           {| proc_id := "proc-1";
              proc_command := buildAgentServerCommand 8001 None;
              proc_status := "running" |}
           eq_refl ltac:(discriminate) eq_refl).
Defined.

Lemma handler_defers_outside_routes_witness :
  createOpenhandsHandler (fun _ => None) defaultHandlerOptions otherRequest
                         Sim.env Sim.healthy
  = (Ok None, Sim.healthy, [EvProxyToSandbox otherRequest (Ok None)]).
Proof.
  apply (handler_defers_outside_routes (fun _ => None) defaultHandlerOptions
           otherRequest Sim.env Sim.healthy); discriminate.
Defined.

Lemma attach_runs_own_handler_only_on_null_witness :
  attachOpenhandsRoutes (fun _ => None) notFoundHandler defaultHandlerOptions
                        otherRequest Sim.env Sim.healthy
  = (Ok {| resp_status := 404; resp_body := RawBody "Not found" |}, Sim.healthy,
     [EvProxyToSandbox otherRequest (Ok None)]).
Proof.
  apply (proj2 (attach_runs_own_handler_only_on_null (fun _ => None)
                  defaultHandlerOptions otherRequest Sim.env Sim.healthy Sim.healthy
                  eq_refl)); discriminate.
Defined.

Lemma check_never_throws_witness :
  exists b,
    fst (fst (checkAgentServerExists shellWithDefault (fun s => s) None tt)) = Ok b
    /\ (b = true <->
        exists r,
          fst (shellWithDefault (existsCommand DEFAULT_AGENT_SERVER_PATH) tt) = Ok r
          /\ exec_stdout r = "EXISTS").
Proof.
  exact (proj2 (proj2 (check_never_throws shellWithDefault (fun s => s) None tt))).
Defined.

Lemma command_determines_port_witness :
  buildAgentServerCommand 8001 (Some "/workspace")
  = buildAgentServerCommand 8001 (Some "/workspace")
  /\ 8001 = 8001.
Proof.
  split; [reflexivity|].
  exact (command_determines_port 8001 8001 (Some "/workspace") eq_refl).
Defined.

Lemma locator_accepts_port_prefix_witness :
  String.prefix (Js.numberToString 800) (Js.numberToString 8001) = true
  /\ findExistingIn 800
       [{| proc_id := "proc-1";
           proc_command := buildAgentServerCommand 8001 None;
           proc_status := "running" |}]
     = Some {| proc_id := "proc-1";
               proc_command := buildAgentServerCommand 8001 None;
               proc_status := "running" |}.
Proof.
  split; [reflexivity|].
  exact (locator_accepts_port_prefix 800 8001 None "proc-1" "running" eq_refl
           (or_intror eq_refl)).
Defined.

Lemma spawn_failure_message_witness :
  Async.result (startAgentServer Sim.sandbox 8001 Sim.noOptions Sim.deaf)
  = Thrown
      (OpenhandsStartupError
         "agent-server failed to start on port 8001. Stderr: Traceback: address already in use"
         {| ctx_port := 8001;
            ctx_stderr := Some "Traceback: address already in use";
            ctx_command := Some (buildAgentServerCommand 8001 None);
            ctx_processId := Some "proc-1" |}
         (JsError "Timed out waiting for port")).
Proof.
  rewrite (spawn_failure_message Sim.sandbox 8001 Sim.noOptions Sim.deaf
             (snd (startProcess Sim.sandbox (startCommand 8001 Sim.noOptions)
                                (startOptions Sim.noOptions) Sim.deaf))
             (snd (startProcess Sim.sandbox (startCommand 8001 Sim.noOptions)
                                (startOptions Sim.noOptions) Sim.deaf))
             (snd (startProcess Sim.sandbox (startCommand 8001 Sim.noOptions)
                                (startOptions Sim.noOptions) Sim.deaf))
             {| proc_id := "proc-1";
                proc_command := buildAgentServerCommand 8001 None;
                proc_status := "running" |}
             (JsError "Timed out waiting for port")
             {| logs_stdout := "";
                logs_stderr := Some "Traceback: address already in use" |}
             eq_refl eq_refl eq_refl).
  reflexivity.
Defined.
